(** * The Qt application shell of Electron Cash SLP (gui/qt/__init__.py)

    A shallow embedding of the class [ElectrumGui]: the window registry and
    the window-open flow ([start_new_window], [close_window]), the tray icon
    toggle, the update-check timer, the theme selector and [main].

    The methods run on the single GUI thread, mutate the fields of the one
    [ElectrumGui] object and call collaborators that live outside the module
    (daemon, configuration, install wizard, Qt).  They are embedded in a
    state-and-exception monad over the record [ElectrumGui]; every call to a
    collaborator is recorded in an event list, and what a collaborator answers
    is read from a record [World] of oracles.  Collaborator calls that the
    source guards with [try], or documents as raising, can raise here; the
    remaining ones (Qt widget methods, [run_hook], [print_error],
    [wallet.start_threads], [daemon.add_wallet], the constructors) return. *)

From Stdlib Require Import ZArith Lia.
From stdpp Require Import base option list strings gmap.

(** ** Data of the collaborators *)

(** [electroncash.keystore]: only the class test
    [isinstance(k, Hardware_KeyStore)] is used. *)
Inductive KeyStore := Software_KeyStore | Hardware_KeyStore.

(** A wallet as the shell sees it: [wallet.storage.path],
    [wallet.get_keystores()], [wallet.basename()]. *)
Record Wallet := {
  storage_path : string;
  get_keystores : list KeyStore;
  basename : string;
}.

(** [ElectrumWindow(self, wallet)]: a fresh Python object ([win_id] is its
    identity) holding its wallet. *)
Record ElectrumWindow := {
  win_id : nat;
  wallet : Wallet;
}.

(** Python exception classes that the module names, and a class for the rest.
    All of them derive from [BaseException]. *)
Inductive ExnClass :=
| UserCancelled | GoBack | RuntimeWarning | FileNotFoundError
| ValueError | IndexError | TypeError | NameError | AttributeError
| ImportError | AssertionError | OtherException.

(** An exception object: its class and [str(e)]. *)
Record Exn := {
  exn_class : ExnClass;
  exn_str : string;
}.

(** Values of the configuration store (JSON values). *)
Inductive CfgVal :=
| VNone
| VBool (b : bool)
| VStr (s : string).

#[export] Instance CfgVal_eq_dec : EqDecision CfgVal.
Proof. solve_decision. Defined.

(** [daemon.network]: a handle, or [None] in offline mode. *)
Inductive Network := TheNetwork.

(** A version as [version.normalize_version] returns it. *)
Definition Version := list Z.

(** A Qt style sheet. *)
Inductive StyleSheet := DarkStyleSheet (body : string).

(** ** Events: the calls that leave the shell *)

Inductive Title := TitleError | TitleHardwareWallet | TitleOffline.

Inductive Message :=
| Msg2FAUnsupported
| MsgCannotLoadWallet (detail : string)
| MsgHardwareWallet (bn : string)
| MsgOfflineMode.

Inductive Icon := IconWarning | IconCritical.

Inductive LogLine :=
| LogRepr (e : Exn)
| LogGoBack (e : Exn)
| LogOfflineSkipped
| LogIntervalSet (seconds : Z)
| LogAutoUpdateDisabled
| LogDarkstyleVersionUnknown (e : Exn)
| LogDarkThemeError (e : Exn).

Inductive WindowCall :=
| bring_to_top
| pay_to_URI (uri : string)
| setWindowState_active
| activateWindow.

Inductive Hook := on_new_window | on_close_window.

Inductive Event :=
| EvPrintError (l : LogLine)
| EvTraceback (e : Exn)
| EvOpenLastWallet
| EvGetWalletPath
| EvLoadWallet (path : option string) (res : option Wallet)
| EvLoadWalletFailed (path : option string) (e : Exn)
| EvStopWallet (path : string)
| EvAddWallet (w : Wallet)
| EvStartThreads (w : Wallet)
| EvWizardCreated (storage : option string)
| EvWizardRun (storage : option string)
| EvWizardResult (res : option Wallet)
| EvWizardInitNetwork
| EvWizardTerminate
| EvGcCollect
| EvWarning (t : Title) (m : Message) (i : Icon)
| EvNewWindow (w : ElectrumWindow)
| EvBuildTrayMenu (entries : list string)
| EvRunHook (h : Hook) (w : ElectrumWindow)
| EvWindow (w : ElectrumWindow) (c : WindowCall)
| EvSaveLastWallet (w : Wallet)
| EvAppQuit
| EvSetKey (key : string) (v : CfgVal)
| EvTraySetIcon (dark : bool)
| EvTimeout (at_ms : Z)
| EvDoCheck
| EvStylePatch (dark : bool) (darkstyle_ver : option Version)
| EvColorSchemeUpdate (force_dark : bool)
| EvInstallSigint
| EvConnectLastWindowClosed
| EvConnectCleanUp
| EvExceptionHook
| EvInitQtHook
| EvExec.

(** ** The oracles: what the collaborators answer *)

Inductive Outcome (A : Type) :=
| Ret (a : A)
| Raise (e : Exn).
Arguments Ret {A} a.
Arguments Raise {A} e.

Record World := {
  (* electroncash.util.standardize_path *)
  standardize_path : string -> string;
  (* daemon.network *)
  daemon_network : option Network;
  (* daemon.load_wallet(path, None) *)
  daemon_load_wallet : option string -> Outcome (option Wallet);
  (* daemon.stop_wallet(path) *)
  daemon_stop_wallet : string -> Outcome unit;
  (* config.get_wallet_path(), after config.open_last_wallet() *)
  config_get_wallet_path : Outcome string;
  (* os.path.dirname(os.path.abspath(p)) *)
  os_dirname_abspath : string -> string;
  (* electroncash.util.get_new_wallet_name(wallet_folder) *)
  get_new_wallet_name : string -> string;
  (* os.path.join *)
  os_path_join : string -> string -> string;
  (* InstallWizard(..., storage, ...).run_and_get_wallet() *)
  wizard_run_and_get_wallet : option string -> Outcome (option Wallet);
  (* InstallWizard(..., None).init_network(network) *)
  wizard_init_network : Outcome unit;
  (* update_checker.did_check_recently(), asked at a given time *)
  did_check_recently : Z -> bool;
  (* import qdarkstyle *)
  import_qdarkstyle : Outcome unit;
  (* qdarkstyle.load_stylesheet_pyqt5() *)
  load_stylesheet_pyqt5 : Outcome StyleSheet;
  (* version.normalize_version(qdarkstyle.__version__) *)
  normalize_version : Outcome Version;
}.

(** ** The state of the shell *)

Record QTimer := {
  singleShot : bool;
  interval : Z;          (* msec *)
  isActive : bool;
  due : Z;               (* when active: when the next timeout is due *)
}.

Record ElectrumGui := {
  config : gmap string CfgVal;
  windows : list ElectrumWindow;
  dark_icon : CfgVal;
  timer : QTimer;
  gc_timer : QTimer;
  update_checker_timer : QTimer;
  first_run : option bool;           (* update_checker_timer.first_run *)
  quitOnLastWindowClosed : bool;     (* qApp.quitOnLastWindowClosed() *)
  styleSheet : option StyleSheet;    (* qApp.styleSheet() *)
  clock : Z;                         (* msec since the process started *)
  next_win_id : nat;                 (* identity of the next new object *)
  instance : bool;                   (* ElectrumGui.instance is not None *)
}.

Definition set_config (c : gmap string CfgVal) (g : ElectrumGui) :=
  {| config := c; windows := windows g; dark_icon := dark_icon g;
     timer := timer g; gc_timer := gc_timer g;
     update_checker_timer := update_checker_timer g; first_run := first_run g;
     quitOnLastWindowClosed := quitOnLastWindowClosed g;
     styleSheet := styleSheet g; clock := clock g;
     next_win_id := next_win_id g;
     instance := instance g |}.

Definition set_windows (ws : list ElectrumWindow) (g : ElectrumGui) :=
  {| config := config g; windows := ws; dark_icon := dark_icon g;
     timer := timer g; gc_timer := gc_timer g;
     update_checker_timer := update_checker_timer g; first_run := first_run g;
     quitOnLastWindowClosed := quitOnLastWindowClosed g;
     styleSheet := styleSheet g; clock := clock g;
     next_win_id := next_win_id g;
     instance := instance g |}.

Definition set_dark_icon (v : CfgVal) (g : ElectrumGui) :=
  {| config := config g; windows := windows g; dark_icon := v;
     timer := timer g; gc_timer := gc_timer g;
     update_checker_timer := update_checker_timer g; first_run := first_run g;
     quitOnLastWindowClosed := quitOnLastWindowClosed g;
     styleSheet := styleSheet g; clock := clock g;
     next_win_id := next_win_id g;
     instance := instance g |}.

Definition set_timer (t : QTimer) (g : ElectrumGui) :=
  {| config := config g; windows := windows g; dark_icon := dark_icon g;
     timer := t; gc_timer := gc_timer g;
     update_checker_timer := update_checker_timer g; first_run := first_run g;
     quitOnLastWindowClosed := quitOnLastWindowClosed g;
     styleSheet := styleSheet g; clock := clock g;
     next_win_id := next_win_id g;
     instance := instance g |}.

Definition set_gc_timer (t : QTimer) (g : ElectrumGui) :=
  {| config := config g; windows := windows g; dark_icon := dark_icon g;
     timer := timer g; gc_timer := t;
     update_checker_timer := update_checker_timer g; first_run := first_run g;
     quitOnLastWindowClosed := quitOnLastWindowClosed g;
     styleSheet := styleSheet g; clock := clock g;
     next_win_id := next_win_id g;
     instance := instance g |}.

Definition set_update_checker_timer (t : QTimer) (g : ElectrumGui) :=
  {| config := config g; windows := windows g; dark_icon := dark_icon g;
     timer := timer g; gc_timer := gc_timer g;
     update_checker_timer := t; first_run := first_run g;
     quitOnLastWindowClosed := quitOnLastWindowClosed g;
     styleSheet := styleSheet g; clock := clock g;
     next_win_id := next_win_id g;
     instance := instance g |}.

Definition set_first_run (b : option bool) (g : ElectrumGui) :=
  {| config := config g; windows := windows g; dark_icon := dark_icon g;
     timer := timer g; gc_timer := gc_timer g;
     update_checker_timer := update_checker_timer g; first_run := b;
     quitOnLastWindowClosed := quitOnLastWindowClosed g;
     styleSheet := styleSheet g; clock := clock g;
     next_win_id := next_win_id g;
     instance := instance g |}.

Definition set_quitOnLastWindowClosed (b : bool) (g : ElectrumGui) :=
  {| config := config g; windows := windows g; dark_icon := dark_icon g;
     timer := timer g; gc_timer := gc_timer g;
     update_checker_timer := update_checker_timer g; first_run := first_run g;
     quitOnLastWindowClosed := b;
     styleSheet := styleSheet g; clock := clock g;
     next_win_id := next_win_id g;
     instance := instance g |}.

Definition set_styleSheet (ss : option StyleSheet) (g : ElectrumGui) :=
  {| config := config g; windows := windows g; dark_icon := dark_icon g;
     timer := timer g; gc_timer := gc_timer g;
     update_checker_timer := update_checker_timer g; first_run := first_run g;
     quitOnLastWindowClosed := quitOnLastWindowClosed g;
     styleSheet := ss; clock := clock g;
     next_win_id := next_win_id g;
     instance := instance g |}.

Definition set_clock (t : Z) (g : ElectrumGui) :=
  {| config := config g; windows := windows g; dark_icon := dark_icon g;
     timer := timer g; gc_timer := gc_timer g;
     update_checker_timer := update_checker_timer g; first_run := first_run g;
     quitOnLastWindowClosed := quitOnLastWindowClosed g;
     styleSheet := styleSheet g; clock := t;
     next_win_id := next_win_id g;
     instance := instance g |}.

Definition set_next_win_id (n : nat) (g : ElectrumGui) :=
  {| config := config g; windows := windows g; dark_icon := dark_icon g;
     timer := timer g; gc_timer := gc_timer g;
     update_checker_timer := update_checker_timer g; first_run := first_run g;
     quitOnLastWindowClosed := quitOnLastWindowClosed g;
     styleSheet := styleSheet g; clock := clock g;
     next_win_id := n; instance := instance g |}.

Definition set_instance (b : bool) (g : ElectrumGui) :=
  {| config := config g; windows := windows g; dark_icon := dark_icon g;
     timer := timer g; gc_timer := gc_timer g;
     update_checker_timer := update_checker_timer g; first_run := first_run g;
     quitOnLastWindowClosed := quitOnLastWindowClosed g;
     styleSheet := styleSheet g; clock := clock g;
     next_win_id := next_win_id g; instance := b |}.

(** ** The monad: state, event log, exceptions *)

Definition M (A : Type) : Type :=
  ElectrumGui -> Outcome A * ElectrumGui * list Event.

(** The result, the final state and the events of a run. *)
Definition result {A} (x : Outcome A * ElectrumGui * list Event) := x.1.1.
Definition final {A} (x : Outcome A * ElectrumGui * list Event) := x.1.2.
Definition events {A} (x : Outcome A * ElectrumGui * list Event) := x.2.

(** A run that comes after the events [l]. *)
Definition after {A} (l : list Event)
  (x : Outcome A * ElectrumGui * list Event)
  : Outcome A * ElectrumGui * list Event :=
  (result x, final x, l ++ events x).

Definition ret {A} (a : A) : M A := fun g => (Ret a, g, []).

Definition bind {A B} (m : M A) (f : A -> M B) : M B := fun g =>
  match m g with
  | (Ret a, g1, l1) => after l1 (f a g1)
  | (Raise e, g1, l1) => (Raise e, g1, l1)
  end.

Notation "'let*' x := m 'in' k" := (bind m (fun x => k))
  (at level 10, x pattern, m at level 200, k at level 200).

Notation "m >> k" := (bind m (fun _ => k))
  (at level 100, k at level 200, right associativity).

Definition get : M ElectrumGui := fun g => (Ret g, g, []).
Definition modify (f : ElectrumGui -> ElectrumGui) : M unit :=
  fun g => (Ret tt, f g, []).
Definition emit (e : Event) : M unit := fun g => (Ret tt, g, [e]).
Definition raise {A} (e : Exn) : M A := fun g => (Raise e, g, []).
Definition lift {A} (o : Outcome A) : M A := fun g => (o, g, []).

(** [try: m  except BaseException as e: h e]. *)
Definition try_except {A} (m : M A) (h : Exn -> M A) : M A := fun g =>
  match m g with
  | (Ret a, g1, l1) => (Ret a, g1, l1)
  | (Raise e, g1, l1) => after l1 (h e g1)
  end.

(** [try: m  finally: f]: [f] runs on both exits; an exception of [m]
    goes on after [f] unless [f] raises itself. *)
Definition try_finally {A} (m : M A) (f : M unit) : M A := fun g =>
  match m g with
  | (r, g1, l1) =>
      match f g1 with
      | (Ret _, g2, l2) => (r, g2, l1 ++ l2)
      | (Raise e, g2, l2) => (Raise e, g2, l1 ++ l2)
      end
  end.

(** ** Python truth values *)

(** [bool(v)] of a configuration value. *)
Definition py_bool (v : CfgVal) : bool :=
  match v with
  | VNone => false
  | VBool b => b
  | VStr s => negb (String.eqb s "")
  end.

(** [bool(path)] for a path that is [None] or a [str]. *)
Definition truthy (path : option string) : bool :=
  match path with
  | None => false
  | Some s => negb (String.eqb s "")
  end.

(** [needle in s] on strings. *)
Fixpoint str_contains (needle s : string) : bool :=
  String.prefix needle s ||
  match s with
  | EmptyString => false
  | String _ s' => str_contains needle s'
  end.

Definition is_nil {A} (l : list A) : bool :=
  match l with
  | [] => true
  | _ :: _ => false
  end.

(** ** Qt timers *)

(** [QTimer.start()] at time [now]. *)
Definition QTimer_start (now : Z) (t : QTimer) : QTimer :=
  {| singleShot := singleShot t; interval := interval t;
     isActive := true; due := (now + interval t)%Z |}.

(** [QTimer.start(msec)] at time [now]. *)
Definition QTimer_start_msec (now msec : Z) (t : QTimer) : QTimer :=
  {| singleShot := singleShot t; interval := msec;
     isActive := true; due := (now + msec)%Z |}.

(** [QTimer.stop()]. *)
Definition QTimer_stop (t : QTimer) : QTimer :=
  {| singleShot := singleShot t; interval := interval t;
     isActive := false; due := due t |}.

(** The timer after it has emitted [timeout] at its due time: a single-shot
    timer becomes inactive, a repeating one is due one interval later. *)
Definition QTimer_rearm (t : QTimer) : QTimer :=
  {| singleShot := singleShot t; interval := interval t;
     isActive := negb (singleShot t); due := (due t + interval t)%Z |}.

(** ** The methods of [ElectrumGui] *)

Section Shell.

Variable W : World.

Definition print_error (l : LogLine) : M unit := emit (EvPrintError l).

(** [self.warning(title, message, icon)]: a modal message box. *)
Definition warning (t : Title) (m : Message) (i : Icon) : M unit :=
  emit (EvWarning t m i).

Definition build_tray_menu : M unit :=
  let* g := get in
  emit (EvBuildTrayMenu ((fun w => basename (wallet w)) <$> windows g)).

Definition create_window_for_wallet (wal : Wallet) : M ElectrumWindow :=
  let* g := get in
  let w := {| win_id := next_win_id g; wallet := wal |} in
  modify (set_next_win_id (S (next_win_id g))) >>
  emit (EvNewWindow w) >>
  modify (fun g => set_windows (windows g ++ [w]) g) >>
  build_tray_menu >>
  emit (EvRunHook on_new_window w) >>
  ret w.

Definition config_open_last_wallet : M unit := emit EvOpenLastWallet.

Definition config_get_wallet_path_call : M string :=
  emit EvGetWalletPath >>
  lift (config_get_wallet_path W).

(** may raise FileNotFoundError *)
Definition get_wallet_folder : M string :=
  let* p := config_get_wallet_path_call in
  ret (os_dirname_abspath W p).

(** may raise FileNotFoundError *)
Definition get_new_wallet_path : M string :=
  let* wallet_folder := get_wallet_folder in
  let filename := get_new_wallet_name W wallet_folder in
  let full_path := os_path_join W wallet_folder filename in
  ret full_path.

Definition daemon_load_wallet_call (path : option string)
  : M (option Wallet) :=
  match daemon_load_wallet W path with
  | Ret r => emit (EvLoadWallet path r) >> ret r
  | Raise e => emit (EvLoadWalletFailed path e) >> raise e
  end.

Definition daemon_stop_wallet_call (path : string) : M unit :=
  emit (EvStopWallet path) >>
  lift (daemon_stop_wallet W path).

Definition is_hardware (k : KeyStore) : bool :=
  match k with
  | Hardware_KeyStore => true
  | Software_KeyStore => false
  end.

Definition has_hardware_keystore (wal : Wallet) : bool :=
  existsb is_hardware (get_keystores wal).

Definition _slp_warn_if_wallet_not_compat (wal : Wallet) (stop : bool)
  : M bool :=
  if has_hardware_keystore wal then
    (if stop then
       try_except (daemon_stop_wallet_call (storage_path wal))
                  (fun _ => ret tt)   (* wasn't started *)
     else ret tt) >>
    let bn := basename wal in
    warning TitleHardwareWallet (MsgHardwareWallet bn) IconWarning >>
    ret true
  else ret false.

(** The test of the scan: [not path or w.wallet.storage.path == path]. *)
Definition path_matches (path : option string) (w : ElectrumWindow) : bool :=
  negb (truthy path)
  || bool_decide (Some (storage_path (wallet w)) = path).

(** Line 291: [path and standardize_path(path)]. *)
Definition path_and_standardize_path (path : option string) : option string :=
  if truthy path then standardize_path W <$> path else path.

(** Lines 300-316: the inner [try]; gives the values of [path] and
    [wallet] after it. *)
Definition load_wallet_or_new_path (path : option string)
  : M (option string * option Wallet) :=
  try_except
    (let* wal := daemon_load_wallet_call path in
     match wal with
     | Some wl =>
         let* b := _slp_warn_if_wallet_not_compat wl true in
         if b then
           raise {| exn_class := RuntimeWarning;
                    exn_str := "User doesn't want to use this wallet" |}
         else ret (path, wal)
     | None => ret (path, wal)
     end)
    (fun e =>
       print_error (LogRepr e) >>
       let* g := get in
       if negb (is_nil (windows g)) then raise e
       else
         let* p := get_new_wallet_path in
         ret (Some p, None)).

(** Lines 318-329: the install wizard; gives the value of [wallet] after
    the [try ... finally]. *)
Definition run_install_wizard (path : option string) : M (option Wallet) :=
  emit (EvWizardCreated path) >>
  try_finally
    (try_except
       (emit (EvWizardRun path) >>
        let* r := lift (wizard_run_and_get_wallet W path) in
        emit (EvWizardResult r) >>
        ret r)
       (fun e =>
          match exn_class e with
          | UserCancelled => ret None
          | GoBack => print_error (LogGoBack e) >> ret None
          | _ => raise e
          end))
    (emit EvWizardTerminate >> emit EvGcCollect).

(** Lines 298-343: the [else] branch of the scan up to the creation of the
    window.  [None] stands for the [return] statements of the block. *)
Definition open_wallet (path : option string) : M (option Wallet) :=
  try_except
    (let* (path, wal) := load_wallet_or_new_path path in
     let* wal :=
       match wal with
       | Some wl => ret (Some wl)
       | None =>
           let* r := run_install_wizard path in
           match r with
           | None => ret None
           | Some wl =>
               emit (EvStartThreads wl) >>
               emit (EvAddWallet wl) >>
               ret (Some wl)
           end
       end in
     match wal with
     | None => ret None
     | Some wl =>
         let* b := _slp_warn_if_wallet_not_compat wl true in
         if b then ret None          (* give up... *)
         else ret (Some wl)
     end)
    (fun e =>
       emit (EvTraceback e) >>
       (if str_contains "2fa" (exn_str e) then
          warning TitleError Msg2FAUnsupported IconWarning
        else
          warning TitleError (MsgCannotLoadWallet (exn_str e)) IconCritical) >>
       ret None).

(** Lines 345-352. *)
Definition show_window (w : ElectrumWindow) (uri : option string)
  : M (option ElectrumWindow) :=
  match uri with
  | Some u => if truthy uri then emit (EvWindow w (pay_to_URI u)) else ret tt
  | None => ret tt
  end >>
  emit (EvWindow w bring_to_top) >>
  emit (EvWindow w setWindowState_active) >>
  emit (EvWindow w activateWindow) >>
  ret (Some w).

Definition start_new_window (path uri : option string)
  : M (option ElectrumWindow) :=
  let* g := get in
  let* path :=
    (if negb (truthy path) && is_nil (windows g) then
       config_open_last_wallet >>
       let* p := config_get_wallet_path_call in
       ret (Some p)
     else ret path) in
  let path := path_and_standardize_path path in
  match find (path_matches path) (windows g) with
  | Some w =>
      emit (EvWindow w bring_to_top) >>
      show_window w uri
  | None =>
      let* r := open_wallet path in
      match r with
      | None => ret None
      | Some wl =>
          let* w := create_window_for_wallet wl in
          show_window w uri
      end
  end.

(** [self.windows.remove(window)]: the first entry that is the object
    [window] is dropped; [None] when there is none (ValueError). *)
Fixpoint list_remove (window : ElectrumWindow) (l : list ElectrumWindow)
  : option (list ElectrumWindow) :=
  match l with
  | [] => None
  | x :: l' =>
      if Nat.eqb (win_id x) (win_id window) then Some l'
      else cons x <$> list_remove window l'
  end.

Definition gc_schedule : M unit :=
  modify (fun g => set_gc_timer (QTimer_start (clock g) (gc_timer g)) g).

Definition _quit_after_last_window : M unit :=
  let* g := get in
  if quitOnLastWindowClosed g then emit EvAppQuit else ret tt.

Definition close_window (window : ElectrumWindow) : M unit :=
  let* g := get in
  match list_remove window (windows g) with
  | None =>
      raise {| exn_class := ValueError;
               exn_str := "list.remove(x): x not in list" |}
  | Some ws =>
      modify (set_windows ws) >>
      build_tray_menu >>
      emit (EvRunHook on_close_window window) >>
      gc_schedule >>
      let* g := get in
      if is_nil (windows g) then
        emit (EvSaveLastWallet (wallet window)) >>
        _quit_after_last_window
      else ret tt
  end.

(** *** Configuration *)

(** Modelled from the spec: [SimpleConfig.get] is outside the module; the
    spec gives the configuration as a typed key/value store read by key
    with a default. *)
Definition config_get (key : string) (dflt : CfgVal) : M CfgVal :=
  let* g := get in
  ret (default dflt (config g !! key)).

(** Modelled from the spec: [SimpleConfig.set_key] is outside the module;
    the spec gives the configuration as a typed key/value store written by
    key. *)
Definition config_set_key (key : string) (v : CfgVal) (save : bool)
  : M unit :=
  modify (fun g => set_config (<[key := v]> (config g)) g) >>
  emit (EvSetKey key v).

(** *** Tray icon *)

(** [tray_icon]: [true] for the dark icon, [false] for the light one. *)
Definition tray_icon : M bool :=
  let* g := get in
  if py_bool (dark_icon g) then ret true else ret false.

Definition toggle_tray_icon : M unit :=
  modify (fun g => set_dark_icon (VBool (negb (py_bool (dark_icon g)))) g) >>
  let* g := get in
  config_set_key "dark_icon" (dark_icon g) true >>
  let* icon := tray_icon in
  emit (EvTraySetIcon icon).

(** *** Update-check timer *)

Definition _start_auto_update_timer (first_run : bool) : M unit :=
  modify (set_first_run (Some first_run)) >>
  let interval :=
    if first_run then (10 * 1000)%Z      (* do it very soon (in 10 seconds) *)
    else (3600 * 1000)%Z                 (* once per hour (in ms) *)
  in
  modify (fun g =>
    set_update_checker_timer
      (QTimer_start_msec (clock g) interval (update_checker_timer g)) g) >>
  print_error (LogIntervalSet (interval / 1000)).

Definition _stop_auto_update_timer : M unit :=
  modify (fun g =>
    set_update_checker_timer (QTimer_stop (update_checker_timer g)) g) >>
  print_error LogAutoUpdateDisabled.

Definition on_auto_update_timeout : M unit :=
  let* g := get in
  match daemon_network W with
  | None =>
      (* auto-update-checking never is done in offline mode *)
      print_error LogOfflineSkipped
  | Some _ =>
      if negb (did_check_recently W (clock g)) then emit EvDoCheck
      else ret tt
  end >>
  match first_run g with
  | None =>
      raise {| exn_class := AttributeError;
               exn_str := "'QTimer' object has no attribute 'first_run'" |}
  | Some true => _start_auto_update_timer false
  | Some false => ret tt
  end.

(** The event loop delivering a [timeout] of [update_checker_timer] at the
    time [now].  Qt's timers are coarse unless told otherwise, so the
    timeout may come before or after the time the timer is due; time does
    not go back.  The timer is armed again as Qt does and the slot
    [on_auto_update_timeout] runs.  A stopped timer delivers nothing. *)
Definition update_checker_timer_timeout (now : Z) : M unit :=
  let* g := get in
  let t := update_checker_timer g in
  if isActive t then
    let now := Z.max (clock g) now in
    modify (set_clock now) >>
    modify (set_update_checker_timer (QTimer_rearm t)) >>
    emit (EvTimeout now) >>
    on_auto_update_timeout
  else ret tt.

Definition has_auto_update_check : M bool :=
  let* v := config_get "auto_update_check" (VBool true) in
  ret (py_bool v).

Definition set_auto_update_check (b : bool) : M unit :=
  let* was := has_auto_update_check in
  if negb (Bool.eqb was b) then
    config_set_key "auto_update_check" (VBool b) true >>
    if b then _start_auto_update_timer false
    else _stop_auto_update_timer
  else ret tt.

(** *** Theme *)

(** The classes of the inner [except] of [set_dark_theme_if_needed]. *)
Definition version_error (c : ExnClass) : bool :=
  match c with
  | ValueError | IndexError | TypeError | NameError | AttributeError => true
  | _ => false
  end.

Definition set_dark_theme_if_needed : M unit :=
  let* theme := config_get "qt_gui_color_theme" (VStr "default") in
  let use_dark_theme := bool_decide (theme = VStr "dark") in
  let* (use_dark_theme, darkstyle_ver) :=
    (if use_dark_theme then
       try_except
         (lift (import_qdarkstyle W) >>
          let* ss := lift (load_stylesheet_pyqt5 W) in
          modify (set_styleSheet (Some ss)) >>
          let* ver :=
            try_except
              (let* v := lift (normalize_version W) in ret (Some v))
              (fun e =>
                 if version_error (exn_class e) then
                   print_error (LogDarkstyleVersionUnknown e) >>
                   ret None
                 else raise e) in
          ret (true, ver))
         (fun e =>
            print_error (LogDarkThemeError e) >>
            ret (false, None))
     else ret (false, None)) in
  emit (EvStylePatch use_dark_theme darkstyle_ver) >>
  emit (EvColorSchemeUpdate use_dark_theme).

(** *** Construction and [main] *)

Definition new_QTimer (single : bool) (msec : Z) : QTimer :=
  {| singleShot := single; interval := msec; isActive := false; due := 0 |}.

(** The object before the body of [__init__] has run, at time [now], over
    the configuration [cfg], in a process with no instance of the class
    yet. *)
Definition blank (cfg : gmap string CfgVal) (now : Z) : ElectrumGui :=
  {| config := cfg; windows := []; dark_icon := VNone;
     timer := new_QTimer false 500; gc_timer := new_QTimer true 500;
     update_checker_timer := new_QTimer false 0; first_run := None;
     quitOnLastWindowClosed := true;    (* the default of QGuiApplication *)
     styleSheet := None; clock := now; next_win_id := 0;
     instance := false |}.

Definition __init__ : M unit :=
  let* g := get in
  (if instance g then
     raise {| exn_class := AssertionError;
              exn_str := "ElectrumGui is a singleton, yet an instance appears to already exist! FIXME!" |}
   else ret tt) >>
  modify (set_instance true) >>
  modify (set_windows []) >>
  set_dark_theme_if_needed >>
  let* v := config_get "dark_icon" (VBool false) in
  modify (set_dark_icon v) >>
  let* icon := tray_icon in
  emit (EvTraySetIcon icon) >>
  build_tray_menu >>
  let* auto := has_auto_update_check in
  (if auto then _start_auto_update_timer true else ret tt) >>
  emit EvInitQtHook >>
  emit (EvColorSchemeUpdate false).

Definition init_network : M unit :=
  match daemon_network W with
  | Some _ =>
      let* auto_connect := config_get "auto_connect" VNone in
      if bool_decide (auto_connect = VNone) then
        emit (EvWizardCreated None) >>
        emit EvWizardInitNetwork >>
        lift (wizard_init_network W) >>
        emit EvWizardTerminate
      else ret tt
  | None => ret tt
  end.

(** [config.get('url')] as the [uri] argument. *)
Definition as_uri (v : CfgVal) : option string :=
  match v with
  | VStr s => Some s
  | _ => None
  end.

Definition main : M unit :=
  let* go_on :=
    try_except (init_network >> ret true)
      (fun e =>
         match exn_class e with
         | UserCancelled => ret false
         | GoBack => ret false
         | _ => emit (EvTraceback e) >> ret false
         end) in
  if negb go_on then ret tt
  else
    modify (fun g => set_timer (QTimer_start (clock g) (timer g)) g) >>
    config_open_last_wallet >>
    let* path := config_get_wallet_path_call in
    let* url := config_get "url" VNone in
    let* w := start_new_window (Some path) (as_uri url) in
    match w with
    | None => ret tt
    | Some _ =>
        emit EvInstallSigint >>
        modify (set_quitOnLastWindowClosed true) >>
        emit EvConnectLastWindowClosed >>
        emit EvConnectCleanUp >>
        emit EvExceptionHook >>
        emit EvExec            (* main loop *)
    end.

End Shell.

(** ** Runs of the shell *)

(** The entry points that the event loop, the tray menu, the preferences
    dialog and the daemon call. *)
Inductive Op :=
| OpMain
| OpStartNewWindow (path uri : option string)
| OpCloseWindow (window : ElectrumWindow)
| OpToggleTrayIcon
| OpSetAutoUpdateCheck (b : bool)
| OpUpdateCheckerTimeout (now : Z)
| OpSetDarkTheme.

(** The state after one entry point has run in the world [W]. *)
Definition step (W : World) (op : Op) (g : ElectrumGui) : ElectrumGui :=
  match op with
  | OpMain => final (main W g)
  | OpStartNewWindow path uri => final (start_new_window W path uri g)
  | OpCloseWindow w => final (close_window w g)
  | OpToggleTrayIcon => final (toggle_tray_icon g)
  | OpSetAutoUpdateCheck b => final (set_auto_update_check b g)
  | OpUpdateCheckerTimeout now => final (update_checker_timer_timeout W now g)
  | OpSetDarkTheme => final (set_dark_theme_if_needed W g)
  end.

(** The states of the shell: the constructed object, and what the entry
    points make of it.  The collaborators may answer differently each time. *)
Inductive reachable : ElectrumGui -> Prop :=
| reachable_init W cfg now :
    reachable (final (__init__ W (blank cfg now)))
| reachable_step W op g :
    reachable g -> reachable (step W op g).






(** The window that the scan of [start_new_window] stops at. *)
Definition scan (path : option string) (g : ElectrumGui)
  : option ElectrumWindow :=
  find (path_matches path) (windows g).

(** The new window of [create_window_for_wallet]. *)
Definition new_window (wal : Wallet) (g : ElectrumGui) : ElectrumWindow :=
  {| win_id := next_win_id g; wallet := wal |}.

(** The timeouts of [update_checker_timer] that the event loop delivers at
    the times [ts], one after the other. *)
Fixpoint timeouts (W : World) (ts : list Z) : M unit :=
  match ts with
  | [] => ret tt
  | t :: ts' => update_checker_timer_timeout W t >> timeouts W ts'
  end.

(** ** The window-open flow, read as one equation *)

(** Lines 285-291: the path that the scan and the daemon are given, or the
    exception of [config.get_wallet_path()]. *)
Definition lookup_path (W : World) (path : option string) (g : ElectrumGui)
  : Outcome (option string) :=
  if negb (truthy path) && is_nil (windows g) then
    match config_get_wallet_path W with
    | Ret p => Ret (path_and_standardize_path W (Some p))
    | Raise e => Raise e
    end
  else Ret (path_and_standardize_path W path).

Definition lookup_events (path : option string) (g : ElectrumGui)
  : list Event :=
  if negb (truthy path) && is_nil (windows g)
  then [EvOpenLastWallet; EvGetWalletPath]
  else [].

(** The [else] branch of the scan, and what follows it. *)
Definition open_and_show (W : World) (q uri : option string)
  : M (option ElectrumWindow) :=
  let* r := open_wallet W q in
  match r with
  | None => ret None
  | Some wl =>
      let* w := create_window_for_wallet wl in
      show_window w uri
  end.

(** The wizard ends without a message box: it gives a wallet without
    hardware keystore or no wallet, or the user cancels or goes back. *)
Definition wizard_settles (W : World) (storage : option string) : Prop :=
  match wizard_run_and_get_wallet W storage with
  | Ret None => True
  | Ret (Some wl) => has_hardware_keystore wl = false
  | Raise e => exn_class e = UserCancelled \/ exn_class e = GoBack
  end.

(** The path of [get_new_wallet_path] when the configuration gives [cp]. *)
Definition new_wallet_path (W : World) (cp : string) : string :=
  os_path_join W (os_dirname_abspath W cp)
    (get_new_wallet_name W (os_dirname_abspath W cp)).

(** The message box of the outer [except] of [start_new_window] for the
    exception [e]. *)
Definition error_dialog (e : Exn) : Event :=
  if str_contains "2fa" (exn_str e) then
    EvWarning TitleError Msg2FAUnsupported IconWarning
  else
    EvWarning TitleError (MsgCannotLoadWallet (exn_str e)) IconCritical.

(** ** Reading event lists *)

(** The message box of [_slp_warn_if_wallet_not_compat]. *)
Definition hardware_warning (wal : Wallet) : Event :=
  EvWarning TitleHardwareWallet (MsgHardwareWallet (basename wal))
    IconWarning.

(** The wallet [wal] came out of [daemon.load_wallet] or of the wizard. *)
Definition obtained (wal : Wallet) (l : list Event) : Prop :=
  (exists q, In (EvLoadWallet q (Some wal)) l)
  \/ In (EvWizardResult (Some wal)) l.

Definition is_warning (e : Event) : bool :=
  match e with
  | EvWarning _ _ _ => true
  | _ => false
  end.

(** The message box of the outer [except] of [start_new_window]. *)
Definition is_error_dialog (e : Event) : bool :=
  match e with
  | EvWarning TitleError _ _ => true
  | _ => false
  end.

Definition is_wizard_event (e : Event) : bool :=
  match e with
  | EvWizardCreated _ | EvWizardRun _ | EvWizardResult _
  | EvWizardInitNetwork | EvWizardTerminate => true
  | _ => false
  end.

Definition is_new_window (e : Event) : bool :=
  match e with
  | EvNewWindow _ => true
  | _ => false
  end.


(** The events that follow the creation of a window. *)
Definition is_shown_event (e : Event) : bool :=
  match e with
  | EvBuildTrayMenu _ | EvRunHook _ _ | EvWindow _ _ => true
  | _ => false
  end.

(** The events of a window that is created and shown. *)
Definition is_window_event (e : Event) : bool :=
  is_new_window e || is_shown_event e.

Definition is_save_last_wallet (e : Event) : bool :=
  match e with
  | EvSaveLastWallet _ => true
  | _ => false
  end.

Definition is_app_quit (e : Event) : bool :=
  match e with
  | EvAppQuit => true
  | _ => false
  end.

Definition is_do_check (e : Event) : bool :=
  match e with
  | EvDoCheck => true
  | _ => false
  end.

(** The timeouts and the update checks of an event list, in order. *)
Definition timeline (l : list Event) : list Event :=
  List.filter
    (fun e => match e with
              | EvTimeout _ | EvDoCheck => true
              | _ => false
              end) l.

(** What a timeout delivered at the time [t] should look like: an update
    check is made when the shell is online and no check was made
    recently. *)
Definition timeout_at (W : World) (t : Z) : list Event :=
  EvTimeout t ::
  match daemon_network W with
  | None => []
  | Some _ => if did_check_recently W t then [] else [EvDoCheck]
  end.

(** What the timeouts delivered at the times [ts], from the time [c] on,
    should look like; time does not go back. *)
Fixpoint timeouts_at (W : World) (c : Z) (ts : list Z) : list Event :=
  match ts with
  | [] => []
  | t :: ts' => timeout_at W (Z.max c t) ++ timeouts_at W (Z.max c t) ts'
  end.

(** [emits P m]: every event of every run of [m] satisfies [P]. *)
Definition emits {A} (P : Event -> Prop) (m : M A) : Prop :=
  forall g, Forall P (events (m g)).

(** [keeps m]: no run of [m] changes the state. *)
Definition keeps {A} (m : M A) : Prop :=
  forall g, final (m g) = g.

(** [maintains I m]: every run of [m] from a state in [I] ends in [I]. *)
Definition maintains {A} (I : ElectrumGui -> Prop) (m : M A) : Prop :=
  forall g, I g -> I (final (m g)).

(** ** Sample worlds *)

Definition software_wallet (p : string) : Wallet :=
  {| storage_path := p; get_keystores := [Software_KeyStore];
     basename := p |}.

Definition hardware_wallet (p : string) : Wallet :=
  {| storage_path := p;
     get_keystores := [Software_KeyStore; Hardware_KeyStore];
     basename := p |}.

Definition file_not_found : Exn :=
  {| exn_class := FileNotFoundError;
     exn_str := "Electron Cash datadir does not exist." |}.

Definition cannot_read : Exn :=
  {| exn_class := OtherException; exn_str := "Cannot read wallet file" |}.

(** Online; every path holds a wallet without hardware keystore; the wizard
    makes such a wallet at the path it is given. *)
Definition plain_world : World :=
  {| standardize_path := fun p => p;
     daemon_network := Some TheNetwork;
     daemon_load_wallet := fun p =>
       match p with
       | Some s => Ret (Some (software_wallet s))
       | None => Ret None
       end;
     daemon_stop_wallet := fun _ => Ret tt;
     config_get_wallet_path := Ret "/wallets/default_wallet";
     os_dirname_abspath := fun _ => "/wallets";
     get_new_wallet_name := fun _ => "wallet_1";
     os_path_join := fun d f => d +:+ "/" +:+ f;
     wizard_run_and_get_wallet := fun p =>
       match p with
       | Some s => Ret (Some (software_wallet s))
       | None => Ret None
       end;
     wizard_init_network := Ret tt;
     did_check_recently := fun _ => false;
     import_qdarkstyle := Ret tt;
     load_stylesheet_pyqt5 := Ret (DarkStyleSheet "QWidget {}");
     normalize_version := Ret [2; 6; 8]%Z |}.

(** As [plain_world], but no wallet file can be read. *)
Definition unreadable_world : World :=
  {| standardize_path := standardize_path plain_world;
     daemon_network := daemon_network plain_world;
     daemon_load_wallet := fun _ => Raise cannot_read;
     daemon_stop_wallet := daemon_stop_wallet plain_world;
     config_get_wallet_path := config_get_wallet_path plain_world;
     os_dirname_abspath := os_dirname_abspath plain_world;
     get_new_wallet_name := get_new_wallet_name plain_world;
     os_path_join := os_path_join plain_world;
     wizard_run_and_get_wallet := wizard_run_and_get_wallet plain_world;
     wizard_init_network := wizard_init_network plain_world;
     did_check_recently := did_check_recently plain_world;
     import_qdarkstyle := import_qdarkstyle plain_world;
     load_stylesheet_pyqt5 := load_stylesheet_pyqt5 plain_world;
     normalize_version := normalize_version plain_world |}.

(** As [unreadable_world], and the data directory is gone:
    [config.get_wallet_path()] raises FileNotFoundError. *)
Definition no_datadir_world : World :=
  {| standardize_path := standardize_path plain_world;
     daemon_network := daemon_network plain_world;
     daemon_load_wallet := fun _ => Raise cannot_read;
     daemon_stop_wallet := daemon_stop_wallet plain_world;
     config_get_wallet_path := Raise file_not_found;
     os_dirname_abspath := os_dirname_abspath plain_world;
     get_new_wallet_name := get_new_wallet_name plain_world;
     os_path_join := os_path_join plain_world;
     wizard_run_and_get_wallet := wizard_run_and_get_wallet plain_world;
     wizard_init_network := wizard_init_network plain_world;
     did_check_recently := did_check_recently plain_world;
     import_qdarkstyle := import_qdarkstyle plain_world;
     load_stylesheet_pyqt5 := load_stylesheet_pyqt5 plain_world;
     normalize_version := normalize_version plain_world |}.

(** As [plain_world], but the wallets have a hardware keystore and the
    daemon cannot stop them. *)
Definition hardware_world : World :=
  {| standardize_path := standardize_path plain_world;
     daemon_network := daemon_network plain_world;
     daemon_load_wallet := fun p =>
       match p with
       | Some s => Ret (Some (hardware_wallet s))
       | None => Ret None
       end;
     daemon_stop_wallet := fun _ =>
       Raise {| exn_class := OtherException; exn_str := "not started" |};
     config_get_wallet_path := config_get_wallet_path plain_world;
     os_dirname_abspath := os_dirname_abspath plain_world;
     get_new_wallet_name := get_new_wallet_name plain_world;
     os_path_join := os_path_join plain_world;
     wizard_run_and_get_wallet := wizard_run_and_get_wallet plain_world;
     wizard_init_network := wizard_init_network plain_world;
     did_check_recently := did_check_recently plain_world;
     import_qdarkstyle := import_qdarkstyle plain_world;
     load_stylesheet_pyqt5 := load_stylesheet_pyqt5 plain_world;
     normalize_version := normalize_version plain_world |}.

(** As [plain_world], but offline. *)
Definition offline_world : World :=
  {| standardize_path := standardize_path plain_world;
     daemon_network := None;
     daemon_load_wallet := daemon_load_wallet plain_world;
     daemon_stop_wallet := daemon_stop_wallet plain_world;
     config_get_wallet_path := config_get_wallet_path plain_world;
     os_dirname_abspath := os_dirname_abspath plain_world;
     get_new_wallet_name := get_new_wallet_name plain_world;
     os_path_join := os_path_join plain_world;
     wizard_run_and_get_wallet := wizard_run_and_get_wallet plain_world;
     wizard_init_network := wizard_init_network plain_world;
     did_check_recently := did_check_recently plain_world;
     import_qdarkstyle := import_qdarkstyle plain_world;
     load_stylesheet_pyqt5 := load_stylesheet_pyqt5 plain_world;
     normalize_version := normalize_version plain_world |}.

(** As [plain_world], but the version of qdarkstyle cannot be read. *)
Definition odd_version_world : World :=
  {| standardize_path := standardize_path plain_world;
     daemon_network := daemon_network plain_world;
     daemon_load_wallet := daemon_load_wallet plain_world;
     daemon_stop_wallet := daemon_stop_wallet plain_world;
     config_get_wallet_path := config_get_wallet_path plain_world;
     os_dirname_abspath := os_dirname_abspath plain_world;
     get_new_wallet_name := get_new_wallet_name plain_world;
     os_path_join := os_path_join plain_world;
     wizard_run_and_get_wallet := wizard_run_and_get_wallet plain_world;
     wizard_init_network := wizard_init_network plain_world;
     did_check_recently := did_check_recently plain_world;
     import_qdarkstyle := import_qdarkstyle plain_world;
     load_stylesheet_pyqt5 := load_stylesheet_pyqt5 plain_world;
     normalize_version :=
       Raise {| exn_class := ValueError;
                exn_str := "invalid literal for int()" |} |}.

(** As [plain_world], but the user cancels the network wizard. *)
Definition cancelling_world : World :=
  {| standardize_path := standardize_path plain_world;
     daemon_network := daemon_network plain_world;
     daemon_load_wallet := daemon_load_wallet plain_world;
     daemon_stop_wallet := daemon_stop_wallet plain_world;
     config_get_wallet_path := config_get_wallet_path plain_world;
     os_dirname_abspath := os_dirname_abspath plain_world;
     get_new_wallet_name := get_new_wallet_name plain_world;
     os_path_join := os_path_join plain_world;
     wizard_run_and_get_wallet := wizard_run_and_get_wallet plain_world;
     wizard_init_network :=
       Raise {| exn_class := UserCancelled; exn_str := "" |};
     did_check_recently := did_check_recently plain_world;
     import_qdarkstyle := import_qdarkstyle plain_world;
     load_stylesheet_pyqt5 := load_stylesheet_pyqt5 plain_world;
     normalize_version := normalize_version plain_world |}.



(** The shell after [__init__] in the world [W], over an empty
    configuration, at time 0. *)
Definition started (W : World) : ElectrumGui :=
  final (__init__ W (blank ∅ 0)).

(** The shell with the wallet at [p] open. *)
Definition opened (W : World) (p : string) : ElectrumGui :=
  final (start_new_window W (Some p) None (started W)).

(** ** Predicates on states *)

(** [qApp.quitOnLastWindowClosed()] is true in every state of the shell:
    it is Qt's default and only [main] sets it, to [True]. *)
Definition quits_on_last_window (g : ElectrumGui) : Prop :=
  quitOnLastWindowClosed g = true.

(** [config.get("dark_icon", False)] in the state [g]. *)
Definition persisted_dark_icon (g : ElectrumGui) : CfgVal :=
  default (VBool false) (config g !! "dark_icon").

(** [self.config.get('qt_gui_color_theme', 'default') == 'dark']. *)
Definition theme_requested (g : ElectrumGui) : bool :=
  bool_decide
    (default (VStr "default") (config g !! "qt_gui_color_theme")
     = VStr "dark").

(** What [set_dark_theme_if_needed] hands to the style patcher and to the
    colour scheme ([dark], [ver]) and the state [g'] it leaves, from the
    state [g]:
    - dark theme not requested: light, the state untouched;
    - qdarkstyle cannot be imported or its style sheet not loaded: light,
      the state untouched;
    - the style sheet is loaded and the version is read: dark, with the
      version, the style sheet applied;
    - the style sheet is loaded and the version cannot be determined (the
      five classes of the inner [except]): dark all the same, without
      version, the style sheet applied;
    - reading the version fails in another way: light, without version. *)
Definition theme_outcome (W : World) (g : ElectrumGui)
  (dark : bool) (ver : option Version) (g' : ElectrumGui) : Prop :=
  if theme_requested g then
    match import_qdarkstyle W, load_stylesheet_pyqt5 W with
    | Ret _, Ret ss =>
        match normalize_version W with
        | Ret v =>
            dark = true /\ ver = Some v /\ g' = set_styleSheet (Some ss) g
        | Raise e =>
            if version_error (exn_class e)
            then dark = true /\ ver = None
                 /\ g' = set_styleSheet (Some ss) g
            else dark = false /\ ver = None
        end
    | _, _ => dark = false /\ ver = None /\ g' = g
    end
  else dark = false /\ ver = None /\ g' = g.

(** A line of the log. *)
Definition is_print_error (e : Event) : bool :=
  match e with
  | EvPrintError _ => true
  | _ => false
  end.

(** The update-check timer runs, repeating, in its first run (10 s) or
    after it (one hour). *)
Definition timer_runs (fr : bool) (g : ElectrumGui) : Prop :=
  let t := update_checker_timer g in
  first_run g = Some fr
  /\ isActive t = true
  /\ singleShot t = false
  /\ interval t = (if fr then 10000 else 3600000)%Z.

(** ** Further methods, and what the properties below speak of *)

(** The entries of the tray menu for a registry. *)
Definition tray_entries (ws : list ElectrumWindow) : list string :=
  (fun w => basename (wallet w)) <$> ws.

(** The registry holds distinct window objects, all made before the next
    one. *)
Definition registry_ok (g : ElectrumGui) : Prop :=
  NoDup (win_id <$> windows g)
  /\ Forall (fun w => win_id w < next_win_id g) (windows g).

Definition is_pay_to_URI (e : Event) : bool :=
  match e with
  | EvWindow _ (pay_to_URI _) => true
  | _ => false
  end.

Definition is_build_tray_menu (e : Event) : bool :=
  match e with
  | EvBuildTrayMenu _ => true
  | _ => false
  end.

(** The state after [create_window_for_wallet(wal)]. *)
Definition with_new_window (wal : Wallet) (g : ElectrumGui) : ElectrumGui :=
  set_windows (windows g ++ [new_window wal g])
    (set_next_win_id (S (next_win_id g)) g).

(** The update-check timer repeats, it runs only after
    [_start_auto_update_timer] has set its [first_run] attribute, and it is
    set to 10 s in its first run and to one hour after it. *)
Definition timer_ok (g : ElectrumGui) : Prop :=
  singleShot (update_checker_timer g) = false
  /\ (isActive (update_checker_timer g) = true -> first_run g <> None)
  /\ (forall b, first_run g = Some b ->
      interval (update_checker_timer g)
      = (if b then 10000 else 3600000)%Z).

(** The garbage-collection timer as [__init__] sets it up: single-shot,
    500 ms. *)
Definition gc_timer_ok (g : ElectrumGui) : Prop :=
  singleShot (gc_timer g) = true /\ interval (gc_timer g) = 500%Z.

(** The tray flag is the persisted preference. *)
Definition icon_ok (g : ElectrumGui) : Prop :=
  dark_icon g = persisted_dark_icon g.

(** The fields that the invariants read. *)
Definition registry_fields (g : ElectrumGui) := (windows g, next_win_id g).
Definition timer_fields (g : ElectrumGui) :=
  (update_checker_timer g, first_run g).
Definition icon_fields (g : ElectrumGui) :=
  (dark_icon g, config g !! "dark_icon").

(** The states in which all of the above hold. *)
Definition shell_ok (g : ElectrumGui) : Prop :=
  registry_ok g /\ timer_ok g /\ gc_timer_ok g /\ icon_ok g.

(** [ElectrumGui.gc], the slot of [gc_timer.timeout]. *)
Definition gc : M unit := emit EvGcCollect.

(** The event loop delivering a [timeout] of [gc_timer] at the time [now]
    (before or after the time the timer is due: the timer is coarse; time
    does not go back): the timer is armed again as Qt does (a single-shot
    timer stops) and the slot [gc] runs.  A stopped timer delivers
    nothing. *)
Definition gc_timer_timeout (now : Z) : M unit :=
  let* g := get in
  let t := gc_timer g in
  if isActive t then
    let now := Z.max (clock g) now in
    modify (set_clock now) >>
    modify (set_gc_timer (QTimer_rearm t)) >>
    gc
  else ret tt.

(** The timeouts of [gc_timer] that the event loop delivers at the times
    [ts], one after the other. *)
Fixpoint gc_timer_timeouts (ts : list Z) : M unit :=
  match ts with
  | [] => ret tt
  | t :: ts' => gc_timer_timeout t >> gc_timer_timeouts ts'
  end.

(** Time passes until [t] (it does not go back) and the event loop
    delivers nothing. *)
Definition tick (t : Z) : M unit :=
  modify (fun g => set_clock (Z.max (clock g) t) g).

(** Calls of [gc_schedule] at the times [ts], with no timeout of
    [gc_timer] delivered in between. *)
Fixpoint gc_schedules (ts : list Z) : M unit :=
  match ts with
  | [] => ret tt
  | t :: ts' => tick t >> gc_schedule >> gc_schedules ts'
  end.

(** A Qt event as [eventFilter] reads it: [event.type()] and, for
    [QEvent.FileOpen], [event.url().toString()]. *)
Inductive QEvent :=
| FileOpen (url : string)
| OtherQEvent.

(** This event filter allows us to open bitcoincash: URIs on macOS *)
Definition eventFilter (event : QEvent) : M bool :=
  match event with
  | FileOpen url =>
      let* g := get in
      match windows g with
      | w :: _ => emit (EvWindow w (pay_to_URI url)) >> ret true
      | [] => ret false
      end
  | OtherQEvent => ret false
  end.

Definition is_dark_theme_available (W : World) : M bool :=
  try_except (lift (import_qdarkstyle W) >> ret true) (fun _ => ret false).

(** The number of events of a kind. *)
Definition count_events (P : Event -> bool) (l : list Event) : nat :=
  length (List.filter P l).

Definition is_wizard_created (e : Event) : bool :=
  match e with
  | EvWizardCreated _ => true
  | _ => false
  end.

Definition is_wizard_terminate (e : Event) : bool :=
  match e with
  | EvWizardTerminate => true
  | _ => false
  end.

Definition is_gc_collect (e : Event) : bool :=
  match e with
  | EvGcCollect => true
  | _ => false
  end.

(** The exception that [start_new_window] raises to itself when the wallet
    that the daemon loaded has a hardware keystore. *)
Definition unwanted_wallet : Exn :=
  {| exn_class := RuntimeWarning;
     exn_str := "User doesn't want to use this wallet" |}.

(** * Reasoning about runs *)

Section Rules.

Context {A B : Type}.

Section Emits.

Variable P : Event -> Prop.

Lemma emits_ret (a : A) : emits P (ret a).
Proof. intros g. constructor. Qed.

Lemma emits_get : emits P get.
Proof. intros g. constructor. Qed.

Lemma emits_modify f : emits P (modify f).
Proof. intros g. constructor. Qed.

Lemma emits_raise e : emits P (@raise A e).
Proof. intros g. constructor. Qed.

Lemma emits_lift (o : Outcome A) : emits P (lift o).
Proof. intros g. constructor. Qed.

Lemma emits_emit e : P e -> emits P (emit e).
Proof. intros H g. repeat constructor. exact H. Qed.

Lemma emits_bind (m : M A) (f : A -> M B) :
  emits P m -> (forall a, emits P (f a)) -> emits P (bind m f).
Proof.
  intros Hm Hf g. specialize (Hm g). unfold bind.
  destruct (m g) as [[[a|e] g1] l1]; cbn in *; [|exact Hm].
  apply Forall_app; split; [exact Hm | apply Hf].
Qed.

Lemma emits_try_except (m : M A) h :
  emits P m -> (forall e, emits P (h e)) -> emits P (try_except m h).
Proof.
  intros Hm Hh g. specialize (Hm g). unfold try_except.
  destruct (m g) as [[[a|e] g1] l1]; cbn in *; [exact Hm|].
  apply Forall_app; split; [exact Hm | apply Hh].
Qed.

Lemma emits_try_finally (m : M A) f :
  emits P m -> emits P f -> emits P (try_finally m f).
Proof.
  intros Hm Hf g. specialize (Hm g). unfold try_finally.
  destruct (m g) as [[r g1] l1]; cbn in *.
  specialize (Hf g1). destruct (f g1) as [[[[]|e] g2] l2]; cbn in *;
    apply Forall_app; split; assumption.
Qed.

End Emits.

Section Maintains.

Variable I : ElectrumGui -> Prop.

Lemma maintains_keeps (m : M A) : keeps m -> maintains I m.
Proof. intros H g Hg. rewrite H. exact Hg. Qed.

Lemma maintains_modify f : (forall g, I g -> I (f g)) -> maintains I (modify f).
Proof. intros H g Hg. apply H, Hg. Qed.

Lemma maintains_bind (m : M A) (f : A -> M B) :
  maintains I m -> (forall a, maintains I (f a)) -> maintains I (bind m f).
Proof.
  intros Hm Hf g Hg. specialize (Hm g Hg). unfold bind.
  destruct (m g) as [[[a|e] g1] l1]; cbn in *; [|exact Hm].
  apply Hf, Hm.
Qed.

Lemma maintains_try_except (m : M A) h :
  maintains I m -> (forall e, maintains I (h e)) ->
  maintains I (try_except m h).
Proof.
  intros Hm Hh g Hg. specialize (Hm g Hg). unfold try_except.
  destruct (m g) as [[[a|e] g1] l1]; cbn in *; [exact Hm|].
  apply Hh, Hm.
Qed.

Lemma maintains_try_finally (m : M A) f :
  maintains I m -> maintains I f -> maintains I (try_finally m f).
Proof.
  intros Hm Hf g Hg. specialize (Hm g Hg). unfold try_finally.
  destruct (m g) as [[r g1] l1]; cbn in *.
  specialize (Hf g1 Hm). destruct (f g1) as [[[[]|e] g2] l2]; cbn in *;
    exact Hf.
Qed.

End Maintains.

Lemma keeps_ret (a : A) : keeps (ret a).
Proof. intros g. reflexivity. Qed.

Lemma keeps_get : keeps get.
Proof. intros g. reflexivity. Qed.

Lemma keeps_raise e : keeps (@raise A e).
Proof. intros g. reflexivity. Qed.

Lemma keeps_lift (o : Outcome A) : keeps (lift o).
Proof. intros g. reflexivity. Qed.

Lemma keeps_emit e : keeps (emit e).
Proof. intros g. reflexivity. Qed.

Lemma keeps_bind (m : M A) (f : A -> M B) :
  keeps m -> (forall a, keeps (f a)) -> keeps (bind m f).
Proof.
  intros Hm Hf g. specialize (Hm g). unfold bind.
  destruct (m g) as [[[a|e] g1] l1]; cbn in *; [|exact Hm]. subst g1.
  apply Hf.
Qed.

Lemma keeps_try_except (m : M A) h :
  keeps m -> (forall e, keeps (h e)) -> keeps (try_except m h).
Proof.
  intros Hm Hh g. specialize (Hm g). unfold try_except.
  destruct (m g) as [[[a|e] g1] l1]; cbn in *; [exact Hm|]. subst g1.
  apply Hh.
Qed.

Lemma keeps_try_finally (m : M A) f :
  keeps m -> keeps f -> keeps (try_finally m f).
Proof.
  intros Hm Hf g. specialize (Hm g). unfold try_finally.
  destruct (m g) as [[r g1] l1]; cbn in *. subst g1.
  specialize (Hf g). destruct (f g) as [[[[]|e] g2] l2]; cbn in *;
    exact Hf.
Qed.

(** A [bind] run, read through the parts of the run of its first half. *)
Lemma run_bind (m : M A) (f : A -> M B) g :
  bind m f g =
  match result (m g) with
  | Ret a => after (events (m g)) (f a (final (m g)))
  | Raise e => (Raise e, final (m g), events (m g))
  end.
Proof. unfold bind. destruct (m g) as [[[a|e] g1] l1]; reflexivity. Qed.

(** Inversion of runs. *)
Lemma bind_inv (m : M A) (f : A -> M B) g r g' l :
  bind m f g = (r, g', l) ->
  (exists a g1 l1 l2,
      m g = (Ret a, g1, l1) /\ f a g1 = (r, g', l2) /\ l = l1 ++ l2)
  \/ (exists e, m g = (Raise e, g', l) /\ r = Raise e).
Proof.
  unfold bind. destruct (m g) as [[[a|e] g1] l1].
  - destruct (f a g1) as [[r2 g2] l2] eqn:E. cbn. intros [= <- <- <-].
    left. exists a, g1, l1, l2. rewrite E. repeat split.
  - intros [= <- <- <-]. right. exists e. split; reflexivity.
Qed.

Lemma try_except_inv (m : M A) h g r g' l :
  try_except m h g = (r, g', l) ->
  (exists a, m g = (Ret a, g', l) /\ r = Ret a)
  \/ (exists e g1 l1 l2,
        m g = (Raise e, g1, l1) /\ h e g1 = (r, g', l2) /\ l = l1 ++ l2).
Proof.
  unfold try_except. destruct (m g) as [[[a|e] g1] l1].
  - intros [= <- <- <-]. left. exists a. split; reflexivity.
  - destruct (h e g1) as [[r2 g2] l2] eqn:E. cbn. intros [= <- <- <-].
    right. exists e, g1, l1, l2. rewrite E. repeat split.
Qed.

Lemma try_finally_inv (m : M A) f g r g' l :
  try_finally m f g = (r, g', l) ->
  exists r1 g1 l1 r2 l2,
    m g = (r1, g1, l1) /\ f g1 = (r2, g', l2) /\ l = l1 ++ l2
    /\ r = match r2 with Ret _ => r1 | Raise e => Raise e end.
Proof.
  unfold try_finally. destruct (m g) as [[r1 g1] l1].
  destruct (f g1) as [[[[]|e] g2] l2] eqn:E; intros [= <- <- <-].
  - exists r1, g1, l1, (Ret tt), l2. rewrite E. repeat split.
  - exists r1, g1, l1, (Raise e), l2. rewrite E. repeat split.
Qed.

End Rules.

(** The hint database [shell] collects the lemmas proved about whole
    methods; the rules above are applied by [step_shell]. *)
Create HintDb shell discriminated.

(** Splits a goal [emits P m], [keeps m] or [maintains I m] along the
    structure of [m]. *)
Ltac step_shell :=
  first
    [ apply emits_bind | apply emits_try_except
    | apply emits_try_finally | apply emits_ret | apply emits_get
    | apply emits_modify | apply emits_raise | apply emits_lift
    | apply keeps_bind | apply keeps_try_except
    | apply keeps_try_finally | apply keeps_ret | apply keeps_get
    | apply keeps_raise | apply keeps_lift | apply keeps_emit
    | apply maintains_bind | apply maintains_try_except
    | apply maintains_try_finally
    | (apply maintains_keeps; step_shell)
    | (apply maintains_modify; cbn; solve [auto])
    | (apply emits_emit; cbn; solve [auto | discriminate | congruence]) ].

Ltac shell :=
  repeat (intros; first
    [ solve [auto 1 with shell nocore]
    | step_shell
    | match goal with
      | |- context [match ?x with _ => _ end] => destruct x
      | |- context [if ?b then _ else _] => destruct b
      end ]).

(** Takes the run [H : m g = (r, g', l)] apart along the structure of [m],
    one case for each way through [m]. *)
Ltac inv_leaf H := inversion H; subst; clear H.

Ltac inv_eq E := first [discriminate E | inversion E; clear E; subst].

(** What [inv_run] does with the run of a method that it does not take
    apart; set where a lemma gives that run. *)
Ltac inv_other H := idtac.

Ltac inv_run H :=
  lazymatch type of H with
  | bind _ _ _ = _ =>
      apply bind_inv in H;
      let H1 := fresh "Hrun" in let H2 := fresh "Hrun" in
      let E := fresh "E" in
      destruct H as [(? & ? & ? & ? & H1 & H2 & E) | (? & H1 & E)];
      [subst; inv_run H1; inv_run H2
      | inv_eq E; inv_run H1]
  | try_except _ _ _ = _ =>
      apply try_except_inv in H;
      let H1 := fresh "Hrun" in let H2 := fresh "Hrun" in
      let E := fresh "E" in
      destruct H as [(? & H1 & E) | (? & ? & ? & ? & H1 & H2 & E)];
      [inv_eq E; inv_run H1
      | subst; inv_run H1; inv_run H2]
  | try_finally _ _ _ = _ =>
      apply try_finally_inv in H;
      let H1 := fresh "Hrun" in let H2 := fresh "Hrun" in
      let E := fresh "E" in
      destruct H as (? & ? & ? & ? & ? & H1 & H2 & ? & E);
      subst; inv_run H2; inv_eq E; inv_run H1
  | ret _ _ = _ => inv_leaf H
  | get _ = _ => inv_leaf H
  | modify _ _ = _ => inv_leaf H
  | emit _ _ = _ => inv_leaf H
  | raise _ _ = _ => inv_leaf H
  | lift _ _ = _ => unfold lift in H; inv_leaf H
  | (match ?x with _ => _ end) _ = _ =>
      first
        [ progress cbv beta iota in H
        | match goal with
          | E : x = _ |- _ => rewrite E in H
          end
        | destruct x eqn:? ];
      inv_run H
  | _ => inv_other H
  end.

(** Names the parts of the run [m g] in the goal and takes it apart. *)
Ltac run_of m g :=
  let r := fresh "r" in let g' := fresh "g'" in let l := fresh "l" in
  let H := fresh "Hrun" in
  destruct (m g) as [[r g'] l] eqn:H;
  cbn [result final events fst snd] in *.

(** Takes [H : In e l] apart for a list [l] that is written out. *)
Ltac ev_hyp H :=
  cbn [In app] in H;
  repeat match type of H with
         | _ \/ _ => destruct H as [H|H]
         end;
  try (exfalso; exact H); try discriminate H;
  try (injection H as ?; subst).

(** Two answers of the same oracle are the same answer. *)
Ltac same_answer :=
  repeat match goal with
         | H1 : ?t = Ret ?a, H2 : ?t = Ret ?b |- _ =>
             assert (a = b) by congruence; subst; clear H2
         end.

(** * The window-open flow *)

Section OpenFlow.

Variable W : World.

(** The hardware check: its answer is the keystore test; with a hardware
    keystore the daemon is asked to stop the wallet and the message box is
    shown, whether or not the stop raises. *)
Lemma slp_warn_run wal g :
  _slp_warn_if_wallet_not_compat W wal true g =
  (Ret (has_hardware_keystore wal), g,
   if has_hardware_keystore wal
   then [EvStopWallet (storage_path wal); hardware_warning wal]
   else []).
Proof.
  unfold _slp_warn_if_wallet_not_compat, daemon_stop_wallet_call, warning.
  destruct (has_hardware_keystore wal); [|reflexivity].
  cbv [bind try_except emit lift after result final events fst snd ret].
  destruct (daemon_stop_wallet W (storage_path wal)) as [[]|e]; reflexivity.
Qed.

(** Up to the creation of the window nothing is written to the state. *)
Lemma keeps_slp_warn wal stop :
  keeps (_slp_warn_if_wallet_not_compat W wal stop).
Proof.
  unfold _slp_warn_if_wallet_not_compat, daemon_stop_wallet_call, warning.
  shell.
Qed.

Lemma keeps_get_new_wallet_path : keeps (get_new_wallet_path W).
Proof.
  unfold get_new_wallet_path, get_wallet_folder, config_get_wallet_path_call.
  shell.
Qed.

Hint Resolve keeps_slp_warn keeps_get_new_wallet_path : shell.

Lemma keeps_load_wallet_or_new_path path :
  keeps (load_wallet_or_new_path W path).
Proof.
  unfold load_wallet_or_new_path, daemon_load_wallet_call, print_error.
  shell.
Qed.

Lemma keeps_run_install_wizard path : keeps (run_install_wizard W path).
Proof. unfold run_install_wizard, print_error. shell. Qed.

Hint Resolve keeps_load_wallet_or_new_path keeps_run_install_wizard : shell.

Lemma keeps_open_wallet path : keeps (open_wallet W path).
Proof. unfold open_wallet, warning. shell. Qed.

(** [show_window] touches only the window it is given. *)
Lemma show_window_run w uri g :
  let r := show_window w uri g in
  result r = Ret (Some w) /\ final r = g
  /\ In (EvWindow w bring_to_top) (events r)
  /\ Forall (fun e => exists c, e = EvWindow w c) (events r).
Proof.
  unfold show_window.
  destruct uri as [u|]; [destruct (truthy (Some u))|]; cbn;
    (split; [reflexivity|]); (split; [reflexivity|]);
    (split; [cbn; tauto|]); repeat constructor; eauto.
Qed.

Lemma create_window_for_wallet_run wal g :
  let r := create_window_for_wallet wal g in
  result r = Ret (new_window wal g)
  /\ windows (final r) = windows g ++ [new_window wal g]
  /\ events r =
       [EvNewWindow (new_window wal g);
        EvBuildTrayMenu
          ((fun w => basename (wallet w))
             <$> (windows g ++ [new_window wal g]));
        EvRunHook on_new_window (new_window wal g)].
Proof. repeat split. Qed.

(** [start_new_window] in three steps: the path is looked up, the registry
    is scanned, and the window found is raised or a wallet is opened. *)
Lemma start_new_window_eq path uri g :
  start_new_window W path uri g =
  match lookup_path W path g with
  | Raise e => (Raise e, g, lookup_events path g)
  | Ret q =>
      after (lookup_events path g)
        match scan q g with
        | Some w => after [EvWindow w bring_to_top] (show_window w uri g)
        | None => open_and_show W q uri g
        end
  end.
Proof.
  unfold start_new_window, lookup_path, lookup_events, scan, open_and_show,
    config_open_last_wallet, config_get_wallet_path_call.
  rewrite run_bind. cbn [get result final events fst snd].
  destruct (negb (truthy path) && is_nil (windows g)).
  - rewrite run_bind.
    destruct (config_get_wallet_path W) as [p|e]; [|reflexivity].
    cbn. destruct (find _ _); reflexivity.
  - rewrite run_bind. cbn.
    destruct (find _ _); reflexivity.
Qed.

(** ** What a call obtains, and what becomes of it *)

Ltac inv_other H ::=
  lazymatch type of H with
  | _slp_warn_if_wallet_not_compat _ ?w true _ = _ =>
      rewrite slp_warn_run in H;
      first
        [ match goal with
          | E : has_hardware_keystore w = _ |- _ => rewrite E in H
          end
        | destruct (has_hardware_keystore w) eqn:? ];
      inv_leaf H
  | _ => idtac
  end.

Ltac unfold_open H :=
  unfold open_wallet, load_wallet_or_new_path, run_install_wizard,
    daemon_load_wallet_call, get_new_wallet_path, get_wallet_folder,
    config_get_wallet_path_call, warning, print_error in H.

(** [open_wallet] raises nothing; a wallet it gives has no hardware
    keystore; for every wallet with a hardware keystore that the daemon or
    the wizard hands over, the daemon is asked to stop it and the message
    box is shown. *)
Lemma open_wallet_hardware q g wal :
  let r := open_wallet W q g in
  (exists res, result r = Ret res
     /\ forall wl, res = Some wl ->
          has_hardware_keystore wl = false /\ obtained wl (events r))
  /\ (obtained wal (events r) -> has_hardware_keystore wal = true ->
      In (EvStopWallet (storage_path wal)) (events r)
      /\ In (hardware_warning wal) (events r)).
Proof.
  run_of (open_wallet W q) g. unfold_open Hrun.
  inv_run Hrun.
  all: cbn [app].
  all: split;
    [ eexists; split; [reflexivity|]; intros ? E; inv_eq E; split;
      try congruence; unfold obtained; cbn [In]; eauto 10 |].
  all: intros Hob Hhw; destruct Hob as [[? Hob]|Hob]; ev_hyp Hob.
  all: try congruence.
  all: cbn [In]; tauto.
Qed.

(** A load that raises: with windows open the exception goes to the message
    box and that is all; with none, and a new wallet path at hand, the
    wizard runs on that path and no message box comes before it. *)
Lemma open_wallet_load_failure q g q' e :
  let r := open_wallet W q g in
  In (EvLoadWalletFailed q' e) (events r) ->
  q' = q /\ daemon_load_wallet W q = Raise e
  /\ (windows g <> [] ->
      result r = Ret None
      /\ events r =
           [EvLoadWalletFailed q e; EvPrintError (LogRepr e);
            EvTraceback e; error_dialog e])
  /\ (windows g = [] -> forall cp, config_get_wallet_path W = Ret cp ->
      exists l,
        events r =
          [EvLoadWalletFailed q e; EvPrintError (LogRepr e);
           EvGetWalletPath; EvWizardCreated (Some (new_wallet_path W cp));
           EvWizardRun (Some (new_wallet_path W cp))] ++ l
        /\ (wizard_settles W (Some (new_wallet_path W cp)) ->
            Forall (fun ev => is_warning ev = false) l)).
Proof.
  run_of (open_wallet W q) g. unfold_open Hrun.
  inv_run Hrun.
  all: cbn [app].
  all: intros Hin; ev_hyp Hin.
  all: split; [reflexivity|]; split; [first [assumption|reflexivity]|].
  all: destruct (windows g'); try discriminate.
  all: split; [intros Hw; try congruence | intros Hw; try discriminate Hw].
  all: try (split; [reflexivity|]; unfold error_dialog;
            repeat match goal with
                   | E : str_contains _ _ = _ |- _ => rewrite E
                   end; reflexivity).
  all: intros cp Hcp; same_answer; try congruence; eexists;
    (split; [reflexivity|]); unfold wizard_settles, new_wallet_path;
    intros Hs;
    repeat match goal with
           | E : wizard_run_and_get_wallet _ _ = _ |- _ => rewrite E in Hs
           end;
    repeat constructor.
  all: try congruence.
  all: destruct Hs; congruence.
Qed.

End OpenFlow.

(** * Calls of [start_new_window] *)

Section Calls.

Variable W : World.

Hint Resolve keeps_open_wallet : shell.

(** The wallet is opened, then its window is created and shown. *)
Lemma open_and_show_run q uri g :
  let o := open_wallet W q g in
  let r := open_and_show W q uri g in
  match result o with
  | Ret (Some wl) =>
      result r = Ret (Some (new_window wl g))
      /\ windows (final r) = windows g ++ [new_window wl g]
      /\ exists l,
           events r = events o ++ EvNewWindow (new_window wl g) :: l
           /\ Forall (fun e => is_shown_event e = true) l
  | Ret None => result r = Ret None /\ final r = g /\ events r = events o
  | Raise e => result r = Raise e /\ final r = g /\ events r = events o
  end.
Proof.
  cbv zeta. unfold open_and_show. rewrite run_bind.
  pose proof (keeps_open_wallet W q g) as Hk.
  destruct (result (open_wallet W q g)) as [[wl|]|e].
  - rewrite run_bind, Hk.
    destruct (create_window_for_wallet_run wl g) as (E1 & E2 & E3).
    rewrite E1.
    destruct (show_window_run (new_window wl g) uri
                (final (create_window_for_wallet wl g)))
      as (S1 & S2 & _ & S4).
    cbn [after result final events fst snd]. rewrite S1, S2, E2, E3.
    repeat split. eexists. split; [reflexivity|].
    cbn [app]. repeat constructor.
    eapply Forall_impl; [exact S4|]. intros ? [c ->]. reflexivity.
  - cbn. rewrite Hk, app_nil_r. repeat split.
  - cbn. rewrite Hk. repeat split.
Qed.

(** The three ways through [start_new_window]: the lookup of the path
    raises; the scan finds a window; the scan finds none and a wallet is
    opened. *)
Lemma start_new_window_cases path uri g :
  let r := start_new_window W path uri g in
  (exists e,
      lookup_path W path g = Raise e
      /\ result r = Raise e /\ final r = g
      /\ events r = lookup_events path g)
  \/ (exists q w,
        lookup_path W path g = Ret q /\ scan q g = Some w
        /\ result r = Ret (Some w) /\ final r = g
        /\ events r =
             lookup_events path g
             ++ EvWindow w bring_to_top :: events (show_window w uri g))
  \/ (exists q,
        lookup_path W path g = Ret q /\ scan q g = None
        /\ match result (open_wallet W q g) with
           | Ret (Some wl) =>
               result r = Ret (Some (new_window wl g))
               /\ windows (final r) = windows g ++ [new_window wl g]
               /\ exists l,
                    events r =
                      lookup_events path g ++ events (open_wallet W q g)
                      ++ EvNewWindow (new_window wl g) :: l
                    /\ Forall (fun e => is_shown_event e = true) l
           | Ret None =>
               result r = Ret None /\ final r = g
               /\ events r =
                    lookup_events path g ++ events (open_wallet W q g)
           | Raise e =>
               result r = Raise e /\ final r = g
               /\ events r =
                    lookup_events path g ++ events (open_wallet W q g)
           end).
Proof.
  cbv zeta. rewrite start_new_window_eq.
  destruct (lookup_path W path g) as [q|e] eqn:Hl.
  - destruct (scan q g) as [w|] eqn:Hs.
    + right; left. exists q, w.
      destruct (show_window_run w uri g) as (S1 & S2 & _).
      cbn [after result final events fst snd app]. rewrite S1, S2.
      repeat split; done.
    + right; right. exists q. split; [done|]. split; [done|].
      pose proof (open_and_show_run q uri g) as H. cbv zeta in H.
      cbn [after result final events fst snd].
      destruct (result (open_wallet W q g)) as [[wl|]|e].
      * destruct H as (H1 & H2 & l & H3 & H4). rewrite H1, H2, H3.
        repeat split. exists l. split; [reflexivity | exact H4].
      * destruct H as (H1 & H2 & H3). rewrite H1, H2, H3. repeat split.
      * destruct H as (H1 & H2 & H3). rewrite H1, H2, H3. repeat split.
  - left. exists e. repeat split; done.
Qed.

(** The lookup when the path is given or a window is open: the given path,
    normalized, and no call of the configuration. *)
Lemma lookup_path_given path g :
  truthy path = true \/ windows g <> [] ->
  lookup_path W path g = Ret (path_and_standardize_path W path)
  /\ lookup_events path g = [].
Proof.
  intros H. unfold lookup_path, lookup_events.
  assert (negb (truthy path) && is_nil (windows g) = false) as ->.
  { destruct H as [->|H]; [reflexivity|].
    destruct (windows g); [done|]. apply andb_false_r. }
  split; reflexivity.
Qed.

(** The lookup when no path is given and no window is open. *)
Lemma lookup_path_last_wallet path g :
  lookup_events path g <> [] -> truthy path = false /\ windows g = [].
Proof.
  unfold lookup_events. destruct (truthy path); cbn; [done|].
  destruct (windows g); cbn; done.
Qed.




(** [open_wallet] neither consults the last-wallet configuration nor
    creates a window. *)
Lemma open_wallet_emits q :
  emits (fun e => e <> EvOpenLastWallet /\ is_window_event e = false)
    (open_wallet W q).
Proof.
  unfold open_wallet, load_wallet_or_new_path, run_install_wizard,
    daemon_load_wallet_call, get_new_wallet_path, get_wallet_folder,
    config_get_wallet_path_call, _slp_warn_if_wallet_not_compat,
    daemon_stop_wallet_call, warning, print_error.
  shell.
Qed.

Lemma obtained_app wal l1 l2 :
  obtained wal (l1 ++ l2) <-> obtained wal l1 \/ obtained wal l2.
Proof.
  unfold obtained. setoid_rewrite in_app_iff. split.
  - intros [[q [H|H]]|[H|H]]; eauto.
  - intros [[[q H]|H]|[[q H]|H]]; eauto.
Qed.

Lemma obtained_lookup_events wal path g :
  ~ obtained wal (lookup_events path g).
Proof.
  unfold lookup_events, obtained.
  destruct (negb (truthy path) && is_nil (windows g)); cbn;
    intros [[q H]|H]; intuition discriminate.
Qed.

Lemma obtained_window_events wal l :
  Forall (fun e => is_window_event e = true) l -> ~ obtained wal l.
Proof.
  intros Hl [[q H]|H]; rewrite List.Forall_forall in Hl;
    apply Hl in H; discriminate.
Qed.

Lemma shown_events_window l :
  Forall (fun e => is_shown_event e = true) l ->
  Forall (fun e => is_window_event e = true) l.
Proof.
  intros H. eapply List.Forall_impl; [|exact H].
  intros e E. unfold is_window_event. rewrite E. apply orb_true_r.
Qed.

Lemma window_events_quiet l :
  Forall (fun e => is_window_event e = true) l ->
  Forall (fun e => is_warning e = false) l.
Proof.
  intros H. eapply List.Forall_impl; [|exact H].
  intros [] E; try discriminate E; reflexivity.
Qed.

Lemma lookup_events_quiet path g :
  Forall (fun e => is_warning e = false) (lookup_events path g).
Proof.
  unfold lookup_events.
  destruct (negb (truthy path) && is_nil (windows g)); repeat constructor.
Qed.

(** C10: called without a path while a window is open, [start_new_window]
    raises the first window of the registry and returns it; every event of
    the call is a call on that window, so the configuration is not
    consulted, no wallet is loaded and no window is created.  The last-used
    wallet is looked up in the configuration only when the path is empty
    and no window is open. *)
Theorem start_new_window_without_path path uri g :
  let r := start_new_window W path uri g in
  (truthy path = false -> forall w ws, windows g = w :: ws ->
     result r = Ret (Some w) /\ final r = g
     /\ In (EvWindow w bring_to_top) (events r)
     /\ Forall (fun e => exists c, e = EvWindow w c) (events r))
  /\ (In EvOpenLastWallet (events r) ->
      truthy path = false /\ windows g = []).
Proof.
  cbv zeta. split.
  - intros Hp w ws Hw.
    destruct (lookup_path_given path g) as [Hl He].
    { right. rewrite Hw. discriminate. }
    assert (scan (path_and_standardize_path W path) g = Some w) as Hs.
    { unfold scan, path_and_standardize_path, path_matches.
      rewrite Hp, Hw. cbn. rewrite Hp. reflexivity. }
    rewrite start_new_window_eq, Hl, He, Hs.
    destruct (show_window_run w uri g) as (S1 & S2 & S3 & S4).
    cbn [after result final events fst snd app]. rewrite S1, S2.
    repeat split; [cbn; tauto|]. constructor; eauto.
  - intros Hin. apply lookup_path_last_wallet. intros He.
    destruct (start_new_window_cases path uri g)
      as [(e & _ & _ & _ & E) | [(q & w & _ & _ & _ & _ & E)
         | (q & _ & _ & C)]].
    + rewrite E, He in Hin. exact Hin.
    + rewrite E, He in Hin. cbn in Hin. destruct Hin as [Hin|Hin];
        [discriminate|].
      destruct (show_window_run w uri g) as (_ & _ & _ & S4).
      rewrite List.Forall_forall in S4. apply S4 in Hin as [c Hc].
      discriminate.
    + pose proof (open_wallet_emits q g) as Ho.
      rewrite List.Forall_forall in Ho.
      destruct (result (open_wallet W q g)) as [[wl|]|e].
      * destruct C as (_ & _ & l & E & Hl).
        rewrite E, He in Hin. cbn [app] in Hin.
        apply in_app_or in Hin as [Hin|[Hin|Hin]].
        -- apply Ho in Hin as [Hin _]. congruence.
        -- discriminate.
        -- rewrite List.Forall_forall in Hl. apply Hl in Hin. discriminate.
      * destruct C as (_ & _ & E). rewrite E, He in Hin.
        apply Ho in Hin as [Hin _]. congruence.
      * destruct C as (_ & _ & E). rewrite E, He in Hin.
        apply Ho in Hin as [Hin _]. congruence.
Qed.

End Calls.

Lemma start_new_window_without_path_witness :
  let g := opened plain_world "/w1" in
  let w := new_window (software_wallet "/w1") (started plain_world) in
  let r := start_new_window plain_world None (Some "bitcoincash:q") g in
  truthy None = false /\ windows g = [w]
  /\ result r = Ret (Some w) /\ final r = g.
Proof.
  cbv zeta. split; [reflexivity|]. split; [reflexivity|].
  destruct (start_new_window_without_path plain_world None
              (Some "bitcoincash:q") (opened plain_world "/w1")) as [H _].
  destruct (H eq_refl (new_window (software_wallet "/w1")
                         (started plain_world)) [] eq_refl)
    as (H1 & H2 & _).
  split; [exact H1 | exact H2].
Defined.





Section Rejections.

Variable W : World.

(** C4: whenever a call of [start_new_window] obtains a wallet with a
    hardware keystore, from the daemon or from the wizard, the hardware
    message box is shown and the daemon is asked to stop that wallet (the
    call returns whether or not the stop raises); no window is created for
    a wallet with a hardware keystore, and the registry is left as it was
    or gains one window whose wallet has none. *)
Theorem hardware_wallet_rejected path uri g wal :
  let r := start_new_window W path uri g in
  obtained wal (events r) ->
  has_hardware_keystore wal = true ->
  In (hardware_warning wal) (events r)
  /\ In (EvStopWallet (storage_path wal)) (events r)
  /\ (exists res, result r = Ret res)
  /\ (forall w, In (EvNewWindow w) (events r) ->
        has_hardware_keystore (wallet w) = false)
  /\ (windows (final r) = windows g
      \/ exists w, windows (final r) = windows g ++ [w]
                   /\ has_hardware_keystore (wallet w) = false).
Proof.
  cbv zeta. intros Hob Hhw.
  destruct (start_new_window_cases W path uri g)
    as [(e & _ & _ & _ & E) | [(q & w & _ & _ & _ & _ & E)
       | (q & _ & _ & C)]].
  - rewrite E in Hob. destruct (obtained_lookup_events _ _ _ Hob).
  - rewrite E in Hob. apply obtained_app in Hob as [Hob|Hob].
    + destruct (obtained_lookup_events _ _ _ Hob).
    + exfalso. revert Hob. apply obtained_window_events.
      constructor; [reflexivity|].
      destruct (show_window_run w uri g) as (_ & _ & _ & S4).
      eapply List.Forall_impl; [|exact S4]. intros ? [c ->]. reflexivity.
  - destruct (open_wallet_hardware W q g wal) as [(res & Hres & Hwl) Hhard].
    pose proof (open_wallet_emits W q g) as Hem.
    rewrite List.Forall_forall in Hem.
    assert (forall l w,
              In (EvNewWindow w)
                (lookup_events path g ++ events (open_wallet W q g) ++ l) ->
              In (EvNewWindow w) l) as Hnew.
    { intros l w Hin. apply in_app_or in Hin as [Hin|Hin].
      - unfold lookup_events in Hin.
        destruct (negb (truthy path) && is_nil (windows g)); cbn in Hin;
          intuition discriminate.
      - apply in_app_or in Hin as [Hin|Hin]; [|exact Hin].
        apply Hem in Hin as [_ Hin]. discriminate. }
    rewrite Hres in C. destruct res as [wl|].
    + destruct C as (C1 & C2 & l & E & Hl).
      destruct (Hwl wl eq_refl) as [Hsoft _].
      rewrite E in Hob. apply obtained_app in Hob as [Hob|Hob];
        [destruct (obtained_lookup_events _ _ _ Hob)|].
      apply obtained_app in Hob as [Hob|Hob].
      * destruct (Hhard Hob Hhw) as [H1 H2]. rewrite E, C1, C2.
        split; [apply in_or_app; right; apply in_or_app; left; exact H2|].
        split; [apply in_or_app; right; apply in_or_app; left; exact H1|].
        split; [eauto|]. split.
        -- intros w Hin.
           apply Hnew in Hin. destruct Hin as [Hin|Hin].
           ++ assert (w = new_window wl g) as -> by congruence.
              exact Hsoft.
           ++ rewrite List.Forall_forall in Hl. apply Hl in Hin.
              discriminate.
        -- right. exists (new_window wl g). split; [reflexivity|exact Hsoft].
      * exfalso. revert Hob. apply obtained_window_events.
        constructor; [reflexivity|apply shown_events_window, Hl].
    + destruct C as (C1 & C2 & E).
      rewrite E in Hob. apply obtained_app in Hob as [Hob|Hob];
        [destruct (obtained_lookup_events _ _ _ Hob)|].
      destruct (Hhard Hob Hhw) as [H1 H2]. rewrite E, C1, C2.
      split; [apply in_or_app; right; exact H2|].
      split; [apply in_or_app; right; exact H1|].
      split; [eauto|]. split; [|left; reflexivity].
      intros w Hin.
      rewrite <- (app_nil_r (events (open_wallet W q g))) in Hin.
      apply Hnew in Hin. destruct Hin.
Qed.

End Rejections.

Lemma hardware_wallet_rejected_witness :
  let r := start_new_window hardware_world (Some "/hw") None
             (opened plain_world "/w1") in
  obtained (hardware_wallet "/hw") (events r)
  /\ has_hardware_keystore (hardware_wallet "/hw") = true
  /\ In (hardware_warning (hardware_wallet "/hw")) (events r)
  /\ In (EvStopWallet "/hw") (events r)
  /\ windows (final r) = windows (opened plain_world "/w1").
Proof.
  cbv zeta.
  assert (obtained (hardware_wallet "/hw")
            (events (start_new_window hardware_world (Some "/hw") None
                       (opened plain_world "/w1")))) as H1.
  { left. exists (Some "/hw"). vm_compute. tauto. }
  split; [exact H1|]. split; [reflexivity|].
  destruct (hardware_wallet_rejected hardware_world (Some "/hw") None
              (opened plain_world "/w1") (hardware_wallet "/hw") H1 eq_refl)
    as (H2 & H3 & _).
  split; [exact H2|]. split; [exact H3|]. reflexivity.
Defined.

Section LoadFailure.

Variable W : World.

(** C2 (amended): when the daemon raises on loading the wallet during
    [start_new_window]: with a window open, the call shows the error
    message box and returns nothing, and that is all it does (no wizard,
    no window, no change of state); with no window open, and provided
    [get_new_wallet_path] gives a path, the wizard is created and run on
    that path without any message box before it, and without any message
    box at all when the wizard settles. *)
Theorem load_failure_handling path uri g q e :
  let r := start_new_window W path uri g in
  In (EvLoadWalletFailed q e) (events r) ->
  (windows g <> [] ->
     result r = Ret None /\ final r = g
     /\ events r =
          [EvLoadWalletFailed q e; EvPrintError (LogRepr e);
           EvTraceback e; error_dialog e])
  /\ (windows g = [] -> forall cp, config_get_wallet_path W = Ret cp ->
      exists l0 l,
        events r =
          l0 ++ [EvLoadWalletFailed q e; EvPrintError (LogRepr e);
                 EvGetWalletPath;
                 EvWizardCreated (Some (new_wallet_path W cp));
                 EvWizardRun (Some (new_wallet_path W cp))] ++ l
        /\ Forall (fun ev => is_warning ev = false) l0
        /\ (wizard_settles W (Some (new_wallet_path W cp)) ->
            Forall (fun ev => is_warning ev = false) l)).
Proof.
  cbv zeta. intros Hin.
  destruct (start_new_window_cases W path uri g)
    as [(e' & _ & _ & _ & E) | [(q0 & w & _ & _ & _ & _ & E)
       | (q0 & Hl & _ & C)]].
  - exfalso. rewrite E in Hin. unfold lookup_events in Hin.
    destruct (negb (truthy path) && is_nil (windows g)); cbn in Hin;
      intuition discriminate.
  - exfalso. rewrite E in Hin. apply in_app_or in Hin as [Hin|Hin].
    + unfold lookup_events in Hin.
      destruct (negb (truthy path) && is_nil (windows g)); cbn in Hin;
        intuition discriminate.
    + destruct Hin as [Hin|Hin]; [discriminate|].
      destruct (show_window_run w uri g) as (_ & _ & _ & S4).
      rewrite List.Forall_forall in S4. apply S4 in Hin as [c Hc].
      discriminate.
  - pose proof (open_wallet_load_failure W q0 g q e) as Hf. cbv zeta in Hf.
    pose proof (keeps_open_wallet W q0 g) as Hk.
    assert (In (EvLoadWalletFailed q e) (events (open_wallet W q0 g)))
      as Hin0.
    { destruct (result (open_wallet W q0 g)) as [[wl|]|e'].
      - destruct C as (_ & _ & l & E & Hs). rewrite E in Hin.
        apply in_app_or in Hin as [Hin|Hin].
        + unfold lookup_events in Hin.
          destruct (negb (truthy path) && is_nil (windows g)); cbn in Hin;
            intuition discriminate.
        + apply in_app_or in Hin as [Hin|[Hin|Hin]];
            [exact Hin | discriminate |].
          rewrite List.Forall_forall in Hs. apply Hs in Hin. discriminate.
      - destruct C as (_ & _ & E). rewrite E in Hin.
        apply in_app_or in Hin as [Hin|Hin]; [|exact Hin].
        unfold lookup_events in Hin.
        destruct (negb (truthy path) && is_nil (windows g)); cbn in Hin;
          intuition discriminate.
      - destruct C as (_ & _ & E). rewrite E in Hin.
        apply in_app_or in Hin as [Hin|Hin]; [|exact Hin].
        unfold lookup_events in Hin.
        destruct (negb (truthy path) && is_nil (windows g)); cbn in Hin;
          intuition discriminate. }
    destruct (Hf Hin0) as (-> & _ & Hopen & Hnone). split.
    + intros Hw. destruct (Hopen Hw) as [Hr He].
      destruct (lookup_path_given W path g (or_intror Hw)) as [_ Hle].
      rewrite Hr in C. destruct C as (C1 & C2 & C3).
      rewrite C1, C2, C3, Hle, He. repeat split.
    + intros Hw cp Hcp. destruct (Hnone Hw cp Hcp) as (l & He & Hs).
      exists (lookup_events path g).
      destruct (result (open_wallet W q0 g)) as [[wl|]|e'].
      * destruct C as (_ & _ & l' & E & Hl').
        exists (l ++ EvNewWindow (new_window wl g) :: l').
        rewrite E, He. split.
        { rewrite <- !app_assoc. reflexivity. }
        split; [apply lookup_events_quiet|].
        intros Hsettle. apply Forall_app. split; [apply Hs, Hsettle|].
        constructor; [reflexivity|].
        apply window_events_quiet, shown_events_window, Hl'.
      * destruct C as (_ & _ & E). exists l. rewrite E, He.
        split; [reflexivity|]. split; [apply lookup_events_quiet|exact Hs].
      * destruct C as (_ & _ & E). exists l. rewrite E, He.
        split; [reflexivity|]. split; [apply lookup_events_quiet|exact Hs].
Qed.

End LoadFailure.

Lemma load_failure_handling_witness :
  let r := start_new_window unreadable_world (Some "/bad") None
             (opened plain_world "/w1") in
  In (EvLoadWalletFailed (Some "/bad") cannot_read) (events r)
  /\ windows (opened plain_world "/w1") <> []
  /\ result r = Ret None /\ final r = opened plain_world "/w1"
  /\ events r =
       [EvLoadWalletFailed (Some "/bad") cannot_read;
        EvPrintError (LogRepr cannot_read); EvTraceback cannot_read;
        error_dialog cannot_read].
Proof.
  cbv zeta.
  assert (In (EvLoadWalletFailed (Some "/bad") cannot_read)
            (events (start_new_window unreadable_world (Some "/bad") None
                       (opened plain_world "/w1")))) as H1
    by (vm_compute; tauto).
  assert (windows (opened plain_world "/w1") <> []) as H2
    by (vm_compute; discriminate).
  split; [exact H1|]. split; [exact H2|].
  exact (proj1 (load_failure_handling unreadable_world (Some "/bad") None
                  (opened plain_world "/w1") (Some "/bad") cannot_read H1)
           H2).
Defined.

(** C2 as stated fails: no window is open, the load raises, and
    [get_new_wallet_path] raises FileNotFoundError; the error message box is
    shown and no wizard is created or run. *)
Lemma load_failure_without_new_path :
  let g := started no_datadir_world in
  let r := start_new_window no_datadir_world (Some "/bad") None g in
  windows g = []
  /\ In (EvLoadWalletFailed (Some "/bad") cannot_read) (events r)
  /\ In (error_dialog file_not_found) (events r)
  /\ Forall (fun ev => is_wizard_event ev = false) (events r).
Proof.
  cbv zeta. split; [reflexivity|].
  split; [vm_compute; tauto|]. split; [vm_compute; tauto|].
  vm_compute. repeat constructor.
Qed.

(** * Runs with a known first half *)

Lemma bind_returns {A B} (m : M A) (f : A -> M B) g a g1 l1 :
  m g = (Ret a, g1, l1) -> bind m f g = after l1 (f a g1).
Proof. intros H. unfold bind. rewrite H. reflexivity. Qed.

Lemma bind_raises {A B} (m : M A) (f : A -> M B) g e g1 l1 :
  m g = (Raise e, g1, l1) -> bind m f g = (Raise e, g1, l1).
Proof. intros H. unfold bind. rewrite H. reflexivity. Qed.

Lemma try_except_raises {A} (m : M A) h g e g1 l1 :
  m g = (Raise e, g1, l1) -> try_except m h g = after l1 (h e g1).
Proof. intros H. unfold try_except. rewrite H. reflexivity. Qed.

Lemma try_except_returns {A} (m : M A) h g a g1 l1 :
  m g = (Ret a, g1, l1) -> try_except m h g = (Ret a, g1, l1).
Proof. intros H. unfold try_except. rewrite H. reflexivity. Qed.

(** * Closing windows *)

Section QuitFlag.

Variable W : World.

Lemma open_wallet_maintains I q : maintains I (open_wallet W q).
Proof. apply maintains_keeps, keeps_open_wallet. Qed.

Hint Resolve open_wallet_maintains : shell.

Lemma start_new_window_quit_flag path uri :
  maintains quits_on_last_window (start_new_window W path uri).
Proof.
  unfold start_new_window, create_window_for_wallet, show_window,
    build_tray_menu, config_open_last_wallet, config_get_wallet_path_call.
  shell.
Qed.

Lemma close_window_quit_flag window :
  maintains quits_on_last_window (close_window window).
Proof.
  unfold close_window, build_tray_menu, gc_schedule, _quit_after_last_window.
  shell.
Qed.

Lemma toggle_tray_icon_quit_flag :
  maintains quits_on_last_window toggle_tray_icon.
Proof.
  unfold toggle_tray_icon, config_set_key, tray_icon. shell.
Qed.

Lemma set_auto_update_check_quit_flag b :
  maintains quits_on_last_window (set_auto_update_check b).
Proof.
  unfold set_auto_update_check, has_auto_update_check, config_get,
    config_set_key, _start_auto_update_timer, _stop_auto_update_timer,
    print_error.
  shell.
Qed.

Lemma update_checker_timer_timeout_quit_flag now :
  maintains quits_on_last_window (update_checker_timer_timeout W now).
Proof.
  unfold update_checker_timer_timeout, on_auto_update_timeout,
    _start_auto_update_timer, print_error.
  shell.
Qed.

Lemma set_dark_theme_if_needed_quit_flag :
  maintains quits_on_last_window (set_dark_theme_if_needed W).
Proof.
  unfold set_dark_theme_if_needed, config_get, print_error. shell.
Qed.

Hint Resolve start_new_window_quit_flag set_dark_theme_if_needed_quit_flag
  : shell.

Lemma main_quit_flag : maintains quits_on_last_window (main W).
Proof.
  unfold main, init_network, config_get, config_open_last_wallet,
    config_get_wallet_path_call.
  shell. apply maintains_modify. reflexivity.
Qed.

Lemma init_quit_flag : maintains quits_on_last_window (__init__ W).
Proof.
  unfold __init__, config_get, tray_icon, build_tray_menu,
    has_auto_update_check, config_get, _start_auto_update_timer, print_error.
  shell.
Qed.

End QuitFlag.

Lemma reachable_quits_on_last_window g :
  reachable g -> quits_on_last_window g.
Proof.
  induction 1 as [W cfg now | W op g Hg IH].
  - apply init_quit_flag. reflexivity.
  - destruct op; cbn [step].
    + apply main_quit_flag, IH.
    + apply start_new_window_quit_flag, IH.
    + apply close_window_quit_flag, IH.
    + apply toggle_tray_icon_quit_flag, IH.
    + apply set_auto_update_check_quit_flag, IH.
    + apply update_checker_timer_timeout_quit_flag, IH.
    + apply set_dark_theme_if_needed_quit_flag, IH.
Qed.

(** * Tray icon *)

(** * [main] *)

Section Main.

Variable W : World.

Lemma keeps_init_network : keeps (init_network W).
Proof. unfold init_network, config_get. shell. Qed.

Lemma init_network_emits :
  emits (fun ev => is_wizard_event ev = true) (init_network W).
Proof. unfold init_network, config_get. shell. Qed.

(** C8: when [init_network] raises, whatever the exception, [main]
    returns; the state is as before, so no window is in the registry that
    was not and the housekeeping timer is not started; and every event of
    the run is a call on the network wizard or the printed traceback, so no
    wallet is loaded, no window is created and the event loop is not
    entered. *)
Theorem main_returns_when_network_setup_aborts g e :
  result (init_network W g) = Raise e ->
  let r := main W g in
  result r = Ret tt /\ final r = g
  /\ Forall (fun ev => is_wizard_event ev = true \/ ev = EvTraceback e)
       (events r).
Proof.
  intros He. cbv zeta.
  pose proof (keeps_init_network g) as Hk.
  pose proof (init_network_emits g) as Hw.
  destruct (init_network W g) as [[r0 g0] l0] eqn:E.
  cbn in He, Hk, Hw. subst r0 g0.
  assert (Forall (fun ev => is_wizard_event ev = true \/ ev = EvTraceback e)
            l0) as Hl.
  { eapply List.Forall_impl; [|exact Hw]. cbn. tauto. }
  unfold main.
  destruct (exn_class e) eqn:Hc;
    (erewrite bind_returns;
       [|erewrite try_except_raises; [|apply bind_raises; exact E];
         rewrite Hc; reflexivity]);
    cbn; rewrite ?app_nil_r; repeat split; try exact Hl;
    (apply Forall_app; split; [exact Hl|]); repeat constructor; tauto.
Qed.

End Main.

Lemma main_returns_when_network_setup_aborts_witness :
  let e := {| exn_class := UserCancelled; exn_str := "" |} in
  let g := started cancelling_world in
  result (init_network cancelling_world g) = Raise e
  /\ result (main cancelling_world g) = Ret tt
  /\ final (main cancelling_world g) = g.
Proof.
  cbv zeta. split; [reflexivity|].
  destruct (main_returns_when_network_setup_aborts cancelling_world
              (started cancelling_world)
              {| exn_class := UserCancelled; exn_str := "" |} eq_refl)
    as (H1 & H2 & _).
  split; [exact H1 | exact H2].
Defined.

(** * Theme *)

Section Theme.

Variable W : World.

(** C9 (amended): [set_dark_theme_if_needed] always returns; its events
    are log lines followed by one call of the style patcher and one update
    of the colour scheme, both with the same [dark]; and [dark], the
    version handed to the patcher and the state are as [theme_outcome]
    says: light when the dark theme is not requested or qdarkstyle or its
    style sheet cannot be loaded, dark when the style sheet is loaded, also
    when the version cannot be determined. *)
Theorem set_dark_theme_if_needed_outcomes g :
  let r := set_dark_theme_if_needed W g in
  result r = Ret tt
  /\ exists dark ver log,
       events r = log ++ [EvStylePatch dark ver; EvColorSchemeUpdate dark]
       /\ Forall (fun ev => is_print_error ev = true) log
       /\ theme_outcome W g dark ver (final r).
Proof.
  cbv zeta.
  unfold set_dark_theme_if_needed, config_get, theme_outcome, theme_requested,
    print_error.
  rewrite run_bind. cbn [get ret bind result final events fst snd after].
  destruct (bool_decide _);
    [destruct (import_qdarkstyle W) as [[]|e1];
     [destruct (load_stylesheet_pyqt5 W) as [ss|e2];
      [destruct (normalize_version W) as [v|e3];
       [|destruct (version_error (exn_class e3)) eqn:Hv]|]|]|];
    cbv [bind try_except lift modify emit ret raise after result final events
         fst snd];
    try rewrite Hv;
    cbv [bind try_except lift modify emit ret raise after result final events
         fst snd app];
    (split; [reflexivity|]).
  all: match goal with
       | |- exists dark ver log, ?l = _ /\ _ =>
           match l with
           | [EvStylePatch ?d ?v; _] => exists d, v, []
           | [?x; EvStylePatch ?d ?v; _] => exists d, v, [x]
           end
       end.
  all: repeat split; repeat constructor.
Qed.

End Theme.

(** C9 as stated fails: the dark theme is requested and the version of
    qdarkstyle cannot be determined; the dark style sheet stays applied and
    the patcher and the colour scheme are told that the theme is dark. *)
Lemma version_unknown_keeps_dark_theme :
  let g := blank {["qt_gui_color_theme" := VStr "dark"]} 0 in
  let r := set_dark_theme_if_needed odd_version_world g in
  let e := {| exn_class := ValueError;
              exn_str := "invalid literal for int()" |} in
  normalize_version odd_version_world = Raise e
  /\ result r = Ret tt
  /\ events r = [EvPrintError (LogDarkstyleVersionUnknown e);
                 EvStylePatch true None; EvColorSchemeUpdate true]
  /\ styleSheet (final r) = Some (DarkStyleSheet "QWidget {}").
Proof. cbv zeta. repeat split; vm_compute; reflexivity. Qed.

(** * Update-check timer *)

Section Schedule.

Variable W : World.

(** One timeout of a running timer, delivered at the time [t]: a check is
    made when it should, and the timer is left on its hourly interval. *)
Lemma update_checker_timer_timeout_runs fr t s :
  timer_runs fr s ->
  let r := update_checker_timer_timeout W t s in
  result r = Ret tt
  /\ timeline (events r) = timeout_at W (Z.max (clock s) t)
  /\ timer_runs false (final r)
  /\ clock (final r) = Z.max (clock s) t
  /\ (daemon_network W = None -> List.filter is_do_check (events r) = []).
Proof.
  intros (Hf & Ha & Hs & Hi). cbv zeta.
  unfold update_checker_timer_timeout, on_auto_update_timeout,
    _start_auto_update_timer, print_error, timeout_at, timer_runs.
  rewrite run_bind. cbn [get result final events fst snd after].
  rewrite Ha.
  cbv [bind modify emit get ret raise after result final events fst snd].
  cbn [clock set_clock set_update_checker_timer first_run].
  rewrite Hf.
  destruct (daemon_network W) as [[]|];
    [destruct (did_check_recently W _)|]; destruct fr;
    cbn -[Z.mul Z.add Z.of_nat Z.div Z.max];
    rewrite ?Hs, ?Hi;
    repeat split; try discriminate; try exact Hf.
Qed.

(** The timeouts delivered at the times [ts] to a running timer. *)
Lemma timeouts_run ts : forall fr s,
  timer_runs fr s ->
  let r := timeouts W ts s in
  result r = Ret tt
  /\ timeline (events r) = timeouts_at W (clock s) ts
  /\ timer_runs (match ts with [] => fr | _ :: _ => false end) (final r)
  /\ (daemon_network W = None -> List.filter is_do_check (events r) = []).
Proof.
  induction ts as [|t ts IH]; intros fr s Hs; cbv zeta.
  - repeat split; try apply Hs.
  - cbn [timeouts timeouts_at].
    destruct (update_checker_timer_timeout_runs fr t s Hs)
      as (Hr & Ht & Hs' & Hc & Ho).
    destruct (update_checker_timer_timeout W t s) as [[r1 g1] l1] eqn:E.
    cbn [result final events fst snd] in *. subst r1.
    rewrite (bind_returns _ _ _ _ _ _ E).
    destruct (IH false g1 Hs') as (Hr2 & Ht2 & Hs2 & Ho2).
    unfold after. cbn [result final events fst snd].
    split; [exact Hr2|]. split; [|split].
    + unfold timeline in *. rewrite List.filter_app, Ht, Ht2, Hc.
      reflexivity.
    + destruct ts; exact Hs2.
    + intros Hn. rewrite List.filter_app, (Ho Hn), (Ho2 Hn). reflexivity.
Qed.

End Schedule.

(** C5 (amended): [_start_auto_update_timer(first_run=True)] on the
    repeating timer sets it running with an interval of 10 s; whatever the
    times at which timeouts are then delivered, every timeout returns; from
    the first timeout on the interval is one hour and [first_run] is false;
    an update check is made at a timeout exactly when the shell is online
    and no check was made recently, and offline no check is made at all
    (the timeouts come all the same). *)
Theorem update_check_schedule (W : World) g ts :
  singleShot (update_checker_timer g) = false ->
  let s0 := final (_start_auto_update_timer true g) in
  let r := timeouts W ts s0 in
  timer_runs true s0
  /\ result r = Ret tt
  /\ timeline (events r) = timeouts_at W (clock g) ts
  /\ (ts <> [] -> timer_runs false (final r))
  /\ (daemon_network W = None -> List.filter is_do_check (events r) = []).
Proof.
  intros Hs. cbv zeta.
  assert (timer_runs true (final (_start_auto_update_timer true g))) as H0.
  { unfold timer_runs. cbn. rewrite Hs. repeat split. }
  split; [exact H0|].
  destruct (timeouts_run W ts true _ H0) as (H1 & H2 & H3 & H4).
  split; [exact H1|]. split; [exact H2|]. split; [|exact H4].
  intros Hne. destruct ts; [contradiction | exact H3].
Qed.

Lemma update_check_schedule_witness :
  let g := blank ∅ 0 in
  let r := timeouts plain_world [9674; 3609700; 7209000]%Z
             (final (_start_auto_update_timer true g)) in
  singleShot (update_checker_timer g) = false
  /\ timeline (events r)
     = [EvTimeout 9674; EvDoCheck; EvTimeout 3609700; EvDoCheck;
        EvTimeout 7209000; EvDoCheck]
  /\ timer_runs false (final r).
Proof.
  cbv zeta. split; [reflexivity|].
  destruct (update_check_schedule plain_world (blank ∅ 0)
              [9674; 3609700; 7209000]%Z eq_refl) as (_ & _ & H & H' & _).
  split; [exact H | apply H'; discriminate].
Defined.

(** C5 as stated fails.  Offline, the timer is running after [__init__]
    and its timeout is delivered; the slot logs that the check is skipped
    and puts the timer on its hourly interval.  And online, the timer
    being coarse, a second timeout that comes 3500 s after the first makes
    two checks less than 3600 s apart. *)
Lemma timer_fires_while_offline :
  let r := update_checker_timer_timeout offline_world 10000
             (started offline_world) in
  let r' := timeouts plain_world [9674; 3509674]%Z (started plain_world) in
  daemon_network offline_world = None
  /\ isActive (update_checker_timer (started offline_world)) = true
  /\ result r = Ret tt
  /\ events r = [EvTimeout 10000; EvPrintError LogOfflineSkipped;
                 EvPrintError (LogIntervalSet 3600)]
  /\ isActive (update_checker_timer (final r)) = true
  /\ timeline (events r')
     = [EvTimeout 9674; EvDoCheck; EvTimeout 3509674; EvDoCheck].
Proof. cbv zeta. repeat split; vm_compute; reflexivity. Qed.

(** C6 (amended): with the update check enabled,
    [set_auto_update_check(False)] stops the timer and leaves
    [first_run] as it is; [set_auto_update_check(True)] after it starts the
    timer again, always on the hourly interval and with [first_run] false,
    whatever [first_run] was before. *)
Theorem set_auto_update_check_off_on g :
  py_bool (default (VBool true) (config g !! "auto_update_check")) = true ->
  let r1 := set_auto_update_check false g in
  let g1 := final r1 in
  let r2 := set_auto_update_check true g1 in
  let g2 := final r2 in
  (result r1 = Ret tt
   /\ isActive (update_checker_timer g1) = false
   /\ first_run g1 = first_run g)
  /\ (result r2 = Ret tt
      /\ isActive (update_checker_timer g2) = true
      /\ interval (update_checker_timer g2) = 3600000%Z
      /\ due (update_checker_timer g2) = (clock g + 3600000)%Z
      /\ first_run g2 = Some false).
Proof.
  intros Hon. cbv zeta.
  unfold set_auto_update_check, has_auto_update_check, config_get,
    config_set_key, _start_auto_update_timer, _stop_auto_update_timer,
    print_error.
  cbv [bind get ret modify emit after result final events fst snd].
  rewrite Hon. cbn. rewrite lookup_insert_eq. cbn. repeat split.
Qed.

Lemma set_auto_update_check_off_on_witness :
  let g := started plain_world in
  py_bool (default (VBool true) (config g !! "auto_update_check")) = true
  /\ isActive (update_checker_timer
                 (final (set_auto_update_check false g))) = false
  /\ first_run
       (final (set_auto_update_check true
                 (final (set_auto_update_check false g)))) = Some false.
Proof.
  cbv zeta. split; [reflexivity|].
  destruct (set_auto_update_check_off_on (started plain_world) eq_refl)
    as ((_ & H1 & _) & (_ & _ & _ & _ & H2)).
  split; [exact H1 | exact H2].
Defined.

(** C6 as stated fails: after [__init__] the timer is in its first run
    (10 s); disabled and enabled again it is not (one hour). *)
Lemma first_run_lost_on_reenable :
  let g := started plain_world in
  let g' := final (set_auto_update_check true
                     (final (set_auto_update_check false g))) in
  first_run g = Some true
  /\ interval (update_checker_timer g) = 10000%Z
  /\ first_run g' = Some false
  /\ interval (update_checker_timer g') = 3600000%Z.
Proof. cbv zeta. repeat split; vm_compute; reflexivity. Qed.

(** * The registry *)

Lemma list_remove_None window l :
  list_remove window l = None <->
  Forall (fun w => win_id w <> win_id window) l.
Proof.
  induction l as [|x l IH]; cbn.
  - split; [constructor | reflexivity].
  - destruct (Nat.eqb_spec (win_id x) (win_id window)) as [E|E].
    + split; [discriminate|]. intros H. inversion H; subst. contradiction.
    + destruct (list_remove window l) as [l'|]; cbn.
      * split; [discriminate|]. intros H. inversion H; subst.
        apply IH in H3. discriminate.
      * split; [|reflexivity]. intros _. constructor; [exact E|].
        apply IH. reflexivity.
Qed.

Lemma list_remove_first window l1 x l2 :
  Forall (fun w => win_id w <> win_id window) l1 ->
  win_id x = win_id window ->
  list_remove window (l1 ++ x :: l2) = Some (l1 ++ l2).
Proof.
  intros H Hx. induction H as [|y l1 Hy H IH]; cbn.
  - rewrite Hx, Nat.eqb_refl. reflexivity.
  - destruct (Nat.eqb_spec (win_id y) (win_id window)); [contradiction|].
    rewrite IH. reflexivity.
Qed.

Lemma list_remove_Some window l l' :
  list_remove window l = Some l' ->
  exists l1 x l2,
    l = l1 ++ x :: l2 /\ l' = l1 ++ l2 /\ win_id x = win_id window
    /\ Forall (fun w => win_id w <> win_id window) l1.
Proof.
  revert l'. induction l as [|y l IH]; intros l'; cbn; [discriminate|].
  destruct (Nat.eqb_spec (win_id y) (win_id window)) as [E|E].
  - intros [= <-]. exists [], y, l. repeat split; [exact E | constructor].
  - destruct (list_remove window l) as [l0|]; [|discriminate].
    intros [= <-]. destruct (IH l0 eq_refl) as (l1 & x & l2 & -> & -> & Hx & H).
    exists (y :: l1), x, l2. repeat split; [exact Hx|].
    constructor; assumption.
Qed.

(** X1: closing a window that is not in the registry raises ValueError,
    the exception of [list.remove], before anything else is done: the state
    is as before and nothing has been called. *)
Theorem close_window_not_in_registry g window :
  Forall (fun w => win_id w <> win_id window) (windows g) ->
  let r := close_window window g in
  (exists e, result r = Raise e /\ exn_class e = ValueError)
  /\ final r = g /\ events r = [].
Proof.
  intros H. apply list_remove_None in H. cbv zeta.
  unfold close_window. rewrite run_bind. cbn [get result final events fst snd].
  rewrite H. cbn. split; [eexists; split; reflexivity|]. split; reflexivity.
Qed.

Lemma close_window_not_in_registry_witness :
  let w := new_window (software_wallet "/w1") (started plain_world) in
  let r := close_window w (started plain_world) in
  (exists e, result r = Raise e /\ exn_class e = ValueError)
  /\ final r = started plain_world /\ events r = [].
Proof.
  cbv zeta.
  apply (close_window_not_in_registry (started plain_world)).
  constructor.
Defined.

(** Closing a window of the registry: the first entry that is the window
    goes, the others stay in their order. *)
Lemma close_window_removes_first_run g window l1 l2 :
  windows g = l1 ++ window :: l2 ->
  Forall (fun w => win_id w <> win_id window) l1 ->
  result (close_window window g) = Ret tt
  /\ windows (final (close_window window g)) = l1 ++ l2.
Proof.
  intros Hw Hl.
  unfold close_window. rewrite run_bind. cbn [get result final events fst snd].
  rewrite Hw, (list_remove_first window l1 window l2 Hl eq_refl).
  unfold _quit_after_last_window.
  destruct (l1 ++ l2) as [|y l] eqn:E; cbn; rewrite ?E; cbn.
  - destruct (quitOnLastWindowClosed g); cbn; split; reflexivity.
  - split; reflexivity.
Qed.

(** X2: closing a window of the registry removes its first entry and
    leaves the other windows in their order; the tray menu is rebuilt once,
    from the windows that remain; the hook [on_close_window] runs; the
    garbage-collection timer is started anew; and the application is asked
    to quit only when no window remains. *)
Theorem close_window_removes_first g window l1 l2 :
  windows g = l1 ++ window :: l2 ->
  Forall (fun w => win_id w <> win_id window) l1 ->
  let r := close_window window g in
  result r = Ret tt
  /\ windows (final r) = l1 ++ l2
  /\ List.filter is_build_tray_menu (events r)
     = [EvBuildTrayMenu (tray_entries (l1 ++ l2))]
  /\ In (EvRunHook on_close_window window) (events r)
  /\ gc_timer (final r) = QTimer_start (clock g) (gc_timer g)
  /\ (In EvAppQuit (events r) -> l1 ++ l2 = []).
Proof.
  intros Hw Hl. cbv zeta.
  unfold close_window. rewrite run_bind. cbn [get result final events fst snd].
  rewrite Hw, (list_remove_first window l1 window l2 Hl eq_refl).
  unfold _quit_after_last_window, tray_entries.
  destruct (l1 ++ l2) as [|y l] eqn:E; cbn; rewrite ?E; cbn.
  - destruct (quitOnLastWindowClosed g); cbn; repeat split; tauto.
  - repeat split; try tauto. intros [H|[H|H]]; try discriminate H.
    contradiction.
Qed.

Lemma close_window_removes_first_witness :
  let g := opened plain_world "/w1" in
  let w := new_window (software_wallet "/w1") (started plain_world) in
  windows g = [] ++ w :: []
  /\ windows (final (close_window w g)) = [].
Proof.
  cbv zeta. split; [reflexivity|].
  destruct (close_window_removes_first (opened plain_world "/w1")
              (new_window (software_wallet "/w1") (started plain_world))
              [] [] eq_refl (Forall_nil_2 _)) as (_ & H & _).
  exact H.
Defined.

Section Registry.

Variable W : World.

Lemma open_wallet_returns q g :
  exists res, result (open_wallet W q g) = Ret res.
Proof.
  destruct (open_wallet_hardware W q g (software_wallet ""))
    as [(res & H & _) _].
  exists res. exact H.
Qed.

(** The state after [start_new_window]: as before, or with the new window
    that is returned. *)
Lemma start_new_window_final path uri g :
  let r := start_new_window W path uri g in
  final r = g
  \/ exists wl, result r = Ret (Some (new_window wl g))
                /\ final r = with_new_window wl g.
Proof.
  cbv zeta. rewrite start_new_window_eq.
  destruct (lookup_path W path g) as [q|e]; [|left; reflexivity].
  destruct (scan q g) as [w|].
  - left. cbn [after final fst snd].
    destruct (show_window_run w uri g) as (_ & H & _). exact H.
  - cbn [after final result fst snd]. unfold open_and_show.
    rewrite run_bind. rewrite (keeps_open_wallet W q g).
    destruct (result (open_wallet W q g)) as [[wl|]|e]; [|left; reflexivity..].
    right. exists wl. rewrite run_bind. cbn [after final result fst snd].
    change (result (create_window_for_wallet wl g))
      with (Ret (A:=ElectrumWindow) (new_window wl g)).
    cbv beta iota.
    destruct (show_window_run (new_window wl g) uri
                (final (create_window_for_wallet wl g))) as (S1 & S2 & _).
    cbn [after final result fst snd]. rewrite S1, S2. split; reflexivity.
Qed.

Lemma with_new_window_ok wl g :
  registry_ok g -> registry_ok (with_new_window wl g).
Proof.
  intros [Hn Hf]. unfold registry_ok, with_new_window. cbn.
  rewrite fmap_app. cbn. split.
  - apply NoDup_app. split; [exact Hn|]. split; [|apply NoDup_singleton].
    intros i Hi Hi'. apply list_elem_of_singleton in Hi'. subst i.
    apply list_elem_of_fmap in Hi as (w & Hw & Hin).
    rewrite Forall_forall in Hf. specialize (Hf w Hin). lia.
  - apply Forall_app. split.
    + eapply Forall_impl; [exact Hf|]. cbn. intros; lia.
    + repeat constructor.
Qed.

Lemma start_new_window_registry_ok path uri :
  maintains registry_ok (start_new_window W path uri).
Proof.
  intros g Hg.
  destruct (start_new_window_final path uri g) as [->|(wl & _ & ->)];
    [exact Hg | apply with_new_window_ok, Hg].
Qed.

Lemma close_window_registry_ok window :
  maintains registry_ok (close_window window).
Proof.
  intros g [Hn Hf]. unfold close_window. rewrite run_bind.
  cbn [get result final events fst snd].
  destruct (list_remove window (windows g)) as [ws|] eqn:E;
    [|split; assumption].
  apply list_remove_Some in E as (l1 & x & l2 & E & -> & _ & _).
  assert (registry_ok (set_gc_timer (QTimer_start (clock g) (gc_timer g))
                         (set_windows (l1 ++ l2) g))) as Hok.
  { unfold registry_ok. cbn. rewrite E in Hn, Hf.
    rewrite fmap_app in *. cbn in Hn.
    apply NoDup_app in Hn as (H1 & H2 & H3). apply NoDup_cons in H3 as [_ H3].
    apply Forall_app in Hf as [F1 F2]. apply Forall_cons in F2 as [_ F2].
    split.
    - apply NoDup_app. split; [exact H1|]. split; [|exact H3].
      intros i Hi Hi'. apply (H2 i Hi). right. exact Hi'.
    - apply Forall_app. split; assumption. }
  unfold _quit_after_last_window.
  destruct (l1 ++ l2); cbn; [destruct (quitOnLastWindowClosed g)|]; exact Hok.
Qed.

End Registry.

(** * Invariants of the shell *)

(** The methods whose bodies the frame lemmas look into. *)
Create HintDb methods.
#[export] Hint Unfold main init_network __init__ set_dark_theme_if_needed
  set_auto_update_check has_auto_update_check update_checker_timer_timeout
  on_auto_update_timeout _start_auto_update_timer _stop_auto_update_timer
  toggle_tray_icon tray_icon config_set_key config_get close_window
  _quit_after_last_window gc_schedule build_tray_menu print_error
  config_open_last_wallet config_get_wallet_path_call : methods.

(** A run that leaves the fields of an invariant as they are keeps the
    invariant. *)
Lemma registry_ok_frame {A} (m : M A) :
  (forall x, maintains (fun g => registry_fields g = x) m) ->
  maintains registry_ok m.
Proof.
  intros H g Hg. specialize (H _ g eq_refl). injection H as E1 E2.
  unfold registry_ok. rewrite E1, E2. exact Hg.
Qed.

Lemma timer_ok_frame {A} (m : M A) :
  (forall x, maintains (fun g => timer_fields g = x) m) ->
  maintains timer_ok m.
Proof.
  intros H g Hg. specialize (H _ g eq_refl). injection H as E1 E2.
  unfold timer_ok. rewrite E1, E2. exact Hg.
Qed.

Lemma gc_timer_ok_frame {A} (m : M A) :
  (forall x, maintains (fun g => gc_timer g = x) m) ->
  maintains gc_timer_ok m.
Proof.
  intros H g Hg. specialize (H _ g eq_refl).
  unfold gc_timer_ok. rewrite H. exact Hg.
Qed.

Lemma icon_ok_frame {A} (m : M A) :
  (forall x, maintains (fun g => icon_fields g = x) m) ->
  maintains icon_ok m.
Proof.
  intros H g Hg. specialize (H _ g eq_refl). injection H as E1 E2.
  unfold icon_ok, persisted_dark_icon. rewrite E1, E2. exact Hg.
Qed.

(** Proves [maintains I m] for a method [m] that does not write the fields
    of [I]. *)
Ltac frame :=
  first [ apply registry_ok_frame | apply timer_ok_frame
        | apply gc_timer_ok_frame | apply icon_ok_frame ];
  intros; autounfold with methods; shell.

(** What is left of [maintains I (modify f)] when [f] does not write the
    fields of [I]. *)
Ltac unchanged :=
  try (apply maintains_modify; intros ? H; exact H).

Section Invariants.

Variable W : World.

(** [start_new_window] writes the registry only. *)
Lemma start_new_window_timer_fields path uri x :
  maintains (fun g => timer_fields g = x) (start_new_window W path uri).
Proof.
  intros g Hg.
  destruct (start_new_window_final W path uri g) as [->|(wl & _ & ->)];
    exact Hg.
Qed.

Lemma start_new_window_gc_timer path uri x :
  maintains (fun g => gc_timer g = x) (start_new_window W path uri).
Proof.
  intros g Hg.
  destruct (start_new_window_final W path uri g) as [->|(wl & _ & ->)];
    exact Hg.
Qed.

Lemma start_new_window_icon_fields path uri x :
  maintains (fun g => icon_fields g = x) (start_new_window W path uri).
Proof.
  intros g Hg.
  destruct (start_new_window_final W path uri g) as [->|(wl & _ & ->)];
    exact Hg.
Qed.

Hint Resolve start_new_window_timer_fields start_new_window_gc_timer
  start_new_window_icon_fields start_new_window_registry_ok : shell.

(** *** The registry *)

Lemma toggle_tray_icon_registry_ok : maintains registry_ok toggle_tray_icon.
Proof. frame. Qed.

Lemma set_auto_update_check_registry_ok b :
  maintains registry_ok (set_auto_update_check b).
Proof. frame. Qed.

Lemma update_checker_timer_timeout_registry_ok now :
  maintains registry_ok (update_checker_timer_timeout W now).
Proof. frame. Qed.

Lemma set_dark_theme_if_needed_registry_ok :
  maintains registry_ok (set_dark_theme_if_needed W).
Proof. frame. Qed.

Lemma main_registry_ok : maintains registry_ok (main W).
Proof. autounfold with methods. shell; unchanged. Qed.

Lemma init_registry_ok cfg now :
  registry_ok (final (__init__ W (blank cfg now))).
Proof.
  assert (maintains (fun g => windows g = []) (__init__ W)) as H
    by (autounfold with methods; shell).
  unfold registry_ok. rewrite (H (blank cfg now) eq_refl).
  split; constructor.
Qed.

(** *** The update-check timer *)

Lemma start_auto_update_timer_timer_ok b :
  maintains timer_ok (_start_auto_update_timer b).
Proof.
  intros g (H1 & H2 & H3). split; [exact H1|].
  split; [intros _; discriminate|].
  intros b' [= <-]. destruct b; reflexivity.
Qed.

Lemma stop_auto_update_timer_timer_ok :
  maintains timer_ok _stop_auto_update_timer.
Proof.
  intros g (H1 & H2 & H3). split; [exact H1|].
  split; [discriminate | exact H3].
Qed.

Lemma set_auto_update_check_timer_ok b :
  maintains timer_ok (set_auto_update_check b).
Proof.
  pose proof start_auto_update_timer_timer_ok.
  pose proof stop_auto_update_timer_timer_ok.
  unfold set_auto_update_check, has_auto_update_check, config_get,
    config_set_key.
  shell; unchanged.
Qed.

Lemma update_checker_timer_timeout_timer_ok now :
  maintains timer_ok (update_checker_timer_timeout W now).
Proof.
  intros g (H1 & H2 & H3).
  unfold update_checker_timer_timeout, on_auto_update_timeout,
    _start_auto_update_timer, print_error.
  rewrite run_bind. cbn [get result final events fst snd after].
  destruct (isActive (update_checker_timer g)) eqn:Ha;
    [|split; [exact H1 | split; [cbn; congruence | exact H3]]].
  specialize (H2 eq_refl).
  cbv [bind modify emit get ret raise after result final events fst snd].
  cbn [clock set_clock set_update_checker_timer first_run].
  destruct (first_run g) as [[]|] eqn:Hf; [| |contradiction];
    specialize (H3 _ eq_refl);
    (destruct (daemon_network W) as [[]|];
       [destruct (did_check_recently W _)|]);
    unfold timer_ok; cbn; rewrite ?Hf;
    (split; [exact H1|]; split; [discriminate|]);
    intros b [= <-]; first [reflexivity | exact H3].
Qed.

Lemma main_timer_ok : maintains timer_ok (main W).
Proof. frame. Qed.

Lemma start_new_window_timer_ok path uri :
  maintains timer_ok (start_new_window W path uri).
Proof. frame. Qed.

Lemma close_window_timer_ok window : maintains timer_ok (close_window window).
Proof. frame. Qed.

Lemma toggle_tray_icon_timer_ok : maintains timer_ok toggle_tray_icon.
Proof. frame. Qed.

Lemma set_dark_theme_if_needed_timer_ok :
  maintains timer_ok (set_dark_theme_if_needed W).
Proof. frame. Qed.

Lemma init_timer_ok cfg now : timer_ok (final (__init__ W (blank cfg now))).
Proof.
  assert (maintains timer_ok (__init__ W)) as H.
  { pose proof start_auto_update_timer_timer_ok.
    pose proof set_dark_theme_if_needed_timer_ok.
    unfold __init__, config_get, tray_icon, build_tray_menu,
      has_auto_update_check, config_get.
    shell; unchanged. }
  apply H. split; [reflexivity|]. split; [discriminate|].
  intros b. discriminate.
Qed.

(** *** The garbage-collection timer *)

Lemma close_window_gc_timer_ok window :
  maintains gc_timer_ok (close_window window).
Proof.
  intros g Hg. unfold close_window. rewrite run_bind.
  cbn [get result final events fst snd].
  destruct (list_remove window (windows g)) as [ws|]; [|exact Hg].
  unfold _quit_after_last_window.
  destruct ws; cbn; [destruct (quitOnLastWindowClosed g)|]; exact Hg.
Qed.

Lemma main_gc_timer_ok : maintains gc_timer_ok (main W).
Proof. frame. Qed.

Lemma start_new_window_gc_timer_ok path uri :
  maintains gc_timer_ok (start_new_window W path uri).
Proof. frame. Qed.

Lemma toggle_tray_icon_gc_timer_ok : maintains gc_timer_ok toggle_tray_icon.
Proof. frame. Qed.

Lemma set_auto_update_check_gc_timer_ok b :
  maintains gc_timer_ok (set_auto_update_check b).
Proof. frame. Qed.

Lemma update_checker_timer_timeout_gc_timer_ok now :
  maintains gc_timer_ok (update_checker_timer_timeout W now).
Proof. frame. Qed.

Lemma set_dark_theme_if_needed_gc_timer_ok :
  maintains gc_timer_ok (set_dark_theme_if_needed W).
Proof. frame. Qed.

Lemma init_gc_timer_ok cfg now :
  gc_timer_ok (final (__init__ W (blank cfg now))).
Proof.
  assert (maintains gc_timer_ok (__init__ W)) as H by frame.
  apply H. split; reflexivity.
Qed.

(** *** The tray flag *)

Lemma toggle_tray_icon_icon_ok g : icon_ok (final (toggle_tray_icon g)).
Proof.
  unfold icon_ok, persisted_dark_icon, toggle_tray_icon, config_set_key,
    tray_icon.
  cbv [bind modify emit get ret after result final events fst snd].
  cbn [dark_icon set_dark_icon].
  destruct (py_bool (dark_icon g)); cbn; rewrite lookup_insert_eq;
    reflexivity.
Qed.

Lemma set_auto_update_check_icon_ok b :
  maintains icon_ok (set_auto_update_check b).
Proof.
  apply icon_ok_frame. intros. autounfold with methods. shell.
  apply maintains_modify. intros g0 <-. unfold icon_fields. cbn.
  rewrite lookup_insert_ne by discriminate. reflexivity.
Qed.

Lemma main_icon_ok : maintains icon_ok (main W).
Proof. frame. Qed.

Lemma start_new_window_icon_ok path uri :
  maintains icon_ok (start_new_window W path uri).
Proof. frame. Qed.

Lemma close_window_icon_ok window : maintains icon_ok (close_window window).
Proof. frame. Qed.

Lemma update_checker_timer_timeout_icon_ok now :
  maintains icon_ok (update_checker_timer_timeout W now).
Proof. frame. Qed.

Lemma set_dark_theme_if_needed_icon_ok :
  maintains icon_ok (set_dark_theme_if_needed W).
Proof. frame. Qed.

(** The theme selector returns, and writes the style sheet only. *)
Lemma set_dark_theme_if_needed_returns g :
  result (set_dark_theme_if_needed W g) = Ret tt.
Proof.
  unfold set_dark_theme_if_needed, config_get, print_error.
  rewrite run_bind. cbn [get ret bind result final events fst snd after].
  destruct (bool_decide _);
    [destruct (import_qdarkstyle W) as [[]|e1];
     [destruct (load_stylesheet_pyqt5 W) as [ss|e2];
      [destruct (normalize_version W) as [v|e3];
       [|destruct (version_error (exn_class e3)) eqn:Hv]|]|]|];
    cbv [bind try_except lift modify emit ret raise after result final events
         fst snd];
    try rewrite Hv; reflexivity.
Qed.

Lemma set_dark_theme_if_needed_config x :
  maintains (fun g => config g = x) (set_dark_theme_if_needed W).
Proof. autounfold with methods. shell. Qed.

(** A second construction fails on the singleton check, before anything
    is done. *)
Lemma init_run_again g :
  instance g = true ->
  exists e, __init__ W g = (Raise e, g, []) /\ exn_class e = AssertionError.
Proof.
  intros Hi. unfold __init__.
  rewrite run_bind. cbn [get result final events fst snd after].
  rewrite Hi. eexists. split; reflexivity.
Qed.

(** The first construction: after the theme is set, [__init__] reads the
    tray flag from the configuration, shows the tray and starts the
    update-check timer when the check is enabled. *)
Lemma init_run g :
  instance g = false ->
  let g0 := final (set_dark_theme_if_needed W
                     (set_windows [] (set_instance true g))) in
  let v := default (VBool false) (config g !! "dark_icon") in
  let auto := py_bool (default (VBool true) (config g !! "auto_update_check"))
  in
  result (__init__ W g) = Ret tt
  /\ final (__init__ W g)
     = (if auto then final (_start_auto_update_timer true (set_dark_icon v g0))
        else set_dark_icon v g0)
  /\ config g0 = config g.
Proof.
  intros Hi. cbv zeta.
  pose proof (set_dark_theme_if_needed_config (config g)
                (set_windows [] (set_instance true g)) eq_refl) as Hc.
  pose proof (set_dark_theme_if_needed_returns
                (set_windows [] (set_instance true g))) as Hr.
  unfold __init__, config_get, tray_icon, build_tray_menu,
    has_auto_update_check, config_get.
  rewrite run_bind. cbn [get result final events fst snd after].
  rewrite Hi.
  do 3 (rewrite run_bind;
        cbn [ret modify result final events fst snd after]).
  rewrite run_bind.
  destruct (set_dark_theme_if_needed W (set_windows [] (set_instance true g)))
    as [[r0 g0] l0].
  cbn [result final events fst snd] in *. subst r0.
  cbv [bind modify emit get ret after result final events fst snd].
  rewrite !Hc.
  change (dark_icon (set_dark_icon ?v ?g')) with v.
  destruct (py_bool (default (VBool false) (config g !! "dark_icon")));
    cbv beta iota;
    change (config (set_dark_icon ?v ?g')) with (config g');
    rewrite ?Hc;
    destruct (py_bool (default (VBool true)
                         (config g !! "auto_update_check")));
    repeat split.
Qed.

Lemma init_icon_ok cfg now : icon_ok (final (__init__ W (blank cfg now))).
Proof.
  destruct (init_run (blank cfg now) eq_refl) as (_ & -> & Hc).
  remember (final (set_dark_theme_if_needed W
                     (set_windows [] (set_instance true (blank cfg now)))))
    as g0 eqn:E. clear E.
  unfold icon_ok, persisted_dark_icon.
  destruct (py_bool _);
    [change (config (final (_start_auto_update_timer true ?g')))
       with (config g');
     change (dark_icon (final (_start_auto_update_timer true ?g')))
       with (dark_icon g')|];
    change (dark_icon (set_dark_icon ?v ?g')) with v;
    change (config (set_dark_icon ?v ?g')) with (config g');
    rewrite Hc; reflexivity.
Qed.

End Invariants.

(** In every state of the shell the registry holds distinct windows, the
    update-check timer runs only with its [first_run] attribute set, the
    garbage-collection timer is single-shot and the tray flag is the
    persisted preference. *)
Lemma reachable_shell_ok g : reachable g -> shell_ok g.
Proof.
  induction 1 as [W cfg now | W op g Hg (I1 & I2 & I3 & I4)].
  - split; [apply init_registry_ok|]. split; [apply init_timer_ok|].
    split; [apply init_gc_timer_ok | apply init_icon_ok].
  - destruct op; cbn [step]; (split; [|split; [|split]]).
    + apply main_registry_ok, I1.
    + apply main_timer_ok, I2.
    + apply main_gc_timer_ok, I3.
    + apply main_icon_ok, I4.
    + apply start_new_window_registry_ok, I1.
    + apply start_new_window_timer_ok, I2.
    + apply start_new_window_gc_timer_ok, I3.
    + apply start_new_window_icon_ok, I4.
    + apply close_window_registry_ok, I1.
    + apply close_window_timer_ok, I2.
    + apply close_window_gc_timer_ok, I3.
    + apply close_window_icon_ok, I4.
    + apply toggle_tray_icon_registry_ok, I1.
    + apply toggle_tray_icon_timer_ok, I2.
    + apply toggle_tray_icon_gc_timer_ok, I3.
    + apply toggle_tray_icon_icon_ok.
    + apply set_auto_update_check_registry_ok, I1.
    + apply set_auto_update_check_timer_ok, I2.
    + apply set_auto_update_check_gc_timer_ok, I3.
    + apply set_auto_update_check_icon_ok, I4.
    + apply update_checker_timer_timeout_registry_ok, I1.
    + apply update_checker_timer_timeout_timer_ok, I2.
    + apply update_checker_timer_timeout_gc_timer_ok, I3.
    + apply update_checker_timer_timeout_icon_ok, I4.
    + apply set_dark_theme_if_needed_registry_ok, I1.
    + apply set_dark_theme_if_needed_timer_ok, I2.
    + apply set_dark_theme_if_needed_gc_timer_ok, I3.
    + apply set_dark_theme_if_needed_icon_ok, I4.
Qed.

(** * Closing the last window, and the tray flag *)

(** C3: in every state of the shell, closing the only window of the
    registry saves the last wallet exactly once and asks the application to
    quit exactly once; closing a window of the registry while other windows
    remain removes that window, and neither saves the last wallet nor asks
    the application to quit. *)
Theorem close_window_last_window g window :
  reachable g ->
  let r := close_window window g in
  (windows g = [window] ->
     result r = Ret tt /\ windows (final r) = []
     /\ List.filter is_save_last_wallet (events r)
        = [EvSaveLastWallet (wallet window)]
     /\ List.filter is_app_quit (events r) = [EvAppQuit])
  /\ (forall l1 l2, windows g = l1 ++ window :: l2 -> l1 ++ l2 <> [] ->
      result r = Ret tt /\ windows (final r) = l1 ++ l2
      /\ List.filter is_save_last_wallet (events r) = []
      /\ List.filter is_app_quit (events r) = []).
Proof.
  intros Hg. pose proof (reachable_quits_on_last_window g Hg) as Hq.
  unfold quits_on_last_window in Hq.
  apply reachable_shell_ok in Hg as ((Hnd & _) & _).
  cbv zeta. unfold close_window, _quit_after_last_window. split.
  - intros Hw. rewrite run_bind. cbn [get result final events fst snd].
    rewrite Hw. cbn [list_remove]. rewrite Nat.eqb_refl.
    cbn. rewrite Hq. cbn. repeat split.
  - intros l1 l2 Hw Hne.
    assert (Forall (fun w => win_id w <> win_id window) l1) as Hl.
    { rewrite Hw, fmap_app in Hnd. apply NoDup_app in Hnd as (_ & H & _).
      apply Forall_forall. intros w Hin E. apply (H (win_id w)).
      - apply list_elem_of_fmap. exists w. split; [reflexivity | exact Hin].
      - rewrite E. cbn. left. }
    rewrite run_bind. cbn [get result final events fst snd].
    rewrite Hw, (list_remove_first window l1 window l2 Hl eq_refl).
    destruct (l1 ++ l2) as [|w ws] eqn:E; [contradiction|].
    cbn. rewrite ?E. repeat split.
Qed.

Lemma close_window_last_window_witness :
  let g1 := opened plain_world "/w1" in
  let w1 := new_window (software_wallet "/w1") (started plain_world) in
  let g2 := final (start_new_window plain_world (Some "/w2") None g1) in
  let w2 := new_window (software_wallet "/w2") g1 in
  (reachable g1 /\ windows g1 = [w1]
   /\ windows (final (close_window w1 g1)) = []
   /\ List.filter is_save_last_wallet (events (close_window w1 g1))
      = [EvSaveLastWallet (software_wallet "/w1")]
   /\ List.filter is_app_quit (events (close_window w1 g1)) = [EvAppQuit])
  /\ (reachable g2 /\ windows g2 = [w1] ++ w2 :: [] /\ [w1] ++ [] <> []
      /\ windows (final (close_window w2 g2)) = [w1]
      /\ List.filter is_save_last_wallet (events (close_window w2 g2)) = []
      /\ List.filter is_app_quit (events (close_window w2 g2)) = []).
Proof.
  cbv zeta.
  assert (reachable (opened plain_world "/w1")) as Hr1.
  { exact (reachable_step plain_world (OpStartNewWindow (Some "/w1") None)
             _ (reachable_init plain_world ∅ 0)). }
  assert (reachable (final (start_new_window plain_world (Some "/w2") None
                              (opened plain_world "/w1")))) as Hr2.
  { exact (reachable_step plain_world (OpStartNewWindow (Some "/w2") None)
             _ Hr1). }
  split.
  - split; [exact Hr1|]. split; [reflexivity|].
    destruct (proj1 (close_window_last_window (opened plain_world "/w1")
                       (new_window (software_wallet "/w1")
                          (started plain_world)) Hr1) eq_refl)
      as (_ & H2 & H3 & H4).
    split; [exact H2|]. split; [exact H3 | exact H4].
  - assert ([new_window (software_wallet "/w1") (started plain_world)] ++ []
            <> []) as Hne by discriminate.
    split; [exact Hr2|]. split; [reflexivity|]. split; [exact Hne|].
    destruct (proj2 (close_window_last_window _
                       (new_window (software_wallet "/w2")
                          (opened plain_world "/w1")) Hr2)
                [new_window (software_wallet "/w1") (started plain_world)]
                [] eq_refl Hne)
      as (_ & H2 & H3 & H4).
    split; [exact H2|]. split; [exact H3 | exact H4].
Defined.

(** C7 (amended): in every state of the shell in which the persisted
    [dark_icon] preference is a boolean [b], one call of
    [toggle_tray_icon] turns the preference and the tray flag into [not b]
    and a second call gives both their first value again. *)
Theorem toggle_tray_icon_twice g b :
  reachable g ->
  persisted_dark_icon g = VBool b ->
  let g1 := final (toggle_tray_icon g) in
  let g2 := final (toggle_tray_icon g1) in
  dark_icon g1 = VBool (negb b) /\ persisted_dark_icon g1 = VBool (negb b)
  /\ dark_icon g2 = dark_icon g
  /\ persisted_dark_icon g2 = persisted_dark_icon g
  /\ result (toggle_tray_icon g) = Ret tt
  /\ result (toggle_tray_icon g1) = Ret tt.
Proof.
  intros Hg Hp. apply reachable_shell_ok in Hg as (_ & _ & _ & Hd).
  unfold icon_ok in Hd. rewrite Hp in Hd.
  cbv zeta. rewrite Hp. unfold persisted_dark_icon.
  destruct b; cbn; rewrite Hd; cbn; rewrite !lookup_insert_eq;
    repeat split.
Qed.

Lemma toggle_tray_icon_twice_witness :
  let g := started plain_world in
  reachable g /\ persisted_dark_icon g = VBool false
  /\ dark_icon (final (toggle_tray_icon (final (toggle_tray_icon g))))
     = dark_icon g
  /\ persisted_dark_icon
       (final (toggle_tray_icon (final (toggle_tray_icon g))))
     = persisted_dark_icon g.
Proof.
  cbv zeta. split; [exact (reachable_init plain_world ∅ 0)|].
  split; [reflexivity|].
  destruct (toggle_tray_icon_twice (started plain_world) false
              (reachable_init plain_world ∅ 0) eq_refl)
    as (_ & _ & H1 & H2 & _).
  split; [exact H1 | exact H2].
Defined.

(** C7 as stated fails: the configuration holds the string ["yes"] for
    [dark_icon], which [__init__] takes for the tray flag; two calls of
    [toggle_tray_icon] leave [True] in the flag and in the configuration,
    not ["yes"]. *)
Lemma toggle_tray_icon_twice_not_boolean :
  let g := final (__init__ plain_world
                    (blank {["dark_icon" := VStr "yes"]} 0)) in
  let g2 := final (toggle_tray_icon (final (toggle_tray_icon g))) in
  reachable g
  /\ persisted_dark_icon g = VStr "yes" /\ dark_icon g = VStr "yes"
  /\ persisted_dark_icon g2 = VBool true /\ dark_icon g2 = VBool true
  /\ persisted_dark_icon g2 <> persisted_dark_icon g.
Proof.
  cbv zeta.
  split; [exact (reachable_init plain_world
                   {["dark_icon" := VStr "yes"]} 0)|].
  repeat split; try (vm_compute; reflexivity).
  vm_compute. discriminate.
Qed.

(** * Properties of the registry *)

(** X3: in every state of the shell the registry holds pairwise distinct
    window objects, all of them made before the next window that will be
    made. *)
Theorem registry_holds_distinct_windows g :
  reachable g ->
  NoDup (win_id <$> windows g)
  /\ Forall (fun w => win_id w < next_win_id g) (windows g).
Proof. intros H. apply reachable_shell_ok in H as [H _]. exact H. Qed.

Lemma registry_holds_distinct_windows_witness :
  let g := opened plain_world "/w1" in
  reachable g /\ NoDup (win_id <$> windows g).
Proof.
  cbv zeta.
  assert (reachable (opened plain_world "/w1")) as Hr.
  { exact (reachable_step plain_world (OpStartNewWindow (Some "/w1") None)
             _ (reachable_init plain_world ∅ 0)). }
  split; [exact Hr|].
  exact (proj1 (registry_holds_distinct_windows _ Hr)).
Defined.

Section RegistryProperties.

Variable W : World.

(** X4: [start_new_window] raises exactly when it is called without a
    path while no window is open and [config.get_wallet_path()] raises, and
    then it raises that exception. *)
Theorem start_new_window_raises path uri g e :
  result (start_new_window W path uri g) = Raise e <->
  truthy path = false /\ windows g = [] /\ config_get_wallet_path W = Raise e.
Proof.
  split.
  - intros Hr.
    destruct (start_new_window_cases W path uri g)
      as [(e' & Hl & Hres & _) | [(q & w & _ & _ & Hres & _) | C]].
    + rewrite Hres in Hr. injection Hr as ->.
      unfold lookup_path in Hl.
      destruct (truthy path); [discriminate|].
      destruct (windows g); [|discriminate]. cbn in Hl.
      destruct (config_get_wallet_path W); [discriminate|].
      injection Hl as ->. repeat split.
    + rewrite Hres in Hr. discriminate.
    + destruct C as (q & _ & _ & C).
      destruct (open_wallet_returns W q g) as (res & Hres).
      rewrite Hres in C. destruct res as [wl|]; destruct C as (C & _);
        rewrite C in Hr; discriminate.
  - intros (Hp & Hw & Hc). rewrite start_new_window_eq.
    unfold lookup_path. rewrite Hp, Hw, Hc. reflexivity.
Qed.

(** The window that [start_new_window] returns is in the registry. *)
Lemma start_new_window_returned_in_registry path uri g w :
  result (start_new_window W path uri g) = Ret (Some w) ->
  In w (windows (final (start_new_window W path uri g))).
Proof.
  destruct (start_new_window_cases W path uri g)
    as [(e' & _ & Hres & _) | [(q & w' & _ & Hs & Hres & Hf & _) | C]].
  - rewrite Hres. discriminate.
  - rewrite Hres, Hf. intros [= <-].
    apply find_some in Hs as [Hs _]. exact Hs.
  - destruct C as (q & _ & _ & C).
    destruct (result (open_wallet W q g)) as [[wl|]|e];
      [|destruct C as (-> & _); discriminate..].
    destruct C as (Hres & Hw & _). rewrite Hres, Hw.
    intros [= <-]. apply in_or_app. right. left. reflexivity.
Qed.

(** X5: a window that [start_new_window] returns is in the registry;
    a call that returns nothing leaves the state as it was; and the registry
    after the call is the one before it, or the one before it with the
    returned window appended: the call never removes or reorders
    windows. *)
Theorem start_new_window_registry path uri g :
  let r := start_new_window W path uri g in
  (forall w, result r = Ret (Some w) -> In w (windows (final r)))
  /\ (result r = Ret None -> final r = g)
  /\ (windows (final r) = windows g
      \/ exists w, result r = Ret (Some w)
                   /\ windows (final r) = windows g ++ [w]).
Proof.
  cbv zeta.
  destruct (start_new_window_cases W path uri g)
    as [(e' & _ & Hres & Hf & _) | [(q & w & _ & Hs & Hres & Hf & _) | C]].
  - rewrite Hres, Hf. split; [discriminate|]. split; [reflexivity|].
    left. reflexivity.
  - rewrite Hres, Hf. split; [|split; [discriminate | left; reflexivity]].
    intros w' [= <-]. apply find_some in Hs as [Hs _]. exact Hs.
  - destruct C as (q & _ & _ & C).
    destruct (result (open_wallet W q g)) as [[wl|]|e].
    + destruct C as (Hres & Hw & _). rewrite Hres, Hw.
      split; [|split; [discriminate|]].
      * intros w' [= <-]. apply in_or_app. right. left. reflexivity.
      * right. exists (new_window wl g).
        split; reflexivity.
    + destruct C as (Hres & Hf & _). rewrite Hres, Hf.
      split; [discriminate|]. split; [reflexivity | left; reflexivity].
    + destruct C as (Hres & Hf & _). rewrite Hres, Hf.
      split; [discriminate|]. split; [reflexivity | left; reflexivity].
Qed.

(** X6: in every state of the shell, closing the window that
    [start_new_window] has just created gives back the registry as it was
    before the call. *)
Theorem open_then_close_restores_registry path uri g w :
  reachable g ->
  let r := start_new_window W path uri g in
  result r = Ret (Some w) ->
  ~ In w (windows g) ->
  let r' := close_window w (final r) in
  result r' = Ret tt /\ windows (final r') = windows g.
Proof.
  intros Hg. apply reachable_shell_ok in Hg as [[_ Hlt] _]. cbv zeta.
  intros Hres Hnew.
  destruct (start_new_window_cases W path uri g)
    as [(e' & _ & Hr & _) | [(q & w' & _ & Hs & Hr & _) | C]].
  - rewrite Hr in Hres. discriminate.
  - rewrite Hr in Hres. injection Hres as ->.
    apply find_some in Hs as [Hs _]. contradiction.
  - destruct C as (q & _ & _ & C).
    destruct (result (open_wallet W q g)) as [[wl|]|e];
      [|destruct C as (Hr & _); rewrite Hr in Hres; discriminate..].
    destruct C as (Hr & Hw & _). rewrite Hr in Hres. injection Hres as <-.
    assert (Forall (fun x => win_id x <> win_id (new_window wl g))
              (windows g)) as Hne.
    { eapply Forall_impl; [exact Hlt|]. cbn. intros; lia. }
    destruct (close_window_removes_first_run
                (final (start_new_window W path uri g))
                (new_window wl g) (windows g) [] Hw Hne) as (H1 & H2).
    rewrite app_nil_r in H2. split; assumption.
Qed.

End RegistryProperties.

Lemma open_then_close_restores_registry_witness :
  let g := started plain_world in
  let w := new_window (software_wallet "/w1") g in
  let r := start_new_window plain_world (Some "/w1") None g in
  reachable g /\ result r = Ret (Some w) /\ ~ In w (windows g)
  /\ windows (final (close_window w (final r))) = windows g.
Proof.
  cbv zeta.
  assert (~ In (new_window (software_wallet "/w1") (started plain_world))
            (windows (started plain_world))) as Hn by (intros []).
  split; [exact (reachable_init plain_world ∅ 0)|].
  split; [reflexivity|]. split; [exact Hn|].
  exact (proj2 (open_then_close_restores_registry plain_world (Some "/w1")
                  None (started plain_world) _
                  (reachable_init plain_world ∅ 0) eq_refl Hn)).
Defined.

Section Uri.

Variable W : World.

(** The URI, when there is one, is handed to the window that is shown. *)
Lemma show_window_pay_to_URI w uri g :
  List.filter is_pay_to_URI (events (show_window w uri g))
  = match uri with
    | Some u => if truthy uri then [EvWindow w (pay_to_URI u)] else []
    | None => []
    end.
Proof.
  unfold show_window.
  destruct uri as [u|]; [destruct (truthy (Some u))|]; reflexivity.
Qed.

Lemma open_wallet_no_window_call q g :
  List.filter is_pay_to_URI (events (open_wallet W q g)) = [].
Proof.
  pose proof (open_wallet_emits W q g) as H.
  induction H as [|e l [_ He] _ IH]; [reflexivity|].
  cbn [List.filter]. rewrite IH.
  destruct e; try reflexivity.
  discriminate He.
Qed.

(** X7: whenever [start_new_window] returns a window, found or new, a URI
    that is not empty is handed to that window, once, and to no other
    window; without URI no window is asked to pay. *)
Theorem start_new_window_hands_over_uri path uri g w :
  let r := start_new_window W path uri g in
  result r = Ret (Some w) ->
  List.filter is_pay_to_URI (events r)
  = match uri with
    | Some u => if truthy uri then [EvWindow w (pay_to_URI u)] else []
    | None => []
    end.
Proof.
  cbv zeta. rewrite start_new_window_eq.
  assert (List.filter is_pay_to_URI (lookup_events path g) = []) as Hl.
  { unfold lookup_events. destruct (_ && _); reflexivity. }
  destruct (lookup_path W path g) as [q|e]; [|discriminate].
  destruct (scan q g) as [w'|].
  - cbn [after result final events fst snd].
    destruct (show_window_run w' uri g) as (-> & _).
    intros [= ->].
    rewrite List.filter_app, Hl. cbn [app List.filter is_pay_to_URI].
    apply show_window_pay_to_URI.
  - cbn [after result final events fst snd].
    unfold open_and_show. rewrite run_bind, (keeps_open_wallet W q g).
    destruct (result (open_wallet W q g)) as [[wl|]|e]; [|discriminate..].
    rewrite run_bind.
    change (result (create_window_for_wallet wl g))
      with (Ret (A:=ElectrumWindow) (new_window wl g)).
    cbv beta iota. cbn [after result final events fst snd].
    destruct (show_window_run (new_window wl g) uri
                (final (create_window_for_wallet wl g))) as (-> & _).
    intros [= <-].
    rewrite !List.filter_app, Hl, open_wallet_no_window_call,
      show_window_pay_to_URI.
    reflexivity.
Qed.

End Uri.

Lemma start_new_window_hands_over_uri_witness :
  let g := opened plain_world "/w1" in
  let w := new_window (software_wallet "/w1") (started plain_world) in
  let r := start_new_window plain_world (Some "/w1") (Some "bitcoincash:q")
             g in
  result r = Ret (Some w)
  /\ List.filter is_pay_to_URI (events r)
     = [EvWindow w (pay_to_URI "bitcoincash:q")].
Proof.
  cbv zeta. split; [reflexivity|].
  exact (start_new_window_hands_over_uri plain_world (Some "/w1")
           (Some "bitcoincash:q") (opened plain_world "/w1") _ eq_refl).
Defined.

(** * Properties of the timers *)

Section Timers.

Variable W : World.

Lemma update_checker_timer_timeout_returns now g :
  timer_ok g -> result (update_checker_timer_timeout W now g) = Ret tt.
Proof.
  intros (H1 & H2 & _).
  unfold update_checker_timer_timeout, on_auto_update_timeout,
    _start_auto_update_timer, print_error.
  rewrite run_bind. cbn [get result final events fst snd after].
  destruct (isActive (update_checker_timer g)) eqn:Ha; [|reflexivity].
  specialize (H2 eq_refl).
  cbv [bind modify emit get ret raise after result final events fst snd].
  cbn [clock set_clock set_update_checker_timer first_run].
  destruct (first_run g) as [[]|] eqn:Hf; [| |contradiction];
    (destruct (daemon_network W) as [[]|];
       [destruct (did_check_recently W _)|]); reflexivity.
Qed.

(** X8: in every state of the shell the timeouts of the update-check timer
    return, whenever they are delivered: the slot [on_auto_update_timeout]
    never fails on a missing [first_run] attribute, because the timer runs
    only after [_start_auto_update_timer] has set it. *)
Theorem update_check_timeouts_return g ts :
  reachable g -> result (timeouts W ts g) = Ret tt.
Proof.
  intros Hg. apply reachable_shell_ok in Hg as (_ & Hg & _).
  revert g Hg. induction ts as [|t ts IH]; intros g Hg; [reflexivity|].
  cbn [timeouts]. rewrite run_bind.
  rewrite (update_checker_timer_timeout_returns t g Hg).
  cbn [after result fst snd]. apply IH.
  apply update_checker_timer_timeout_timer_ok, Hg.
Qed.

End Timers.

Lemma update_check_timeouts_return_witness :
  reachable (started offline_world)
  /\ result (timeouts offline_world [9674; 3609700; 7100000]%Z
               (started offline_world)) = Ret tt.
Proof.
  split; [exact (reachable_init offline_world ∅ 0)|].
  exact (update_check_timeouts_return offline_world _
           [9674; 3609700; 7100000]%Z (reachable_init offline_world ∅ 0)).
Defined.

(** The garbage-collection timer *)

(** After calls of [gc_schedule] the timer runs. *)
Lemma gc_schedules_armed ts : forall t g,
  let r := gc_schedules (t :: ts) g in
  result r = Ret tt /\ events r = []
  /\ isActive (gc_timer (final r)) = true
  /\ singleShot (gc_timer (final r)) = singleShot (gc_timer g).
Proof.
  induction ts as [|a ts IH]; intros t g; cbv zeta.
  - repeat split.
  - change (gc_schedules (t :: a :: ts))
      with (tick t >> gc_schedule >> gc_schedules (a :: ts)).
    rewrite run_bind. cbn [tick modify result final events fst snd after].
    rewrite run_bind.
    cbn [gc_schedule modify result final events fst snd after app].
    destruct (IH a (set_gc_timer
                      (QTimer_start (clock (set_clock (Z.max (clock g) t) g))
                         (gc_timer (set_clock (Z.max (clock g) t) g)))
                      (set_clock (Z.max (clock g) t) g)))
      as (H1 & H2 & H3 & H4).
    split; [exact H1|]. split; [exact H2|]. split; [exact H3 | exact H4].
Qed.

Lemma gc_timer_timeouts_idle ts g :
  isActive (gc_timer g) = false -> gc_timer_timeouts ts g = (Ret tt, g, []).
Proof.
  intros Ha. induction ts as [|t ts IH]; [reflexivity|].
  cbn [gc_timer_timeouts]. unfold gc_timer_timeout at 1.
  rewrite run_bind. cbn [get result final events fst snd after].
  rewrite run_bind. cbn [get result final events fst snd after].
  rewrite Ha. cbn [ret result final events fst snd after].
  rewrite IH. reflexivity.
Qed.

Lemma gc_timer_timeout_armed t g :
  isActive (gc_timer g) = true ->
  gc_timer_timeout t g
  = (Ret tt,
     set_gc_timer (QTimer_rearm (gc_timer g))
       (set_clock (Z.max (clock g) t) g),
     [EvGcCollect]).
Proof.
  intros Ha. unfold gc_timer_timeout, gc.
  cbv [bind get after result final events fst snd]. rewrite Ha.
  reflexivity.
Qed.

(** A running single-shot timer delivers one timeout. *)
Lemma gc_timer_timeouts_armed g t ts :
  singleShot (gc_timer g) = true ->
  isActive (gc_timer g) = true ->
  let r := gc_timer_timeouts (t :: ts) g in
  result r = Ret tt
  /\ events r = [EvGcCollect]
  /\ isActive (gc_timer (final r)) = false.
Proof.
  intros Hs Ha. cbv zeta. cbn [gc_timer_timeouts].
  rewrite (bind_returns _ _ _ _ _ _ (gc_timer_timeout_armed t g Ha)).
  rewrite gc_timer_timeouts_idle by (cbn; rewrite Hs; reflexivity).
  cbn. rewrite Hs. repeat split.
Qed.

(** X10: calls of [gc_schedule] coalesce: however many there are and
    whenever they are made, as long as no timeout is delivered between
    them, the garbage collector runs once, at the first timeout that is
    delivered after them, and the timer is idle afterwards. *)
Theorem gc_schedule_coalesces g t ts d ds :
  gc_timer_ok g ->
  let g1 := final (gc_schedules (t :: ts) g) in
  let r := gc_timer_timeouts (d :: ds) g1 in
  result r = Ret tt
  /\ events r = [EvGcCollect]
  /\ isActive (gc_timer (final r)) = false.
Proof.
  intros [Hs Hi]. cbv zeta.
  destruct (gc_schedules_armed ts t g) as (_ & _ & Ha & Hs').
  apply gc_timer_timeouts_armed; [rewrite Hs'; exact Hs | exact Ha].
Qed.

Lemma gc_schedule_coalesces_witness :
  let g := started plain_world in
  gc_timer_ok g
  /\ events (gc_timer_timeouts [800; 1300; 1800]%Z
               (final (gc_schedules [100; 250; 300]%Z g)))
     = [EvGcCollect].
Proof.
  cbv zeta.
  assert (gc_timer_ok (started plain_world)) as H by (split; reflexivity).
  split; [exact H|].
  destruct (gc_schedule_coalesces (started plain_world) 100 [250; 300]
              800 [1300; 1800] H)%Z as (_ & H2 & _).
  exact H2.
Defined.

(** X11: closing two windows one after the other, with no timeout
    delivered in between, leads to one garbage collection, not two. *)
Theorem closing_windows_collects_once g w1 w2 t d ds :
  gc_timer_ok g ->
  let r1 := close_window w1 g in
  let r2 := close_window w2 (final (tick t (final r1))) in
  result r1 = Ret tt -> result r2 = Ret tt ->
  let r := gc_timer_timeouts (d :: ds) (final r2) in
  result r = Ret tt /\ events r = [EvGcCollect].
Proof.
  intros [Hs Hi]. cbv zeta. intros H1 H2.
  assert (forall w g0, result (close_window w g0) = Ret tt ->
            gc_timer (final (close_window w g0))
            = QTimer_start (clock g0) (gc_timer g0)) as Hclose.
  { intros w g0. unfold close_window. rewrite run_bind.
    cbn [get result final events fst snd].
    destruct (list_remove w (windows g0)) as [ws|]; [|discriminate].
    unfold _quit_after_last_window.
    destruct ws; cbn; [destruct (quitOnLastWindowClosed g0)|]; cbn;
      intros _; reflexivity. }
  pose proof (Hclose w1 g H1) as E1.
  pose proof (Hclose w2 _ H2) as E2.
  destruct (gc_timer_timeouts_armed
              (final (close_window w2
                        (final (tick t (final (close_window w1 g))))))
              d ds) as (R1 & R2 & _).
  - rewrite E2.
    change (singleShot (gc_timer (final (close_window w1 g))) = true).
    rewrite E1. exact Hs.
  - rewrite E2. reflexivity.
  - split; [exact R1 | exact R2].
Qed.

Lemma closing_windows_collects_once_witness :
  let g := opened plain_world "/w1" in
  let g' := final (start_new_window plain_world (Some "/w2") None g) in
  let w1 := new_window (software_wallet "/w1") (started plain_world) in
  let w2 := new_window (software_wallet "/w2") g in
  let g1 := final (tick 200 (final (close_window w1 g'))) in
  gc_timer_ok g'
  /\ result (close_window w1 g') = Ret tt
  /\ result (close_window w2 g1) = Ret tt
  /\ events (gc_timer_timeouts [731; 1200]%Z (final (close_window w2 g1)))
     = [EvGcCollect].
Proof.
  cbv zeta.
  assert (gc_timer_ok
            (final (start_new_window plain_world (Some "/w2") None
                      (opened plain_world "/w1")))) as H
    by (split; reflexivity).
  split; [exact H|]. split; [reflexivity|]. split; [reflexivity|].
  destruct (closing_windows_collects_once _
              (new_window (software_wallet "/w1") (started plain_world))
              (new_window (software_wallet "/w2") (opened plain_world "/w1"))
              200 731 [1200] H eq_refl eq_refl)%Z as (_ & H2).
  exact H2.
Defined.

(** * Properties of the tray flag *)

(** X12: in every state of the shell the tray flag [dark_icon] is the
    persisted preference [config.get("dark_icon", False)]. *)
Theorem tray_flag_is_persisted_preference g :
  reachable g -> dark_icon g = persisted_dark_icon g.
Proof. intros H. apply reachable_shell_ok in H as (_ & _ & _ & H). exact H. Qed.

Lemma tray_flag_is_persisted_preference_witness :
  let g := final (toggle_tray_icon (started plain_world)) in
  reachable g /\ dark_icon g = VBool true
  /\ persisted_dark_icon g = VBool true.
Proof.
  cbv zeta.
  assert (reachable (final (toggle_tray_icon (started plain_world)))) as Hr.
  { exact (reachable_step plain_world OpToggleTrayIcon _
             (reachable_init plain_world ∅ 0)). }
  split; [exact Hr|]. split; [reflexivity|].
  rewrite <- (tray_flag_is_persisted_preference _ Hr). reflexivity.
Defined.

(** X13: for any value of the tray flag, boolean or not, one call of
    [toggle_tray_icon] persists and shows the negation of its truth value;
    two calls leave the truth value of the flag in the flag and in the
    configuration (a value that is not a boolean is not restored), and the
    tray shows the same icon as before. *)
Theorem toggle_tray_icon_twice_truth_value g :
  let r1 := toggle_tray_icon g in
  let r2 := toggle_tray_icon (final r1) in
  events r1 = [EvSetKey "dark_icon" (VBool (negb (py_bool (dark_icon g))));
               EvTraySetIcon (negb (py_bool (dark_icon g)))]
  /\ dark_icon (final r2) = VBool (py_bool (dark_icon g))
  /\ persisted_dark_icon (final r2) = VBool (py_bool (dark_icon g))
  /\ result (tray_icon (final r2)) = result (tray_icon g).
Proof.
  cbv zeta. unfold persisted_dark_icon, toggle_tray_icon, config_set_key,
    tray_icon.
  cbv [bind modify emit get ret after result final events fst snd].
  cbn [dark_icon set_dark_icon].
  destruct (py_bool (dark_icon g)); cbn; rewrite ?lookup_insert_eq;
    repeat split.
Qed.

(** * The interval of the update-check timer *)

(** X14: in every state of the shell the update-check timer is set to
    10 s while its [first_run] attribute is true and to one hour while it
    is false; while the attribute is not set the timer does not run. *)
Theorem update_check_interval_follows_first_run g :
  reachable g ->
  match first_run g with
  | Some true => interval (update_checker_timer g) = 10000%Z
  | Some false => interval (update_checker_timer g) = 3600000%Z
  | None => isActive (update_checker_timer g) = false
  end.
Proof.
  intros Hg. apply reachable_shell_ok in Hg as (_ & (_ & H2 & H3) & _).
  destruct (first_run g) as [[]|].
  - exact (H3 true eq_refl).
  - exact (H3 false eq_refl).
  - destruct (isActive (update_checker_timer g)); [|reflexivity].
    exfalso. exact (H2 eq_refl eq_refl).
Qed.

Lemma update_check_interval_follows_first_run_witness :
  let g := final (update_checker_timer_timeout plain_world 9674
                    (started plain_world)) in
  reachable g /\ first_run g = Some false
  /\ interval (update_checker_timer g) = 3600000%Z.
Proof.
  cbv zeta.
  assert (reachable (final (update_checker_timer_timeout plain_world 9674
                              (started plain_world)))) as Hr.
  { exact (reachable_step plain_world (OpUpdateCheckerTimeout 9674) _
             (reachable_init plain_world ∅ 0)). }
  split; [exact Hr|]. split; [reflexivity|].
  exact (update_check_interval_follows_first_run _ Hr).
Defined.

(** * Construction *)

Section Construction.

Variable W : World.

Lemma set_dark_theme_if_needed_frame x :
  maintains
    (fun g => (windows g, config g, update_checker_timer g, first_run g,
               instance g) = x)
    (set_dark_theme_if_needed W).
Proof. autounfold with methods. shell. Qed.

Lemma init_sets_up_shell_run cfg now :
  let r := __init__ W (blank cfg now) in
  result r = Ret tt /\ windows (final r) = [] /\ config (final r) = cfg.
Proof.
  cbv zeta.
  destruct (init_run W (blank cfg now) eq_refl) as (Hr & -> & _).
  split; [exact Hr|].
  pose proof (set_dark_theme_if_needed_frame _
                (set_windows [] (set_instance true (blank cfg now)))
                eq_refl) as Hf.
  remember (final (set_dark_theme_if_needed W
                     (set_windows [] (set_instance true (blank cfg now)))))
    as g0 eqn:E. clear E.
  cbn in Hf. injection Hf as H1 H2 _ _ _.
  destruct (py_bool _); cbn; rewrite H1, H2; split; reflexivity.
Qed.

(** X15: the first construction in a process returns, whatever becomes of
    the dark theme; it registers the instance, leaves an empty registry and
    the configuration as it was, reads the tray flag from the
    configuration, and starts the update-check timer, set to 10 s and in
    its first run, exactly when the update check is enabled (the default);
    otherwise the timer is idle.  A construction while an instance exists
    raises AssertionError before anything is done. *)
Theorem init_sets_up_shell cfg now :
  let r := __init__ W (blank cfg now) in
  (result r = Ret tt
   /\ instance (final r) = true
   /\ windows (final r) = []
   /\ config (final r) = cfg
   /\ dark_icon (final r) = default (VBool false) (cfg !! "dark_icon")
   /\ if py_bool (default (VBool true) (cfg !! "auto_update_check"))
      then timer_runs true (final r)
      else isActive (update_checker_timer (final r)) = false
           /\ first_run (final r) = None)
  /\ (forall g, instance g = true ->
      exists e, __init__ W g = (Raise e, g, [])
                /\ exn_class e = AssertionError).
Proof.
  cbv zeta. split; [|exact (init_run_again W)].
  destruct (init_run W (blank cfg now) eq_refl) as (Hr & -> & _).
  split; [exact Hr|].
  pose proof (set_dark_theme_if_needed_frame _
                (set_windows [] (set_instance true (blank cfg now)))
                eq_refl) as Hf.
  remember (final (set_dark_theme_if_needed W
                     (set_windows [] (set_instance true (blank cfg now)))))
    as g0 eqn:E. clear E.
  cbn in Hf. injection Hf as H1 H2 H3 H4 H5.
  change (config (blank cfg now)) with cfg.
  destruct (py_bool (default (VBool true) (cfg !! "auto_update_check")));
    unfold timer_runs; cbn; rewrite ?H1, ?H2, ?H3, ?H4, ?H5; cbn;
    repeat split; discriminate.
Qed.

End Construction.

(** * [main] as one equation *)

Section MainRun.

Variable W : World.

(** The state in which [main] opens the first window: the housekeeping
    timer runs. *)
Lemma main_run g :
  main W g =
  match result (init_network W g) with
  | Raise e =>
      (Ret tt, g,
       events (init_network W g)
       ++ match exn_class e with
          | UserCancelled | GoBack => []
          | _ => [EvTraceback e]
          end)
  | Ret _ =>
      let g1 := set_timer (QTimer_start (clock g) (timer g)) g in
      after (events (init_network W g) ++ [EvOpenLastWallet; EvGetWalletPath])
        match config_get_wallet_path W with
        | Raise e => (Raise e, g1, [])
        | Ret p =>
            let s := start_new_window W (Some p)
                       (as_uri (default VNone (config g !! "url"))) g1 in
            match result s with
            | Ret (Some _) =>
                (Ret tt, set_quitOnLastWindowClosed true (final s),
                 events s
                 ++ [EvInstallSigint; EvConnectLastWindowClosed;
                     EvConnectCleanUp; EvExceptionHook; EvExec])
            | Ret None => (Ret tt, final s, events s)
            | Raise e => (Raise e, final s, events s)
            end
        end
  end.
Proof.
  pose proof (keeps_init_network W g) as Hk.
  unfold main, config_open_last_wallet, config_get_wallet_path_call,
    config_get.
  destruct (init_network W g) as [[[[]|e] g0] l0] eqn:E;
    cbn [result final events fst snd] in *; subst g0.
  - erewrite bind_returns;
      [|erewrite try_except_returns; [reflexivity|];
        erewrite bind_returns; [|exact E]; reflexivity].
    cbn [negb after result final events fst snd ret].
    cbv [bind modify emit get lift after result final events fst snd ret].
    destruct (config_get_wallet_path W) as [p|e].
    + cbn [config set_timer].
      destruct (start_new_window W (Some p) _ _) as [[[[w|]|e] g2] l2];
        cbn; rewrite ?app_nil_r, <- ?app_assoc; reflexivity.
    + cbn. rewrite ?app_nil_r. reflexivity.
  - destruct (exn_class e) eqn:Hc;
      (erewrite bind_returns;
         [|erewrite try_except_raises; [|apply bind_raises; exact E];
           rewrite Hc; reflexivity]);
      cbv [bind negb emit after result final events fst snd ret];
      cbn [app]; rewrite ?app_nil_r; reflexivity.
Qed.

End MainRun.

Section MainProperties.

Variable W : World.

Lemma start_new_window_emits_no_exec path uri :
  emits (fun e => e <> EvExec) (start_new_window W path uri).
Proof.
  unfold start_new_window, show_window, create_window_for_wallet,
    build_tray_menu, config_open_last_wallet, config_get_wallet_path_call,
    open_wallet, load_wallet_or_new_path, run_install_wizard,
    daemon_load_wallet_call, get_new_wallet_path, get_wallet_folder,
    config_get_wallet_path_call, _slp_warn_if_wallet_not_compat,
    daemon_stop_wallet_call, warning, print_error.
  shell.
Qed.

Lemma init_network_emits_no_exec g :
  ~ In EvExec (events (init_network W g)).
Proof.
  intros Hin. pose proof (init_network_emits W g) as H.
  rewrite List.Forall_forall in H. specialize (H _ Hin). discriminate H.
Qed.

Lemma start_new_window_timer path uri x :
  maintains (fun g => timer g = x) (start_new_window W path uri).
Proof.
  intros g Hg.
  destruct (start_new_window_final W path uri g) as [->|(wl & _ & ->)];
    exact Hg.
Qed.

(** X16: [main] enters the event loop only with a window in the registry,
    with [quitOnLastWindowClosed] set and with the housekeeping timer
    running; entering the loop is the last thing it does, and it does so
    once. *)
Theorem main_enters_event_loop_with_window g :
  let r := main W g in
  In EvExec (events r) ->
  result r = Ret tt
  /\ windows (final r) <> []
  /\ quitOnLastWindowClosed (final r) = true
  /\ isActive (timer (final r)) = true
  /\ exists l, events r = l ++ [EvExec] /\ ~ In EvExec l.
Proof.
  cbv zeta. rewrite main_run.
  pose proof (init_network_emits_no_exec g) as Hi.
  destruct (result (init_network W g)) as [[]|e].
  - cbv zeta. cbn [after result final events fst snd].
    destruct (config_get_wallet_path W) as [p|e].
    + set (g1 := set_timer (QTimer_start (clock g) (timer g)) g).
      set (uri := as_uri (default VNone (config g !! "url"))).
      pose proof (start_new_window_emits_no_exec (Some p) uri g1) as Hs.
      pose proof (start_new_window_returned_in_registry W (Some p) uri g1)
        as Hw.
      pose proof (start_new_window_timer (Some p) uri _ g1 eq_refl) as Ht.
      rewrite List.Forall_forall in Hs.
      destruct (start_new_window W (Some p) uri g1) as [[[[w|]|e] g2] l2];
        cbn [result final events fst snd] in *.
      * intros _. split; [reflexivity|]. split.
        { specialize (Hw w eq_refl). intros E.
          change (windows g2 = []) in E. rewrite E in Hw. exact Hw. }
        split; [reflexivity|].
        split; [change (isActive (timer g2) = true); rewrite Ht; reflexivity|].
        eexists. split.
        { rewrite !app_assoc.
          change [EvInstallSigint; EvConnectLastWindowClosed;
                  EvConnectCleanUp; EvExceptionHook; EvExec]
            with ([EvInstallSigint; EvConnectLastWindowClosed;
                   EvConnectCleanUp; EvExceptionHook] ++ [EvExec]).
          rewrite !app_assoc. reflexivity. }
        rewrite !in_app_iff. cbn [In].
        intros [[[H|H]|H]|H]; [contradiction | | |].
        { destruct H as [H|[H|H]]; [discriminate..|contradiction]. }
        { exact (Hs _ H eq_refl). }
        { destruct H as [H|[H|[H|[H|H]]]]; [discriminate..|contradiction]. }
      * rewrite !in_app_iff. cbn [In].
        intros [[H|H]|H]; exfalso; [contradiction | | exact (Hs _ H eq_refl)].
        destruct H as [H|[H|H]]; [discriminate..|contradiction].
      * rewrite !in_app_iff. cbn [In].
        intros [[H|H]|H]; exfalso; [contradiction | | exact (Hs _ H eq_refl)].
        destruct H as [H|[H|H]]; [discriminate..|contradiction].
    + rewrite !in_app_iff. cbn [In].
      intros [[H|H]|H]; exfalso; [contradiction | | contradiction].
      destruct H as [H|[H|H]]; [discriminate..|contradiction].
  - cbn [events snd]. rewrite in_app_iff.
    intros [H|H]; exfalso; [contradiction|].
    destruct (exn_class e); cbn in H; try contradiction;
      destruct H as [H|H]; try discriminate; contradiction.
Qed.

(** X17: [main] raises exactly when the network setup has returned and
    [config.get_wallet_path()] raises, and then it raises that exception;
    an exception of the network setup never leaves [main]. *)
Theorem main_raises g e :
  result (main W g) = Raise e <->
  result (init_network W g) = Ret tt /\ config_get_wallet_path W = Raise e.
Proof.
  rewrite main_run.
  destruct (result (init_network W g)) as [[]|e0].
  - cbv zeta. cbn [after result final events fst snd].
    destruct (config_get_wallet_path W) as [p|e1] eqn:Hc.
    + set (g1 := set_timer (QTimer_start (clock g) (timer g)) g).
      set (uri := as_uri (default VNone (config g !! "url"))).
      destruct (start_new_window_cases W (Some p) uri g1)
        as [(e' & Hl & _) | [(q & w & _ & _ & Hres & _) | C]].
      * unfold lookup_path in Hl. rewrite Hc in Hl.
        destruct (_ && _); discriminate.
      * rewrite Hres. cbn. split; [discriminate | intros [_ ?]; discriminate].
      * destruct C as (q & _ & _ & C).
        destruct (open_wallet_returns W q g1) as (res & Hres).
        rewrite Hres in C.
        destruct res as [wl|]; destruct C as (-> & _); cbn;
          (split; [discriminate | intros [_ ?]; discriminate]).
    + cbn. split; [intros [= ->]; split; reflexivity|].
      intros [_ [= ->]]. reflexivity.
  - cbn. split; [discriminate | intros [? _]; discriminate].
Qed.

End MainProperties.

Lemma main_enters_event_loop_with_window_witness :
  let r := main plain_world (started plain_world) in
  In EvExec (events r) /\ result r = Ret tt /\ windows (final r) <> [].
Proof.
  cbv zeta.
  assert (In EvExec (events (main plain_world (started plain_world)))) as H
    by (vm_compute; tauto).
  split; [exact H|].
  destruct (main_enters_event_loop_with_window plain_world
              (started plain_world) H) as (H1 & H2 & _).
  split; [exact H1 | exact H2].
Defined.

(** * File-open events *)

Section EventFilter.

Variable W : World.

(** X18: a FileOpen event that comes before the first window is open is
    not consumed and its URL goes nowhere; after a call of
    [start_new_window] that returned a window it is consumed and the URL is
    handed to the first window of the registry, which is the first window
    from before the call when there was one. *)
Theorem file_open_goes_to_first_window url :
  (forall cfg now,
     let g := final (__init__ W (blank cfg now)) in
     eventFilter (FileOpen url) g = (Ret false, g, []))
  /\ (forall path uri g w,
        let g' := final (start_new_window W path uri g) in
        result (start_new_window W path uri g) = Ret (Some w) ->
        exists w0,
          head (windows g') = Some w0
          /\ (windows g <> [] -> head (windows g) = Some w0)
          /\ eventFilter (FileOpen url) g'
             = (Ret true, g', [EvWindow w0 (pay_to_URI url)])).
Proof.
  split.
  - intros cfg now. cbv zeta.
    destruct (init_sets_up_shell_run W cfg now) as (_ & Hw & _).
    remember (final (__init__ W (blank cfg now))) as g0 eqn:E. clear E.
    unfold eventFilter. cbv [bind get after result final events fst snd].
    rewrite Hw. reflexivity.
  - intros path uri g w. cbv zeta. intros Hres.
    pose proof (start_new_window_returned_in_registry W path uri g w Hres)
      as Hin.
    assert (windows (final (start_new_window W path uri g)) = windows g
            \/ exists w', windows (final (start_new_window W path uri g))
                          = windows g ++ [w']) as Hw.
    { destruct (start_new_window_final W path uri g) as [->|(wl & _ & ->)];
        [left; reflexivity | right; eexists; reflexivity]. }
    remember (final (start_new_window W path uri g)) as g' eqn:E'. clear E'.
    destruct (windows g') as [|w0 ws] eqn:E; [contradiction|].
    exists w0. split; [reflexivity|]. split.
    + destruct Hw as [<-|(w' & Hw)]; [reflexivity|].
      destruct (windows g); [contradiction|].
      injection Hw as -> _. reflexivity.
    + unfold eventFilter. cbv [bind get after result final events fst snd].
      rewrite E. reflexivity.
Qed.

(** X19: [is_dark_theme_available] returns a boolean, raises nothing,
    calls nothing and changes nothing; when it says no, the theme selector
    applies no style sheet and tells the style patcher and the colour
    scheme that the theme is light, whatever the configuration asks
    for. *)
Theorem dark_theme_unavailable g :
  (exists b, is_dark_theme_available W g = (Ret b, g, []))
  /\ (result (is_dark_theme_available W g) = Ret false ->
      let r := set_dark_theme_if_needed W g in
      result r = Ret tt /\ final r = g
      /\ exists log,
           events r = log ++ [EvStylePatch false None;
                              EvColorSchemeUpdate false]).
Proof.
  unfold is_dark_theme_available, set_dark_theme_if_needed, config_get,
    print_error.
  cbv [bind try_except lift get modify emit ret raise after result final
       events fst snd].
  destruct (import_qdarkstyle W) as [[]|e].
  - split; [eexists; reflexivity | discriminate].
  - split; [eexists; reflexivity|]. intros _.
    destruct (bool_decide _); cbn; repeat split;
      [eexists [_] | exists []]; reflexivity.
Qed.

End EventFilter.

(** * The tray menu and the wizard *)

Section TrayMenu.

Variable W : World.

Lemma open_wallet_no_tray_menu q g :
  List.filter is_build_tray_menu (events (open_wallet W q g)) = [].
Proof.
  pose proof (open_wallet_emits W q g) as H.
  induction H as [|e l [_ He] _ IH]; [reflexivity|].
  cbn [List.filter]. rewrite IH.
  destruct e; try reflexivity. discriminate He.
Qed.

(** X20: [start_new_window] rebuilds the tray menu exactly when it adds a
    window to the registry, once, and with the entries of the new
    registry. *)
Theorem tray_menu_follows_registry path uri g :
  let r := start_new_window W path uri g in
  (windows (final r) = windows g
   /\ List.filter is_build_tray_menu (events r) = [])
  \/ (exists w, windows (final r) = windows g ++ [w]
      /\ List.filter is_build_tray_menu (events r)
         = [EvBuildTrayMenu (tray_entries (windows (final r)))]).
Proof.
  cbv zeta. rewrite start_new_window_eq.
  assert (List.filter is_build_tray_menu (lookup_events path g) = []) as Hl.
  { unfold lookup_events. destruct (_ && _); reflexivity. }
  assert (forall w g', List.filter is_build_tray_menu
                         (events (show_window w uri g')) = []) as Hs.
  { intros w g'. destruct (show_window_run w uri g') as (_ & _ & _ & H).
    induction H as [|e l [c ->] _ IH]; [reflexivity | exact IH]. }
  destruct (lookup_path W path g) as [q|e];
    [|left; split; [reflexivity|exact Hl]].
  destruct (scan q g) as [w'|].
  - left. cbn [after result final events fst snd].
    destruct (show_window_run w' uri g) as (_ & -> & _).
    split; [reflexivity|].
    rewrite List.filter_app, Hl. cbn [app List.filter is_build_tray_menu].
    apply Hs.
  - cbn [after result final events fst snd].
    unfold open_and_show. rewrite run_bind, (keeps_open_wallet W q g).
    pose proof (open_wallet_no_tray_menu q g) as Ho.
    destruct (result (open_wallet W q g)) as [[wl|]|e].
    + right. exists (new_window wl g). rewrite run_bind.
      change (result (create_window_for_wallet wl g))
        with (Ret (A:=ElectrumWindow) (new_window wl g)).
      cbv beta iota. cbn [after result final events fst snd].
      destruct (show_window_run (new_window wl g) uri
                  (final (create_window_for_wallet wl g))) as (_ & -> & _).
      split; [reflexivity|].
      rewrite !List.filter_app, Hl, Ho, Hs. reflexivity.
    + left. cbn [ret after result final events fst snd].
      split; [reflexivity|].
      rewrite !List.filter_app, Hl, Ho. reflexivity.
    + left. cbn [ret after result final events fst snd].
      split; [reflexivity|].
      rewrite !List.filter_app, Hl, Ho. reflexivity.
Qed.

End TrayMenu.

Section Wizard.

Variable W : World.

Ltac inv_other H ::=
  lazymatch type of H with
  | _slp_warn_if_wallet_not_compat _ ?w true _ = _ =>
      rewrite slp_warn_run in H;
      first
        [ match goal with
          | E : has_hardware_keystore w = _ |- _ => rewrite E in H
          end
        | destruct (has_hardware_keystore w) eqn:? ];
      inv_leaf H
  | _ => idtac
  end.

(** The wizard of [open_wallet]: made at most once, always terminated and
    followed by a garbage collection; the wallets handed to the daemon are
    those that the wizard made, with their threads started. *)
Lemma open_wallet_wizard q g :
  let l := events (open_wallet W q g) in
  count_events is_wizard_created l <= 1
  /\ count_events is_wizard_terminate l = count_events is_wizard_created l
  /\ count_events is_gc_collect l = count_events is_wizard_created l
  /\ forall wl, In (EvAddWallet wl) l ->
       In (EvWizardResult (Some wl)) l /\ In (EvStartThreads wl) l.
Proof.
  run_of (open_wallet W q) g.
  unfold open_wallet, load_wallet_or_new_path, run_install_wizard,
    daemon_load_wallet_call, get_new_wallet_path, get_wallet_folder,
    config_get_wallet_path_call, warning, print_error in Hrun.
  inv_run Hrun.
  all: cbn [app].
  all: unfold count_events, hardware_warning.
  all: repeat match goal with
              | |- context [if ?b then _ else _] => destruct b
              end.
  all: cbn [List.filter is_wizard_created is_wizard_terminate is_gc_collect
            length].
  all: split; [lia|]; split; [reflexivity|]; split; [reflexivity|].
  all: intros wl' Hin; ev_hyp Hin.
  all: cbn [In]; tauto.
Qed.

(** A wallet with a hardware keystore from the daemon: the wallet is
    stopped and the hardware message box shown; then, with windows open,
    the exception [unwanted_wallet] goes to the error message box, and
    with none, and a new wallet path at hand, the wizard runs on that
    path. *)
Lemma open_wallet_hardware_loaded q g wl :
  daemon_load_wallet W q = Ret (Some wl) ->
  has_hardware_keystore wl = true ->
  let r := open_wallet W q g in
  (windows g <> [] ->
   r = (Ret None, g,
        [EvLoadWallet q (Some wl); EvStopWallet (storage_path wl);
         hardware_warning wl; EvPrintError (LogRepr unwanted_wallet);
         EvTraceback unwanted_wallet; error_dialog unwanted_wallet]))
  /\ (windows g = [] -> forall cp, config_get_wallet_path W = Ret cp ->
      exists l,
        events r =
          [EvLoadWallet q (Some wl); EvStopWallet (storage_path wl);
           hardware_warning wl; EvPrintError (LogRepr unwanted_wallet);
           EvGetWalletPath; EvWizardCreated (Some (new_wallet_path W cp));
           EvWizardRun (Some (new_wallet_path W cp))] ++ l).
Proof.
  intros Hload Hhw.
  run_of (open_wallet W q) g.
  unfold open_wallet, load_wallet_or_new_path, run_install_wizard,
    daemon_load_wallet_call, get_new_wallet_path, get_wallet_folder,
    config_get_wallet_path_call, warning, print_error in Hrun.
  inv_run Hrun.
  all: cbn [app].
  all: try congruence.
  all: destruct (windows g'); try discriminate.
  all: split; [intros Hw; try congruence | intros Hw; try discriminate Hw].
  all: try reflexivity.
  all: intros cp Hcp; same_answer; try congruence.
  all: eexists; unfold new_wallet_path, unwanted_wallet; reflexivity.
Qed.

(** X21: when the daemon loads a wallet with a hardware keystore for the
    path of the call, the wallet is stopped and the hardware message box is
    shown; then, with a window open, a second message box follows, the
    error box for "User doesn't want to use this wallet", and the call
    returns nothing and changes nothing; with no window open, and a new
    wallet path at hand, the install wizard is run on that new path. *)
Theorem hardware_wallet_from_daemon path uri g wl :
  let q := path_and_standardize_path W path in
  let r := start_new_window W path uri g in
  truthy path = true ->
  scan q g = None ->
  daemon_load_wallet W q = Ret (Some wl) ->
  has_hardware_keystore wl = true ->
  (windows g <> [] ->
   r = (Ret None, g,
        [EvLoadWallet q (Some wl); EvStopWallet (storage_path wl);
         hardware_warning wl; EvPrintError (LogRepr unwanted_wallet);
         EvTraceback unwanted_wallet; error_dialog unwanted_wallet]))
  /\ (windows g = [] -> forall cp, config_get_wallet_path W = Ret cp ->
      exists l,
        events r =
          [EvLoadWallet q (Some wl); EvStopWallet (storage_path wl);
           hardware_warning wl; EvPrintError (LogRepr unwanted_wallet);
           EvGetWalletPath; EvWizardCreated (Some (new_wallet_path W cp));
           EvWizardRun (Some (new_wallet_path W cp))] ++ l).
Proof.
  cbv zeta. intros Hp Hs Hload Hhw.
  destruct (lookup_path_given W path g (or_introl Hp)) as [Hl He].
  rewrite start_new_window_eq, Hl, He, Hs.
  destruct (open_wallet_hardware_loaded _ g wl Hload Hhw) as [H1 H2].
  split.
  - intros Hw. specialize (H1 Hw). unfold open_and_show.
    rewrite (bind_returns _ _ _ _ _ _ H1). reflexivity.
  - intros Hw cp Hcp. destruct (H2 Hw cp Hcp) as (l & Hev).
    pose proof (open_and_show_run W (path_and_standardize_path W path) uri g)
      as H. cbv zeta in H. cbn [after events snd app].
    destruct (result (open_wallet W _ g)) as [[w|]|e].
    + destruct H as (_ & _ & l' & -> & _). rewrite Hev.
      eexists. rewrite <- app_assoc. reflexivity.
    + destruct H as (_ & _ & ->). exists l. exact Hev.
    + destruct H as (_ & _ & ->). exists l. exact Hev.
Qed.

(** The events of [start_new_window]: those of the lookup, those of
    [open_wallet] when the scan finds no window, and calls on windows. *)
Lemma start_new_window_events path uri g :
  exists lo lw,
    events (start_new_window W path uri g) = lookup_events path g ++ lo ++ lw
    /\ (lo = [] \/ exists q, lo = events (open_wallet W q g))
    /\ Forall (fun e => is_window_event e = true) lw.
Proof.
  destruct (start_new_window_cases W path uri g)
    as [(e' & _ & _ & _ & Hev) | [(q & w & _ & _ & _ & _ & Hev) | C]].
  - exists [], []. rewrite Hev, app_nil_r. repeat split; [left|]; done.
  - exists [], (EvWindow w bring_to_top :: events (show_window w uri g)).
    rewrite Hev. split; [reflexivity|]. split; [left; reflexivity|].
    constructor; [reflexivity|].
    destruct (show_window_run w uri g) as (_ & _ & _ & H).
    eapply List.Forall_impl; [|exact H]. intros a [c ->]. reflexivity.
  - destruct C as (q & _ & _ & C).
    destruct (result (open_wallet W q g)) as [[wl|]|e].
    + destruct C as (_ & _ & l & Hev & Hl).
      exists (events (open_wallet W q g)), (EvNewWindow (new_window wl g) :: l).
      rewrite Hev. split; [reflexivity|]. split; [right; eexists; reflexivity|].
      constructor; [reflexivity|].
      eapply List.Forall_impl; [|exact Hl]. intros a Ha.
      unfold is_window_event. rewrite Ha. apply orb_true_r.
    + destruct C as (_ & _ & Hev).
      exists (events (open_wallet W q g)), []. rewrite Hev, app_nil_r.
      split; [reflexivity|]. split; [right; eexists; reflexivity|constructor].
    + destruct C as (_ & _ & Hev).
      exists (events (open_wallet W q g)), []. rewrite Hev, app_nil_r.
      split; [reflexivity|]. split; [right; eexists; reflexivity|constructor].
Qed.

Lemma count_events_app P l1 l2 :
  count_events P (l1 ++ l2) = count_events P l1 + count_events P l2.
Proof. unfold count_events. rewrite List.filter_app. apply length_app. Qed.

Lemma count_events_window_events P l :
  (forall e, is_window_event e = true -> P e = false) ->
  Forall (fun e => is_window_event e = true) l -> count_events P l = 0.
Proof.
  intros H. unfold count_events.
  induction 1 as [|e l He _ IH]; [reflexivity|].
  cbn. rewrite (H e He). exact IH.
Qed.

Lemma count_events_lookup_events P path g :
  P EvOpenLastWallet = false -> P EvGetWalletPath = false ->
  count_events P (lookup_events path g) = 0.
Proof.
  intros H1 H2. unfold lookup_events, count_events.
  destruct (_ && _); cbn; rewrite ?H1, ?H2; reflexivity.
Qed.

(** X22: a call of [start_new_window] makes at most one install wizard,
    and a wizard that is made is terminated and followed by a garbage
    collection, also when it raises, is cancelled or gone back from. *)
Theorem wizard_is_always_terminated path uri g :
  let l := events (start_new_window W path uri g) in
  count_events is_wizard_created l <= 1
  /\ count_events is_wizard_terminate l = count_events is_wizard_created l
  /\ count_events is_gc_collect l = count_events is_wizard_created l.
Proof.
  cbv zeta.
  destruct (start_new_window_events path uri g) as (lo & lw & -> & Hlo & Hlw).
  assert (forall P, (forall e, is_window_event e = true -> P e = false) ->
            P EvOpenLastWallet = false -> P EvGetWalletPath = false ->
            count_events P (lookup_events path g ++ lo ++ lw)
            = count_events P lo) as Hc.
  { intros P H1 H2 H3.
    rewrite !count_events_app, count_events_lookup_events,
      (count_events_window_events P lw) by assumption. lia. }
  rewrite !Hc by (try reflexivity; intros e; destruct e; try discriminate;
                  reflexivity).
  destruct Hlo as [->|(q & ->)]; [cbn; lia|].
  destruct (open_wallet_wizard q g) as (H1 & H2 & H3 & _).
  split; [exact H1|]. split; [exact H2 | exact H3].
Qed.

(** X23: [daemon.add_wallet] is called only with a wallet that the wizard
    has made in the same call, after its threads are started; a wallet that
    the daemon has loaded itself is not added again. *)
Theorem daemon_is_given_wizard_wallets path uri g wl :
  let l := events (start_new_window W path uri g) in
  In (EvAddWallet wl) l ->
  In (EvWizardResult (Some wl)) l /\ In (EvStartThreads wl) l.
Proof.
  cbv zeta.
  destruct (start_new_window_events path uri g) as (lo & lw & -> & Hlo & Hlw).
  rewrite !in_app_iff. intros [H|[H|H]].
  - unfold lookup_events in H. destruct (_ && _); ev_hyp H.
  - destruct Hlo as [->|(q & ->)]; [contradiction|].
    destruct (open_wallet_wizard q g) as (_ & _ & _ & Ha).
    destruct (Ha wl H) as [H1 H2]. tauto.
  - rewrite List.Forall_forall in Hlw. specialize (Hlw _ H). discriminate.
Qed.

End Wizard.

Lemma daemon_is_given_wizard_wallets_witness :
  let r := start_new_window unreadable_world (Some "/bad") None
             (started unreadable_world) in
  let wl := software_wallet "/wallets/wallet_1" in
  In (EvAddWallet wl) (events r)
  /\ In (EvWizardResult (Some wl)) (events r)
  /\ In (EvStartThreads wl) (events r).
Proof.
  cbv zeta.
  assert (In (EvAddWallet (software_wallet "/wallets/wallet_1"))
            (events (start_new_window unreadable_world (Some "/bad") None
                       (started unreadable_world)))) as H
    by (vm_compute; tauto).
  split; [exact H|].
  exact (daemon_is_given_wizard_wallets unreadable_world (Some "/bad") None
           (started unreadable_world) _ H).
Defined.

Lemma hardware_wallet_from_daemon_witness :
  let g := opened plain_world "/w1" in
  let r := start_new_window hardware_world (Some "/hw") None g in
  truthy (Some "/hw") = true
  /\ windows g <> []
  /\ r = (Ret None, g,
          [EvLoadWallet (Some "/hw") (Some (hardware_wallet "/hw"));
           EvStopWallet "/hw"; hardware_warning (hardware_wallet "/hw");
           EvPrintError (LogRepr unwanted_wallet);
           EvTraceback unwanted_wallet; error_dialog unwanted_wallet]).
Proof.
  cbv zeta.
  assert (windows (opened plain_world "/w1") <> []) as Hw
    by (vm_compute; discriminate).
  split; [reflexivity|]. split; [exact Hw|].
  exact (proj1 (hardware_wallet_from_daemon hardware_world (Some "/hw") None
                  (opened plain_world "/w1") (hardware_wallet "/hw")
                  eq_refl eq_refl eq_refl eq_refl) Hw).
Defined.

(** * The update check switch *)

(** X24: [set_auto_update_check(b)] returns and leaves the update check
    switched as [b] says; a second call with the same [b] does nothing, and
    so does a first call when the switch is as [b] says already: the
    configuration is not written and the timer is neither restarted nor
    stopped. *)
Theorem set_auto_update_check_idempotent b g :
  let r := set_auto_update_check b g in
  result r = Ret tt
  /\ result (has_auto_update_check (final r)) = Ret b
  /\ set_auto_update_check b (final r) = (Ret tt, final r, [])
  /\ (py_bool (default (VBool true) (config g !! "auto_update_check")) = b ->
      r = (Ret tt, g, [])).
Proof.
  cbv zeta.
  unfold set_auto_update_check, has_auto_update_check, config_get,
    config_set_key, _start_auto_update_timer, _stop_auto_update_timer,
    print_error.
  cbv [bind get ret modify emit after result final events fst snd].
  destruct (py_bool (default (VBool true) (config g !! "auto_update_check")))
    eqn:E; destruct b; cbn; rewrite ?lookup_insert_eq, ?E; cbn;
    repeat split; discriminate.
Qed.

Section LoadedWallet.

Variable W : World.

(** A wallet without hardware keystore from the daemon is the wallet of
    the call; nothing else happens. *)
Lemma open_wallet_loaded q g wl :
  daemon_load_wallet W q = Ret (Some wl) ->
  has_hardware_keystore wl = false ->
  open_wallet W q g = (Ret (Some wl), g, [EvLoadWallet q (Some wl)]).
Proof.
  intros Hload Hhw.
  unfold open_wallet, load_wallet_or_new_path, daemon_load_wallet_call.
  rewrite Hload.
  cbv [bind try_except emit ret after result final events fst snd].
  rewrite !slp_warn_run, Hhw.
  cbv [bind try_except emit ret after result final events fst snd].
  rewrite !slp_warn_run, Hhw. reflexivity.
Qed.

(** X25: when the daemon loads a wallet without hardware keystore for the
    path of the call and no window shows that path, the call makes one
    window for it, appends it to the registry, rebuilds the tray menu, runs
    the hook [on_new_window], shows the window and returns it; no wizard,
    no message box, and the wallet is not added to the daemon again. *)
Theorem start_new_window_opens_loaded_wallet path uri g wl :
  let q := path_and_standardize_path W path in
  let r := start_new_window W path uri g in
  let w := new_window wl g in
  truthy path = true ->
  scan q g = None ->
  daemon_load_wallet W q = Ret (Some wl) ->
  has_hardware_keystore wl = false ->
  result r = Ret (Some w)
  /\ final r = with_new_window wl g
  /\ events r
     = [EvLoadWallet q (Some wl); EvNewWindow w;
        EvBuildTrayMenu (tray_entries (windows g ++ [w]));
        EvRunHook on_new_window w]
       ++ events (show_window w uri g).
Proof.
  cbv zeta. intros Hp Hs Hload Hhw.
  destruct (lookup_path_given W path g (or_introl Hp)) as [Hl He].
  rewrite start_new_window_eq, Hl, He, Hs.
  unfold open_and_show.
  rewrite (bind_returns _ _ _ _ _ _ (open_wallet_loaded _ g wl Hload Hhw)).
  rewrite run_bind.
  change (result (create_window_for_wallet wl g))
    with (Ret (A:=ElectrumWindow) (new_window wl g)).
  cbv beta iota. cbn [after result final events fst snd app].
  destruct (show_window_run (new_window wl g) uri
              (final (create_window_for_wallet wl g))) as (S1 & S2 & _).
  rewrite S1, S2. split; [reflexivity|]. split; [reflexivity|].
  destruct uri as [u|]; [destruct (truthy (Some u)) eqn:Hu|];
    unfold show_window; rewrite ?Hu; reflexivity.
Qed.

End LoadedWallet.

Lemma start_new_window_opens_loaded_wallet_witness :
  let g := started plain_world in
  let w := new_window (software_wallet "/w1") g in
  let r := start_new_window plain_world (Some "/w1") None g in
  truthy (Some "/w1") = true
  /\ result r = Ret (Some w)
  /\ events r
     = [EvLoadWallet (Some "/w1") (Some (software_wallet "/w1"));
        EvNewWindow w; EvBuildTrayMenu ["/w1"]; EvRunHook on_new_window w;
        EvWindow w bring_to_top; EvWindow w setWindowState_active;
        EvWindow w activateWindow].
Proof.
  cbv zeta. split; [reflexivity|].
  destruct (start_new_window_opens_loaded_wallet plain_world (Some "/w1")
              None (started plain_world) (software_wallet "/w1")
              eq_refl eq_refl eq_refl eq_refl) as (H1 & _ & H3).
  split; [exact H1 | exact H3].
Defined.
